(** * fluffy-sol-bot: backtest engine, strategy evolver and trade manager

    A shallow embedding of [src/backtest_engine.py], [src/strategy_evolver.py]
    and [src/trade_manager.py], and the properties the specification states
    about them.

    Conventions of the embedding.
    - A Python [float] is a binary64 number: Rocq's primitive [float], whose
      operations are the IEEE 754 ones, NaN and infinities included.
    - A Python [int] is a [Z].  Integer literals that only ever enter float
      arithmetic ([0], [1], [20], [100]) are written as the floats they
      convert to; where a list is filled with the [int] 0 and with floats
      (the gains and losses of the oscillator) its elements are [number]s.
    - A call that can raise returns a [result]; stateful methods pass the
      state explicitly and return the state they leave behind, also when
      they raise.
    - A [dict] is an insertion-ordered association list; objects that are
      mutated through more than one reference live in a heap. *)

From Stdlib Require Import ZArith String List Bool Lia PeanoNat DecimalString.
From Stdlib Require Import Floats.
Import ListNotations.

Set Warnings "-inexact-float,-register-all".
Local Open Scope Z_scope.
Local Open Scope float_scope.

(* ================================================================= *)
(** ** Python values and exceptions *)

Inductive exn : Type :=
| ZeroDivisionError
| OverflowError
| ValueError
| TypeError
| KeyError
| RuntimeError
| FileNotFoundError.

Inductive result (A : Type) : Type :=
| Ok (a : A)
| Raise (e : exn).

Arguments Ok {A} a.
Arguments Raise {A} e.

Definition bind {A B : Type} (m : result A) (k : A -> result B) : result B :=
  match m with
  | Ok a => k a
  | Raise e => Raise e
  end.

Declare Scope py_scope.
Delimit Scope py_scope with py.
Notation "x <- m ;; k" := (bind m (fun x => k))
  (at level 61, m at next level, right associativity) : py_scope.
Notation "' p <- m ;; k" := (bind m (fun p => k))
  (at level 61, p pattern, m at next level, right associativity) : py_scope.
Local Open Scope py_scope.

Module Py.

(** [x / y] on floats: Python raises on a zero divisor (of either sign)
    where IEEE 754 would answer an infinity or NaN. *)
Definition truediv (x y : float) : result float :=
  if y =? 0 then Raise ZeroDivisionError else Ok (x / y).

(** Conversion of an [int] operand of a float operation: the nearest
    float, or [OverflowError] past the largest finite float. *)
Definition float_of_int (z : Z) : result float :=
  let f := SF2Prim (binary_normalize prec emax z 0%Z false) in
  if is_infinity f then Raise OverflowError else Ok f.

(** An [int] as the exact, unrounded operand of a binary64 operation. *)
Definition SF_of_int (z : Z) : spec_float :=
  match z with
  | Z0 => S754_zero false
  | Zpos m => S754_finite false m 0
  | Zneg m => S754_finite true m 0
  end.

(** [a / b] on two [int]s: the float nearest to the exact quotient. *)
Definition int_truediv (a b : Z) : result float :=
  if (b =? 0)%Z then Raise ZeroDivisionError
  else
    let f := SF2Prim (SFdiv prec emax (SF_of_int a) (SF_of_int b)) in
    if is_infinity f then Raise OverflowError else Ok f.

(** [x > y] and [x >= y] are [y < x] and [y <= x]. *)
Definition gt (x y : float) : bool := y <? x.
Definition ge (x y : float) : bool := y <=? x.

(** [min(a, b)]: the first argument unless the second is smaller. *)
Definition min (a b : float) : float := if b <? a then b else a.

(** [sum(l)]: left to right from [0].  (CPython 3.12 carries a
    compensation term along; a sum of zeros, the only sum a property
    below depends on, is the same either way.) *)
Definition sum (l : list float) : float := fold_left PrimFloat.add l 0.

(** A number that is an [int] or a [float]. *)
Inductive number : Type :=
| Int (z : Z)
| Float (x : float).

(** [a + b]: two [int]s add exactly, an [int] that meets a [float] is
    converted first. *)
Definition number_add (a b : number) : result number :=
  match a, b with
  | Int x, Int y => Ok (Int (x + y))
  | Int x, Float y => fx <- float_of_int x ;; Ok (Float (fx + y))
  | Float x, Int y => fy <- float_of_int y ;; Ok (Float (x + fy))
  | Float x, Float y => Ok (Float (x + y))
  end.

(** [sum(l)] on such a list: left to right from the [int] 0, so the sum
    of [int]s is an [int], also that of no element at all.  (The
    compensation term of CPython 3.12 changes no sum of zeros and makes
    no sum raise.) *)
Fixpoint sum_from (acc : number) (l : list number) : result number :=
  match l with
  | [] => Ok acc
  | x :: l' => acc' <- number_add acc x ;; sum_from acc' l'
  end.

Definition sum_numbers (l : list number) : result number :=
  sum_from (Int 0) l.

(** [a / b] for an [int] [b]: the division of two [int]s when [a] is
    one, otherwise [b] is converted and the floats are divided. *)
Definition number_truediv (a : number) (b : Z) : result float :=
  match a with
  | Int x => int_truediv x b
  | Float x => fb <- float_of_int b ;; truediv x fb
  end.

(** [sys.maxsize], which no [len] exceeds (a 64-bit build). *)
Definition sys_maxsize : Z := 2 ^ 63 - 1.

(** [l[start:]] for any integer [start]. *)
Definition slice_from {A : Type} (start : Z) (l : list A) : list A :=
  let n := Z.of_nat (length l) in
  let s := if (start <? 0)%Z then Z.max 0 (start + n) else Z.min start n in
  skipn (Z.to_nat s) l.

(** A [dict] with [str] keys, in insertion order. *)
Definition dict (V : Type) : Type := list (string * V).

Fixpoint dict_get {V : Type} (k : string) (d : dict V) : option V :=
  match d with
  | [] => None
  | (k', v) :: d' => if String.eqb k k' then Some v else dict_get k d'
  end.

Definition dict_contains {V : Type} (k : string) (d : dict V) : bool :=
  match dict_get k d with
  | Some _ => true
  | None => false
  end.

(** [d[k] = v]: a present key keeps its place, a new one goes last. *)
Fixpoint dict_set {V : Type} (k : string) (v : V) (d : dict V) : dict V :=
  match d with
  | [] => [(k, v)]
  | (k', v') :: d' =>
      if String.eqb k k' then (k', v) :: d' else (k', v') :: dict_set k v d'
  end.

(** [del d[k]]. *)
Fixpoint dict_del {V : Type} (k : string) (d : dict V) : dict V :=
  match d with
  | [] => []
  | (k', v') :: d' =>
      if String.eqb k k' then d' else (k', v') :: dict_del k d'
  end.

Definition keys {V : Type} (d : dict V) : list string := map fst d.

End Py.

(* ================================================================= *)
(** ** Vocabulary for binary64 values *)

Module Binary64.

(** Zero of either sign, or a positive number, [+inf] included. *)
Definition nonneg (x : spec_float) : bool :=
  match x with
  | S754_zero _ => true
  | S754_finite false _ _ => true
  | S754_infinity false => true
  | _ => false
  end.

(** Neither NaN nor an infinity. *)
Definition finite (x : spec_float) : bool :=
  match x with
  | S754_zero _ => true
  | S754_finite _ _ _ => true
  | _ => false
  end.

(** A finite number other than zero. *)
Definition finite_nonzero (x : spec_float) : bool :=
  match x with
  | S754_finite _ _ _ => true
  | _ => false
  end.

End Binary64.

(* ================================================================= *)
(** ** backtest_engine.py *)

Module Backtest_engine.

Module FEES.
Definition swap : float := 0.003.
Definition slippage : float := 0.005.
Definition network : float := 0.000005.
End FEES.

(** A candle, the keys [run] and [_check_signal] read. *)
Record Candle : Type := mkCandle {
  close : float;
  high : float;
  low : float;
  volume : float;
  time : Z
}.

(** The strategy dict: every key is read with [.get(key, default)], so
    each may be absent.  [vol_lookback], [stop_atr_mult] and [tp_percent]
    are the keys the evolver writes and the engine never reads. *)
Record Strategy : Type := mkStrategy {
  rsi_period : option Z;
  rsi_low : option float;
  rsi_high : option float;
  vol_mult : option float;
  vol_lookback : option Z;
  stop_atr_mult : option float;
  tp_percent : option float
}.

Definition get {A : Type} (field : option A) (default : A) : A :=
  match field with
  | Some v => v
  | None => default
  end.

Inductive Signal : Type := BUY | HOLD.

(** The loop of [_calculate_rsi] over [range(1, len(candles))]; [prev] is
    [candles[i-1]].  The zeros appended are [int]s. *)
Fixpoint gains_losses (prev : Candle) (rest : list Candle)
  : list Py.number * list Py.number :=
  match rest with
  | [] => ([], [])
  | c :: rest' =>
      let change := close c - close prev in
      let '(gains, losses) := gains_losses c rest' in
      if Py.gt change 0
      then (Py.Float change :: gains, Py.Int 0 :: losses)
      else (Py.Int 0 :: gains, Py.Float (abs change) :: losses)
  end.

Definition gains_losses_of (candles : list Candle)
  : list Py.number * list Py.number :=
  match candles with
  | [] => ([], [])
  | c0 :: rest => gains_losses c0 rest
  end.

(** [avg_gain] and [avg_loss]. *)
Definition averages (candles : list Candle) (period : Z)
  : result (float * float) :=
  let '(gains, losses) := gains_losses_of candles in
  sum_gains <- Py.sum_numbers (Py.slice_from (- period) gains) ;;
  avg_gain <- Py.number_truediv sum_gains period ;;
  sum_losses <- Py.sum_numbers (Py.slice_from (- period) losses) ;;
  avg_loss <- Py.number_truediv sum_losses period ;;
  Ok (avg_gain, avg_loss).

(** The tail of [_calculate_rsi], from [if avg_loss == 0]. *)
Definition rsi_of_averages (avg_gain avg_loss : float) : result float :=
  if avg_loss =? 0 then Ok 100
  else
    rs <- Py.truediv avg_gain avg_loss ;;
    q <- Py.truediv 100 (1 + rs) ;;
    Ok (100 - q).

Definition _calculate_rsi (candles : list Candle) (period : Z) : result float :=
  if (Z.of_nat (length candles) <? period + 1)%Z then Ok 50
  else
    '(avg_gain, avg_loss) <- averages candles period ;;
    rsi_of_averages avg_gain avg_loss.

(** [_check_signal]; [history] is [candles[:i]]. *)
Definition _check_signal (candle : Candle) (strategy : Strategy)
    (history : list Candle) : result Signal :=
  match history with
  | [] => Ok HOLD
  | _ :: _ =>
      rsi <- _calculate_rsi (history ++ [candle])
               (get (rsi_period strategy) 14%Z) ;;
      let rsi_low := get (rsi_low strategy) 57 in
      let rsi_high := get (rsi_high strategy) 63 in
      avg_vol <-
        (if (20 <=? Z.of_nat (length history))%Z
         then Py.truediv
                (Py.sum (map volume (Py.slice_from (-20) history))) 20
         else Ok (volume candle)) ;;
      let vol_mult := get (vol_mult strategy) 1.38 in
      if (rsi_low <=? rsi) && (rsi <=? rsi_high)
         && Py.gt (volume candle) (avg_vol * vol_mult)
      then Ok BUY
      else Ok HOLD
  end.

(** The [position] dict of [run]. *)
Record Position : Type := mkPosition {
  type : string;
  entry : float;
  qty : float;
  fees : float;
  sl : float;
  tp : float
}.

(** One element of [trades]. *)
Record Trade : Type := mkTrade {
  trade_entry : float;
  trade_exit : float;
  pnl : float;
  trade_type : string;
  timestamp : Z
}.

Record BacktestEngine : Type := mkEngine {
  capital : float;
  self_trades : list Trade;
  equity_curve : list float
}.

(** [BacktestEngine(initial_capital)]. *)
Definition __init__ (initial_capital : float) : BacktestEngine :=
  mkEngine initial_capital [] [].

(** The local variables of [run] that the loop carries. *)
Record Locals : Type := mkLocals {
  position : option Position;
  trades : list Trade;
  equity : float
}.

Definition enter_long (self : BacktestEngine) (candle : Candle)
  : result Position :=
  let entry := close candle * (1 + FEES.slippage) in
  qty <- Py.truediv (capital self * 0.1) entry ;;
  let fees := (qty * entry * FEES.swap) + FEES.network in
  Ok {| type := "long"; entry := entry; qty := qty; fees := fees;
        sl := entry * 0.85; tp := entry * 1.30 |}.

Definition exit_at (pos : Position) (price : float) (label : string)
    (candle : Candle) (st : Locals) : Locals :=
  let pnl := (price - entry pos) * qty pos in
  let pnl := pnl - fees pos in
  {| position := None;
     trades := trades st ++
       [ {| trade_entry := entry pos; trade_exit := price; pnl := pnl;
            trade_type := label; timestamp := time candle |} ];
     equity := equity st + pnl |}.

(** The body of the [for] loop of [run], after the signal is known. *)
Definition loop_body (self : BacktestEngine) (candle : Candle)
    (signal : Signal) (st : Locals) : result Locals :=
  match signal, position st with
  | BUY, None =>
      pos <- enter_long self candle ;;
      Ok {| position := Some pos; trades := trades st; equity := equity st |}
  | _, Some pos =>
      if low candle <=? sl pos then Ok (exit_at pos (sl pos) "SL" candle st)
      else if Py.ge (high candle) (tp pos)
      then Ok (exit_at pos (tp pos) "TP" candle st)
      else Ok st
  | HOLD, None => Ok st
  end.

(** [for i, candle in enumerate(candles)], from index [i] on; [rest] is
    [candles[i:]]. *)
Fixpoint run_loop (self : BacktestEngine) (strategy : Strategy)
    (candles : list Candle) (i : nat) (rest : list Candle) (st : Locals)
  : result Locals :=
  match rest with
  | [] => Ok st
  | candle :: rest' =>
      signal <- _check_signal candle strategy (firstn i candles) ;;
      st' <- loop_body self candle signal st ;;
      run_loop self strategy candles (S i) rest' st'
  end.

(** The dict [run] returns. *)
Record Report : Type := mkReport {
  total_trades : Z;
  winning_trades : Z;
  win_rate : float;
  total_pnl : float;
  final_equity : float;
  report_trades : list Trade
}.

Definition winners (trades : list Trade) : Z :=
  Z.of_nat (length (filter (fun t => Py.gt (pnl t) 0) trades)).

Definition report (self : BacktestEngine) (st : Locals) : result Report :=
  win_rate <-
    (match trades st with
     | [] => Ok 0
     | _ :: _ => Py.int_truediv (winners (trades st))
                   (Z.of_nat (length (trades st)))
     end) ;;
  Ok {| total_trades := Z.of_nat (length (trades st));
        winning_trades := winners (trades st);
        win_rate := win_rate;
        total_pnl := equity st - capital self;
        final_equity := equity st;
        report_trades := trades st |}.

Definition initial_locals (self : BacktestEngine) : Locals :=
  {| position := None; trades := []; equity := capital self |}.

(** [run]: the engine it leaves behind and what it returns or raises. *)
Definition run (self : BacktestEngine) (candles : list Candle)
    (strategy : Strategy) : BacktestEngine * result Report :=
  (self,
   st <- run_loop self strategy candles 0 candles (initial_locals self) ;;
   report self st).

(** *** Vocabulary for the properties of [_calculate_rsi] *)

(** No close is below the one before it. *)
Fixpoint non_decreasing_from (prev : Candle) (rest : list Candle) : bool :=
  match rest with
  | [] => true
  | c :: rest' => (close prev <=? close c) && non_decreasing_from c rest'
  end.

Definition non_decreasing_closes (candles : list Candle) : bool :=
  match candles with
  | [] => true
  | c0 :: rest => non_decreasing_from c0 rest
  end.

(** Every close is a finite number. *)
Definition finite_closes (candles : list Candle) : bool :=
  forallb (fun c => is_finite (close c)) candles.

(** *** Vocabulary for the properties of [run] *)

(** The locals after the first [k] candles have been processed. *)
Definition run_upto (self : BacktestEngine) (strategy : Strategy)
    (candles : list Candle) (k : nat) : result Locals :=
  run_loop self strategy candles 0 (firstn k candles) (initial_locals self).

Definition open_positions (st : Locals) : nat :=
  match position st with
  | Some _ => 1
  | None => 0
  end.

(** The moves of the Flat/Long machine over one candle. *)
Inductive transition (st st' : Locals) : Prop :=
| stay_flat :
    position st = None -> st' = st -> transition st st'
| go_long (pos : Position) :
    position st = None -> position st' = Some pos ->
    trades st' = trades st -> equity st' = equity st -> transition st st'
| stay_long (pos : Position) :
    position st = Some pos -> st' = st -> transition st st'
| go_flat (pos : Position) (t : Trade) :
    position st = Some pos -> position st' = None ->
    trades st' = trades st ++ [t] -> transition st st'.

(** The exit band of a position entered on [candle]. *)
Definition entered_on (self : BacktestEngine) (candle : Candle)
    (pos : Position) : Prop :=
  entry pos = close candle * (1 + 0.005)
  /\ qty pos = capital self * 0.1 / entry pos
  /\ sl pos = entry pos * 0.85
  /\ tp pos = entry pos * 1.30.

(** A trade as [run] records it: entered on [cin], closed on [cout] at
    the stop (then [cout] went as low as the stop) or at the take-profit
    (then [cout] went as high as the take-profit and stayed above the
    stop), with the pnl net of the entry fees. *)
Definition recorded_from (self : BacktestEngine) (cin cout : Candle)
    (t : Trade) : Prop :=
  let entry := close cin * (1 + 0.005) in
  let qty := capital self * 0.1 / entry in
  let fees := qty * entry * 0.003 + 0.000005 in
  trade_entry t = entry
  /\ timestamp t = time cout
  /\ pnl t = (trade_exit t - entry) * qty - fees
  /\ ((trade_type t = "SL"%string /\ trade_exit t = entry * 0.85
       /\ (low cout <=? trade_exit t) = true)
      \/ (trade_type t = "TP"%string /\ trade_exit t = entry * 1.30
          /\ (low cout <=? entry * 0.85) = false
          /\ Py.ge (high cout) (trade_exit t) = true)).

(** The position was entered on candle [i], which is not the first. *)
Definition entered_at (self : BacktestEngine) (candles : list Candle)
    (i : nat) (pos : Position) : Prop :=
  exists cin,
    (1 <= i)%nat /\ nth_error candles i = Some cin
    /\ enter_long self cin = Ok pos.

(** The trade was entered on one candle after the first and closed on a
    later one, both among the first [k]. *)
Definition trade_between (self : BacktestEngine) (candles : list Candle)
    (k : nat) (t : Trade) : Prop :=
  exists i j cin cout,
    (1 <= i < j)%nat /\ (j < k)%nat
    /\ nth_error candles i = Some cin /\ nth_error candles j = Some cout
    /\ recorded_from self cin cout t.

(** The strategy with other values under the two exit keys. *)
Definition with_exit_fields (strategy : Strategy)
    (stop_atr_mult tp_percent : option float) : Strategy :=
  mkStrategy (rsi_period strategy) (rsi_low strategy) (rsi_high strategy)
    (vol_mult strategy) (vol_lookback strategy) stop_atr_mult tp_percent.

End Backtest_engine.

(* ================================================================= *)
(** ** strategy_evolver.py *)

Module Strategy_evolver.

Definition Strategy := Backtest_engine.Strategy.

Record StrategyVariant : Type := mkVariant {
  id : string;
  params : Strategy;
  win_rate : float;
  trades : Z;
  sharpe : float;
  pnl : float;
  created : string;
  last_tested : string
}.

(** One element of [results]: ['params'] and ['win_rate'] are indexed,
    ['trades'] and ['sharpe'] are read with [.get]. *)
Module Result.
Record t : Type := mk {
  params : Strategy;
  win_rate : float;
  trades : option Z;
  sharpe : option float
}.
End Result.

(** What [_log_evolution] appends to the file at [tree_path]. *)
Module Entry.
Record t : Type := mk {
  generation : Z;
  utcnow : string;
  win_rate : float;
  params : Strategy;
  trades : Z;
  sharpe : float
}.
End Entry.

Record StrategyEvolver : Type := mkEvolver {
  base_strategy : Strategy;
  variants : list StrategyVariant;
  generation : Z;
  best_win_rate : float;
  tree_path : string;
  (** the contents of the file at [tree_path] *)
  tree : list Entry.t
}.

Definition __init__ (tree : list Entry.t) : StrategyEvolver :=
  {| base_strategy :=
       Backtest_engine.mkStrategy (Some 14%Z) (Some 57) (Some 63) (Some 1.38)
         (Some 20%Z) (Some 1.85) (Some 0.28);
     variants := [];
     generation := 0;
     best_win_rate := 0;
     tree_path := "data/strategy_tree.md";
     tree := tree |}.

(** [max(results, key=lambda x: x['win_rate'])] once the first element is
    taken: a later element replaces the running maximum only when its key
    is greater. *)
Fixpoint max_from (best : Result.t) (rest : list Result.t) : Result.t :=
  match rest with
  | [] => best
  | r :: rest' =>
      max_from (if Py.gt (Result.win_rate r) (Result.win_rate best)
                then r else best) rest'
  end.

Definition max_by_win_rate (results : list Result.t) : result Result.t :=
  match results with
  | [] => Raise ValueError
  | r :: rest => Ok (max_from r rest)
  end.

(** [_log_evolution]: the file at [tree_path] is opened for appending,
    which creates the file where it is missing but not its directory;
    [data_dir] says whether the directory is there when the call is made
    (nothing in the module creates it).  Without it the [open] raises
    and nothing is written. *)
Definition _log_evolution (data_dir : bool) (self : StrategyEvolver)
    (utcnow : string) (r : Result.t) : StrategyEvolver * result unit :=
  if data_dir
  then
    ({| base_strategy := base_strategy self;
        variants := variants self;
        generation := generation self;
        best_win_rate := best_win_rate self;
        tree_path := tree_path self;
        tree := tree self ++
          [ {| Entry.generation := generation self;
               Entry.utcnow := utcnow;
               Entry.win_rate := Result.win_rate r;
               Entry.params := Result.params r;
               Entry.trades := Backtest_engine.get (Result.trades r) 0%Z;
               Entry.sharpe := Backtest_engine.get (Result.sharpe r) 0 |} ] |},
     Ok tt)
  else (self, Raise FileNotFoundError).

Definition format_int (z : Z) : string := NilZero.string_of_int (Z.to_int z).

(** The variant [select_best] returns for [best]. *)
Definition best_variant (self : StrategyEvolver) (best : Result.t)
  : StrategyVariant :=
  {| id := "best_" ++ format_int (generation self);
     params := Result.params best;
     win_rate := Result.win_rate best;
     trades := Backtest_engine.get (Result.trades best) 0%Z;
     sharpe := 0;
     pnl := 0;
     created := "";
     last_tested := "" |}.

(** [select_best]; [utcnow] is what the clock reads if the log is
    written, [data_dir] whether the directory of the log exists then.
    The two fields are assigned before the log is opened: when that
    raises, the evolver keeps them and no variant is returned. *)
Definition select_best_in (data_dir : bool) (self : StrategyEvolver)
    (utcnow : string) (results : list Result.t)
  : StrategyEvolver * result StrategyVariant :=
  match max_by_win_rate results with
  | Raise e => (self, Raise e)
  | Ok best =>
      if Py.gt (Result.win_rate best) (best_win_rate self)
      then
        match _log_evolution data_dir
                {| base_strategy := Result.params best;
                   variants := variants self;
                   generation := generation self;
                   best_win_rate := Result.win_rate best;
                   tree_path := tree_path self;
                   tree := tree self |}
                utcnow best with
        | (self', Raise e) => (self', Raise e)
        | (self', Ok _) => (self', Ok (best_variant self' best))
        end
      else (self, Ok (best_variant self best))
  end.

(** [select_best] in a working directory that has the directory of the
    log. *)
Definition select_best (self : StrategyEvolver) (utcnow : string)
    (results : list Result.t) : StrategyEvolver * result StrategyVariant :=
  select_best_in true self utcnow results.

(** What one pass of the loop of [generate_variants] draws from
    [random], in the order of the six assignments. *)
Record Draw : Type := mkDraw {
  draw_rsi_period : Z;
  draw_rsi_low : float;
  draw_rsi_high : float;
  draw_vol_mult : float;
  draw_stop_atr_mult : float;
  draw_tp_percent : float
}.

Definition mutant (base : Strategy) (d : Draw) : Strategy :=
  Backtest_engine.mkStrategy
    (Some (draw_rsi_period d)) (Some (draw_rsi_low d))
    (Some (draw_rsi_high d)) (Some (draw_vol_mult d))
    (Backtest_engine.vol_lookback base)
    (Some (draw_stop_atr_mult d)) (Some (draw_tp_percent d)).

(** [for i in range(n)], from [i] on, [todo] passes left. *)
Fixpoint generate_from (self : StrategyEvolver) (random : nat -> Draw)
    (utcnow : nat -> string) (i todo : nat) : list StrategyVariant :=
  match todo with
  | O => []
  | S todo' =>
      {| id := "v" ++ format_int (generation self) ++ "_"
                 ++ format_int (Z.of_nat i);
         params := mutant (base_strategy self) (random i);
         win_rate := 0;
         trades := 0;
         sharpe := 0;
         pnl := 0;
         created := utcnow i;
         last_tested := "" |}
      :: generate_from self random utcnow (S i) todo'
  end.

(** [generate_variants(n)]; [random i] and [utcnow i] are what the random
    generator and the clock give in pass [i]. *)
Definition generate_variants (self : StrategyEvolver) (random : nat -> Draw)
    (utcnow : nat -> string) (n : Z)
  : StrategyEvolver * list StrategyVariant :=
  ({| base_strategy := base_strategy self;
      variants := variants self;
      generation := generation self + 1;
      best_win_rate := best_win_rate self;
      tree_path := tree_path self;
      tree := tree self |},
   generate_from self random utcnow 0 (Z.to_nat n)).

(** The dict [get_current_best] returns. *)
Module CurrentBest.
Record t : Type := mk {
base_strategy : Strategy;
best_win_rate : float;
generation : Z;
variants_tested : Z
}.
End CurrentBest.

Definition get_current_best (self : StrategyEvolver) : CurrentBest.t :=
  {| CurrentBest.base_strategy := base_strategy self;
     CurrentBest.best_win_rate := best_win_rate self;
     CurrentBest.generation := generation self;
     CurrentBest.variants_tested := Z.of_nat (length (variants self)) |}.

(** One call of [generate_variants] or of [select_best]. *)
Inductive call : Type :=
| Generate (random : nat -> Draw) (utcnow : nat -> string) (n : Z)
| Select (data_dir : bool) (utcnow : string) (results : list Result.t).

Definition perform (self : StrategyEvolver) (c : call) : StrategyEvolver :=
  match c with
  | Generate random utcnow n => fst (generate_variants self random utcnow n)
  | Select data_dir utcnow results =>
      fst (select_best_in data_dir self utcnow results)
  end.

Definition generate_calls (calls : list call) : Z :=
  Z.of_nat (length (filter (fun c => match c with
                                     | Generate _ _ _ => true
                                     | Select _ _ _ => false
                                     end) calls)).

(** The evolver after a sequence of calls. *)
Definition perform_all (self : StrategyEvolver) (calls : list call)
  : StrategyEvolver :=
  fold_left perform calls self.




(** Each win rate of the log is above the one before it, the first above
    [w]. *)
Fixpoint rising_from (w : float) (entries : list Entry.t) : Prop :=
  match entries with
  | [] => True
  | e :: entries' =>
      (w <? Entry.win_rate e) = true /\ rising_from (Entry.win_rate e) entries'
  end.

(** No result of the list has a NaN win rate. *)
Definition no_nan (results : list Result.t) : bool :=
  forallb (fun r => negb (is_nan (Result.win_rate r))) results.

(** *** Vocabulary for the properties of [select_best] *)

(** [b] is not lower than [a]: the same value, or a greater one. *)
Definition no_lower (a b : float) : Prop := a = b \/ (a <? b) = true.

(** Every selection of the sequence finds the directory of the log. *)
Definition writable (calls : list call) : bool :=
  forallb (fun c => match c with
                    | Generate _ _ _ => true
                    | Select data_dir _ _ => data_dir
                    end) calls.

(** What the calls made of an evolver that started as [self0]: the log
    grew by [appended], whose win rates rise from the best win rate of
    [self0], and the best win rate of the evolver is not below the last
    one written.  With the log [in_step], the evolver holds the win rate
    and the params of the last entry written. *)
Definition evolved (self0 self : StrategyEvolver) (appended : list Entry.t)
  : Prop :=
  tree self = tree self0 ++ appended
  /\ rising_from (best_win_rate self0) appended
  /\ no_lower (last (map Entry.win_rate appended) (best_win_rate self0))
       (best_win_rate self).

Definition in_step (self0 self : StrategyEvolver) (appended : list Entry.t)
  : Prop :=
  best_win_rate self
  = last (map Entry.win_rate appended) (best_win_rate self0)
  /\ base_strategy self
     = last (map Entry.params appended) (base_strategy self0).

(** The evolver after a sequence of [select_best] calls, each with its
    clock reading and its results. *)
Fixpoint select_best_each (self : StrategyEvolver)
    (calls : list (string * list Result.t)) : StrategyEvolver :=
  match calls with
  | [] => self
  | (utcnow, results) :: calls' =>
      select_best_each (fst (select_best self utcnow results)) calls'
  end.

End Strategy_evolver.

(* ================================================================= *)
(** ** trade_manager.py *)

Module Trade_manager.

(** The settings of [config.py] that the trade manager reads; they come
    from the process environment. *)
Module config.
Record t : Type := mk {
  MAX_POSITION_SIZE_USDC : float;
  MAX_SIMULTANEOUS_POSITIONS : Z;
  STOP_LOSS_PERCENT : float;
  TAKE_PROFIT_PERCENT : float
}.
(** The values used when the environment sets none. *)
Definition default : t := mk 50 3 (-15) 30.
End config.

Record Position : Type := mkPosition {
  mint : string;
  symbol : string;
  entry_price_usd : float;
  entry_time : float;
  position_size_usdc : float;
  token_amount : float;
  stop_loss_price : float;
  take_profit_price : float;
  current_price_usd : float;
  realized_pnl_usd : float
}.

Definition current_value_usd (self : Position) : float :=
  token_amount self * current_price_usd self.

Definition unrealized_pnl_usd (self : Position) : float :=
  current_value_usd self - position_size_usdc self.

Definition unrealized_pnl_percent (self : Position) : result float :=
  q <- Py.truediv (unrealized_pnl_usd self) (position_size_usdc self) ;;
  Ok (q * 100).

Definition should_stop_loss (self : Position) : bool :=
  current_price_usd self <=? stop_loss_price self.

Definition should_take_profit (self : Position) : bool :=
  Py.ge (current_price_usd self) (take_profit_price self).

(** The values [json.dump] writes and [json.load] reads back, as far as
    the state file uses them.  The file is modelled by the value it
    encodes: number and string literals are taken to decode to the value
    they were encoded from. *)
Inductive json : Type :=
| JNumber (x : float)
| JString (s : string)
| JObject (members : Py.dict json).

(** [asdict(self)]. *)
Definition to_dict (self : Position) : Py.dict json :=
  [ ("mint", JString (mint self));
    ("symbol", JString (symbol self));
    ("entry_price_usd", JNumber (entry_price_usd self));
    ("entry_time", JNumber (entry_time self));
    ("position_size_usdc", JNumber (position_size_usdc self));
    ("token_amount", JNumber (token_amount self));
    ("stop_loss_price", JNumber (stop_loss_price self));
    ("take_profit_price", JNumber (take_profit_price self));
    ("current_price_usd", JNumber (current_price_usd self));
    ("realized_pnl_usd", JNumber (realized_pnl_usd self)) ]%string.

Definition str_arg (k : string) (data : Py.dict json) : result string :=
  match Py.dict_get k data with
  | Some (JString s) => Ok s
  | _ => Raise TypeError
  end.

Definition float_arg (k : string) (data : Py.dict json) : result float :=
  match Py.dict_get k data with
  | Some (JNumber x) => Ok x
  | _ => Raise TypeError
  end.

(** The fields of [Position], the keyword arguments of its constructor. *)
Definition field_names : list string :=
  [ "mint"; "symbol"; "entry_price_usd"; "entry_time"; "position_size_usdc";
    "token_amount"; "stop_loss_price"; "take_profit_price";
    "current_price_usd"; "realized_pnl_usd" ]%string.

(** The keys of the dict are exactly the given names (a dict has no key
    twice, so the count settles it). *)
Definition has_exactly (names : list string) (data : Py.dict json) : bool :=
  (length data =? length names)%nat
  && forallb (fun k => Py.dict_contains k data) names.

(** [from_dict]: the class is called with the entries of [data] as
    keyword arguments, and the call raises [TypeError] when one of
    the ten is missing or one is not a field.  The class checks no value,
    and neither does this function need to where the values have the
    types of the fields, which is what [to_dict] writes.  A state file
    edited to hold all ten keys with a value of another JSON type is
    outside this model: the record below has no place for such a value,
    and the function refuses the entry although the code takes it. *)
Definition from_dict (data : Py.dict json) : result Position :=
  if negb (has_exactly field_names data) then Raise TypeError
  else
    mint <- str_arg "mint" data ;;
    symbol <- str_arg "symbol" data ;;
    entry_price_usd <- float_arg "entry_price_usd" data ;;
    entry_time <- float_arg "entry_time" data ;;
    position_size_usdc <- float_arg "position_size_usdc" data ;;
    token_amount <- float_arg "token_amount" data ;;
    stop_loss_price <- float_arg "stop_loss_price" data ;;
    take_profit_price <- float_arg "take_profit_price" data ;;
    current_price_usd <- float_arg "current_price_usd" data ;;
    realized_pnl_usd <- float_arg "realized_pnl_usd" data ;;
    Ok (mkPosition mint symbol entry_price_usd entry_time position_size_usdc
          token_amount stop_loss_price take_profit_price current_price_usd
          realized_pnl_usd).

(** One line of the trades file, and one element of [trade_history]. *)
Module TradeRecord.
Record t : Type := mk {
  timestamp : string;
  action : string;
  mint : string;
  symbol : string;
  entry_price : float;
  current_price : float;
  position_size_usdc : float;
  token_amount : float;
  pnl_usd : float;
  reason : string
}.
End TradeRecord.

(** One element of the list [check_positions] returns. *)
Module Action.
Record t : Type := mk {
  action : string;
  mint : string;
  symbol : string;
  pnl_usd : float
}.
End Action.

(** The dict [get_portfolio_summary] returns.  A line of ["positions"]
    is [str(p)]; it is kept as what the text is made from: the position
    and the clock reading behind its age. *)
Module Summary.
Record t : Type := mk {
  num_positions : Z;
  total_invested_usdc : float;
  total_current_usdc : float;
  total_pnl_usdc : float;
  total_pnl_percent : float;
  positions : list (Position * float)
}.
End Summary.

Inductive file : Type :=
| Absent
| Corrupt
| Content (j : json).

(** A reference to a [Position] object. *)
Definition ref : Type := nat.

(** The manager, the two files it owns and the clock.  [positions] holds
    references: the objects themselves are in [heap], so that a position
    taken out of the dict can still be read by whoever holds it. *)
Record State : Type := mkState {
  heap : list Position;
  positions : Py.dict ref;
  trade_history : list TradeRecord.t;
  STATE_FILE : file;
  TRADES_LOG_FILE : list TradeRecord.t;
  ticks : nat
}.

(** What the manager calls and does not own: the clock, the swap
    executor behind [_execute_buy] and [_execute_sell] (both answer [None]
    on any failure), and the price feed. *)
Record Env : Type := mkEnv {
  time_time : nat -> float;
  datetime_now : nat -> string;
  _execute_buy : string -> float -> option float;
  _execute_sell : string -> float -> option float;
  get_token_prices : list string -> Py.dict float
}.

Definition null : Position := mkPosition "" "" 0 0 0 0 0 0 0 0.

(** References held by the manager are always allocated; [null] is never
    read. *)
Definition deref (st : State) (r : ref) : Position := nth r (heap st) null.

Fixpoint replace_nth {A : Type} (n : nat) (x : A) (l : list A) : list A :=
  match l, n with
  | [], _ => []
  | _ :: l', O => x :: l'
  | y :: l', S n' => y :: replace_nth n' x l'
  end.

Definition store (r : ref) (p : Position) (st : State) : State :=
  mkState (replace_nth r p (heap st)) (positions st) (trade_history st)
    (STATE_FILE st) (TRADES_LOG_FILE st) (ticks st).

Definition alloc (p : Position) (st : State) : ref * State :=
  (length (heap st),
   mkState (heap st ++ [p]) (positions st) (trade_history st)
     (STATE_FILE st) (TRADES_LOG_FILE st) (ticks st)).

Definition set_positions (d : Py.dict ref) (st : State) : State :=
  mkState (heap st) d (trade_history st) (STATE_FILE st)
    (TRADES_LOG_FILE st) (ticks st).

Definition tick (st : State) : State :=
  mkState (heap st) (positions st) (trade_history st) (STATE_FILE st)
    (TRADES_LOG_FILE st) (S (ticks st)).

Definition set_current_price_usd (p : Position) (x : float) : Position :=
  mkPosition (mint p) (symbol p) (entry_price_usd p) (entry_time p)
    (position_size_usdc p) (token_amount p) (stop_loss_price p)
    (take_profit_price p) x (realized_pnl_usd p).

Definition set_realized_pnl_usd (p : Position) (x : float) : Position :=
  mkPosition (mint p) (symbol p) (entry_price_usd p) (entry_time p)
    (position_size_usdc p) (token_amount p) (stop_loss_price p)
    (take_profit_price p) (current_price_usd p) x.

(** The position set by value: each key with the fields of its object. *)
Definition snapshot (st : State) : Py.dict Position :=
  map (fun kv => (fst kv, deref st (snd kv))) (positions st).

(** One entry of the dict comprehension in [_save_state]. *)
Definition encode (kv : string * Position) : string * json :=
  (fst kv, JObject (to_dict (snd kv))).

(** The value [_save_state] dumps. *)
Definition state_json (d : Py.dict Position) (last_updated : float) : json :=
  JObject [ ("positions"%string, JObject (map encode d));
            ("last_updated"%string, JNumber last_updated) ].

(** Every reference in the position set points into the heap. *)
Definition allocated (st : State) : Prop :=
  Forall (fun kv => (snd kv < length (heap st))%nat) (positions st).

(** The loop of [_load_state]: the first exception ends it and is
    swallowed by the [except] around it, the positions read until then
    stay. *)
Fixpoint load_items (items : Py.dict json) (st : State) : State :=
  match items with
  | [] => st
  | (mint, JObject pos_data) :: items' =>
      match from_dict pos_data with
      | Ok p =>
          let '(r, st) := alloc p st in
          load_items items' (set_positions (Py.dict_set mint r (positions st)) st)
      | Raise _ => st
      end
  | (_, _) :: _ => st
  end.

Definition _load_state (st : State) : State :=
  match STATE_FILE st with
  | Absent => st
  | Corrupt => st
  | Content (JObject state) =>
      match Py.dict_get "positions" state with
      | None => st
      | Some (JObject positions_data) => load_items positions_data st
      | Some _ => st
      end
  | Content _ => st
  end.

(** [TradeManager(...)] in a process that finds the files as [disk] left
    them. *)
Definition __init__ (disk : State) : State :=
  _load_state
    (mkState [] [] [] (STATE_FILE disk) (TRADES_LOG_FILE disk) (ticks disk)).

Section Methods.

Variable cfg : config.t.
Variable env : Env.

Definition _log_trade (action : string) (position : Position)
    (reason : string) (st : State) : State :=
  let trade_record :=
    {| TradeRecord.timestamp := datetime_now env (ticks st);
       TradeRecord.action := action;
       TradeRecord.mint := mint position;
       TradeRecord.symbol := symbol position;
       TradeRecord.entry_price := entry_price_usd position;
       TradeRecord.current_price := current_price_usd position;
       TradeRecord.position_size_usdc := position_size_usdc position;
       TradeRecord.token_amount := token_amount position;
       TradeRecord.pnl_usd :=
         if String.eqb action "CLOSE" then realized_pnl_usd position else 0;
       TradeRecord.reason := reason |} in
  mkState (heap st) (positions st) (trade_history st ++ [trade_record])
    (STATE_FILE st) (TRADES_LOG_FILE st ++ [trade_record]) (S (ticks st)).

Definition _save_state (st : State) : State :=
  mkState (heap st) (positions st) (trade_history st)
    (Content (state_json (snapshot st) (time_time env (ticks st))))
    (TRADES_LOG_FILE st) (S (ticks st)).

(** [str(position)]: it evaluates [unrealized_pnl_percent], which
    divides by the position size, and then [age_hours], which reads the
    clock. *)
Definition __str__ (position : Position) (st : State) : State * result unit :=
  match unrealized_pnl_percent position with
  | Raise e => (st, Raise e)
  | Ok _ => (tick st, Ok tt)
  end.

Definition open_position (mint symbol : string) (price_usd amount_usdc : float)
    (st : State) : State * result (option ref) :=
  if Py.dict_contains mint (positions st) then (st, Ok None)
  else if (config.MAX_SIMULTANEOUS_POSITIONS cfg
             <=? Z.of_nat (length (positions st)))%Z
  then (st, Ok None)
  else
    let position_size := Py.min amount_usdc (config.MAX_POSITION_SIZE_USDC cfg) in
    let stop_loss_price :=
      price_usd * (1 + config.STOP_LOSS_PERCENT cfg / 100) in
    let take_profit_price :=
      price_usd * (1 + config.TAKE_PROFIT_PERCENT cfg / 100) in
    match _execute_buy env mint position_size with
    | None => (st, Ok None)
    | Some token_amount =>
        if token_amount <=? 0 then (st, Ok None)
        else
          let position :=
            {| mint := mint;
               symbol := symbol;
               entry_price_usd := price_usd;
               entry_time := time_time env (ticks st);
               position_size_usdc := position_size;
               token_amount := token_amount;
               stop_loss_price := stop_loss_price;
               take_profit_price := take_profit_price;
               current_price_usd := price_usd;
               realized_pnl_usd := 0 |} in
          let '(r, st1) := alloc position (tick st) in
          let st2 := set_positions (Py.dict_set mint r (positions st1)) st1 in
          let st3 := _log_trade "OPEN" (deref st2 r) "" st2 in
          let st4 := _save_state st3 in
          (* logger.info(f"... {position}") *)
          match __str__ (deref st4 r) st4 with
          | (st5, Raise e) => (st5, Raise e)
          | (st5, Ok _) => (st5, Ok (Some r))
          end
    end.

Definition close_position (mint reason : string) (st : State)
  : State * result (option float) :=
  match Py.dict_get mint (positions st) with
  | None => (st, Ok None)
  | Some r =>
      (* logger.info(f"... {position.unrealized_pnl_percent:+.1f}% ...") *)
      match unrealized_pnl_percent (deref st r) with
      | Raise e => (st, Raise e)
      | Ok _ =>
          match _execute_sell env mint (token_amount (deref st r)) with
          | None => (st, Ok None)
          | Some usdc_received =>
              let realized_pnl :=
                usdc_received - position_size_usdc (deref st r) in
              let st1 :=
                store r (set_realized_pnl_usd (deref st r) realized_pnl) st in
              let st2 := _log_trade "CLOSE" (deref st1 r) reason st1 in
              let st3 := set_positions (Py.dict_del mint (positions st2)) st2 in
              let st4 := _save_state st3 in
              (st4, Ok (Some usdc_received))
          end
      end
  end.

(** A triggered exit inside [check_positions]: the call of
    [close_position] and the action appended when it reports success. *)
Definition trigger (label mint : string) (r : ref) (st : State)
    (actions : list Action.t) : State * result (list Action.t) :=
  match close_position mint label st with
  | (st', Raise e) => (st', Raise e)
  | (st', Ok None) => (st', Ok actions)
  | (st', Ok (Some _)) =>
      (st',
       Ok (actions ++
             [ {| Action.action := label;
                  Action.mint := mint;
                  Action.symbol := symbol (deref st' r);
                  Action.pnl_usd := realized_pnl_usd (deref st' r) |} ]))
  end.

(** The body of the [for] loop of [check_positions]; [r] is the object
    the loop variable [position] refers to. *)
Definition check_one (prices : Py.dict float) (mint : string) (r : ref)
    (st : State) (actions : list Action.t)
  : State * result (list Action.t) :=
  match Py.dict_get mint prices with
  | None => (st, Ok actions)
  | Some price =>
      let st1 := store r (set_current_price_usd (deref st r) price) st in
      if should_stop_loss (deref st1 r)
      then trigger "stop_loss" mint r st1 actions
      else if should_take_profit (deref st1 r)
      then trigger "take_profit" mint r st1 actions
      else (st1, Ok actions)
  end.

(** [for mint, position in self.positions.items()].  The iterator
    remembers the size [used] the dict had when the loop began and,
    each time it is asked for the next item, first compares it with the
    current size: "dictionary changed size during iteration". *)
Fixpoint check_loop (prices : Py.dict float) (used : nat)
    (items : Py.dict ref) (st : State) (actions : list Action.t)
  : State * result (list Action.t) :=
  if negb (length (positions st) =? used)%nat then (st, Raise RuntimeError)
  else
    match items with
    | [] => (st, Ok actions)
    | (mint, r) :: items' =>
        match check_one prices mint r st actions with
        | (st', Raise e) => (st', Raise e)
        | (st', Ok actions') => check_loop prices used items' st' actions'
        end
    end.

Definition check_positions (st : State) : State * result (list Action.t) :=
  match positions st with
  | [] => (st, Ok [])
  | _ :: _ =>
      let mints := Py.keys (positions st) in
      let prices := get_token_prices env mints in
      check_loop prices (length (positions st)) (positions st) st []
  end.

(** [[str(p) for p in self.positions.values()]], from the object
    [refs] starts with. *)
Fixpoint render (refs : list ref) (st : State)
    (lines : list (Position * float))
  : State * result (list (Position * float)) :=
  match refs with
  | [] => (st, Ok lines)
  | r :: refs' =>
      let now := time_time env (ticks st) in
      match __str__ (deref st r) st with
      | (st', Raise e) => (st', Raise e)
      | (st', Ok _) => render refs' st' (lines ++ [(deref st r, now)])
      end
  end.

Definition get_portfolio_summary (st : State) : State * result Summary.t :=
  let values := map (fun kv => deref st (snd kv)) (positions st) in
  let total_invested := Py.sum (map position_size_usdc values) in
  let total_current := Py.sum (map current_value_usd values) in
  let total_pnl := total_current - total_invested in
  match (if Py.gt total_invested 0
         then q <- Py.truediv total_pnl total_invested ;; Ok (q * 100)
         else Ok 0) with
  | Raise e => (st, Raise e)
  | Ok total_pnl_percent =>
      match render (map snd (positions st)) st [] with
      | (st', Raise e) => (st', Raise e)
      | (st', Ok lines) =>
          (st',
           Ok {| Summary.num_positions := Z.of_nat (length (positions st));
                 Summary.total_invested_usdc := total_invested;
                 Summary.total_current_usdc := total_current;
                 Summary.total_pnl_usdc := total_pnl;
                 Summary.total_pnl_percent := total_pnl_percent;
                 Summary.positions := lines |})
      end
  end.

End Methods.

(** *** Vocabulary for the properties of [open_position] *)

(** The three reasons for which [open_position] refuses. *)
Definition refused (cfg : config.t) (env : Env) (mint : string)
    (amount_usdc : float) (st : State) : bool :=
  Py.dict_contains mint (positions st)
  || (config.MAX_SIMULTANEOUS_POSITIONS cfg <=? Z.of_nat (length (positions st)))%Z
  || match _execute_buy env mint
             (Py.min amount_usdc (config.MAX_POSITION_SIZE_USDC cfg)) with
     | None => true
     | Some token_amount => token_amount <=? 0
     end.

(** The object [open_position] creates when the buy is filled with
    [token_amount]. *)
Definition new_position (cfg : config.t) (env : Env) (mint symbol : string)
    (price_usd amount_usdc token_amount : float) (st : State) : Position :=
  {| mint := mint;
     symbol := symbol;
     entry_price_usd := price_usd;
     entry_time := time_time env (ticks st);
     position_size_usdc :=
       Py.min amount_usdc (config.MAX_POSITION_SIZE_USDC cfg);
     token_amount := token_amount;
     stop_loss_price :=
       price_usd * (1 + config.STOP_LOSS_PERCENT cfg / 100);
     take_profit_price :=
       price_usd * (1 + config.TAKE_PROFIT_PERCENT cfg / 100);
     current_price_usd := price_usd;
     realized_pnl_usd := 0 |}.

(** *** Vocabulary for sequences of calls *)

(** The position set is a dict of distinct objects: no key twice, no
    object under two keys, every reference allocated. *)
Definition consistent (st : State) : Prop :=
  NoDup (Py.keys (positions st))
  /\ NoDup (map snd (positions st))
  /\ allocated st.

(** One call of a public method. *)
Inductive call : Type :=
| Open (mint symbol : string) (price_usd amount_usdc : float)
| Close (mint reason : string)
| Check
| Summarize.

(** The state a call leaves, whether it returns or raises; each call
    meets the world as it is at that moment. *)
Definition perform (cfg : config.t) (st : State) (ec : Env * call) : State :=
  match snd ec with
  | Open mint symbol price_usd amount_usdc =>
      fst (open_position cfg (fst ec) mint symbol price_usd amount_usdc st)
  | Close mint reason => fst (close_position (fst ec) mint reason st)
  | Check => fst (check_positions (fst ec) st)
  | Summarize => fst (get_portfolio_summary (fst ec) st)
  end.

Definition perform_all (cfg : config.t) (calls : list (Env * call))
    (st : State) : State :=
  fold_left (perform cfg) calls st.

(** From [st] to [st'] the history and the trades file were only appended
    to, and with the same records. *)
Definition logs_extended (st st' : State) : Prop :=
  exists records,
    trade_history st' = trade_history st ++ records
    /\ TRADES_LOG_FILE st' = TRADES_LOG_FILE st ++ records.

(** An entry of the state file on which [Position.from_dict] raises: a
    value that is not an object and so gives no keyword arguments, or an
    object whose keys are not exactly the ten fields. *)
Definition damaged (entry : json) : bool :=
  match entry with
  | JObject fields => negb (has_exactly field_names fields)
  | _ => true
  end.

(** The manager holds a position of size zero under [mint]. *)
Definition zero_size_at (mint : string) (st : State) : bool :=
  match Py.dict_get mint (positions st) with
  | Some r => position_size_usdc (deref st r) =? 0
  | None => false
  end.

(** A position with the price the feed has for its key, if any. *)
Definition refresh (prices : Py.dict float) (kv : string * Position)
  : string * Position :=
  match Py.dict_get (fst kv) prices with
  | Some price => (fst kv, set_current_price_usd (snd kv) price)
  | None => kv
  end.

(** Neither exit condition holds for the position at [price]. *)
Definition quiet_at (p : Position) (price : float) : bool :=
  negb (should_stop_loss (set_current_price_usd p price))
  && negb (should_take_profit (set_current_price_usd p price)).

(** The pass of [check_positions] over the position leaves it open and
    goes on to the next: there is no price for it, or neither exit
    condition holds at its price, or its sale is not filled. *)
Definition passed_over (env : Env) (prices : Py.dict float) (st : State)
    (kv : string * ref) : Prop :=
  match Py.dict_get (fst kv) prices with
  | None => True
  | Some price =>
      quiet_at (deref st (snd kv)) price = true
      \/ ((position_size_usdc (deref st (snd kv)) =? 0) = false
          /\ _execute_sell env (fst kv) (token_amount (deref st (snd kv)))
             = None)
  end.

(** No position of the set triggers at the prices of the feed. *)
Definition nothing_triggers (prices : Py.dict float) (st : State) : Prop :=
  forall mint r price,
    In (mint, r) (positions st) ->
    Py.dict_get mint prices = Some price ->
    quiet_at (deref st r) price = true.

End Trade_manager.

(* ================================================================= *)
(** ** Sample inputs *)

Module Samples.

Import Backtest_engine.

Definition engine : BacktestEngine := __init__ 1000.

Definition params : Strategy :=
  mkStrategy (Some 3%Z) (Some 30) (Some 100) None None (Some 1.85) (Some 0.28).

(** Twenty-one quiet candles that alternate between 100 and 101.5, a
    volume surge that the oscillator accepts (entry), a candle that
    reaches both exit levels, a second entry and a candle that only
    reaches the take-profit level. *)
Definition quiet (i : nat) : Candle :=
  let x := if Nat.even i then 100 else 101.5 in
  mkCandle x x x 1000000 (Z.of_nat i).

Definition candles : list Candle :=
  map quiet (seq 0 21) ++
  [ mkCandle 100.7 100.7 100.7 1500000 21;
    mkCandle 100 140 80 1 22;
    mkCandle 100.9 100.9 100.9 2000000 23;
    mkCandle 101.3 101.3 101.3 3000000 24;
    mkCandle 100 140 90 1 25;
    mkCandle 100.2 100.2 100.2 9000000 26 ].

Definition locals_after (k : nat) : Locals :=
  match run_upto engine params candles k with
  | Ok st => st
  | Raise _ => initial_locals engine
  end.

Definition held_after (k : nat) : Position :=
  match position (locals_after k) with
  | Some pos => pos
  | None => mkPosition "" 0 0 0 0 0
  end.

Definition run_report : Report :=
  match snd (run engine candles params) with
  | Ok r => r
  | Raise _ => mkReport 0 0 0 0 0 []
  end.

Definition rising : list Candle :=
  [ mkCandle 100 100 100 1000 0; mkCandle 100 100 100 1000 1;
    mkCandle 101.5 102 100 1000 2; mkCandle 103 103 101 1000 3 ].

(** Two closes that are both infinite. *)
Definition unbounded : list Candle :=
  [ mkCandle infinity infinity infinity 1000 0;
    mkCandle infinity infinity infinity 1000 1 ].

End Samples.

Module Evolver_samples.

Import Strategy_evolver.

Definition evolver : StrategyEvolver := __init__ [].

Definition results : list Result.t :=
  [ Result.mk Samples.params 0.61 (Some 120%Z) (Some 1.4);
    Result.mk (base_strategy evolver) 0.72 None None;
    Result.mk Samples.params 0.72 (Some 300%Z) None ].

Definition weaker : list Result.t :=
  [ Result.mk Samples.params 0.55 (Some 90%Z) None ].

End Evolver_samples.

Module Manager_samples.

Import Trade_manager.

Definition alpha : Position :=
  mkPosition "MintA" "AAA" 1 1700000000 50 50 0.85 1.3 1 0.

Definition beta : Position :=
  mkPosition "MintB" "BBB" 2 1700000100 50 25 1.7 2.6 2 0.

(** Stop and take-profit at the same level, as a configuration with both
    percentages at zero sets them. *)
Definition gamma : Position :=
  mkPosition "MintC" "CCC" 1 1700000200 50 50 1 1 1 0.

Definition two_open : State :=
  mkState [alpha; beta] [("MintA"%string, 0%nat); ("MintB"%string, 1%nat)]
    [] Absent [] 0.

Definition one_open : State :=
  mkState [gamma] [("MintC"%string, 0%nat)] [] Absent [] 0.

Definition world (prices fills sells : Py.dict float) : Env :=
  mkEnv (fun n => 1700000300 + of_uint63 (Uint63.of_Z (Z.of_nat n)))
    (fun n => "2023-11-14T22:18:20"%string)
    (fun mint _ => Py.dict_get mint fills)
    (fun mint _ => Py.dict_get mint sells)
    (fun _ => prices).

(** AAA has fallen through its stop, BBB has not moved much; the sale of
    AAA is filled for 40 USDC. *)
Definition falling : Env :=
  world [("MintA"%string, 0.8); ("MintB"%string, 2.1)] []
    [("MintA"%string, 40)].

(** CCC is quoted at the level of both its stop and its take-profit. *)
Definition level : Env :=
  world [("MintC"%string, 1)] [] [("MintC"%string, 49)].

(** CCC is quoted at that level and nobody buys it. *)
Definition unsold : Env :=
  world [("MintC"%string, 1)] [] [].

(** A buy of CCC is filled with 33 tokens. *)
Definition buying : Env :=
  world [] [("MintC"%string, 33)] [].

(** A process that holds CCC in memory, on the disk a manager holding
    AAA and BBB left behind. *)
Definition restarted : State :=
  mkState [gamma] [("MintC"%string, 0%nat)] []
    (STATE_FILE (_save_state falling two_open)) [] 5.

(** A state file whose second entry lost its fields. *)
Definition torn : State :=
  mkState [] [] []
    (Content
       (JObject
          [ ("positions"%string,
             JObject (map encode [("MintA"%string, alpha)]
                        ++ ("MintB"%string, JObject [])
                        :: map encode [("MintC"%string, gamma)]));
            ("last_updated"%string, JNumber 1700000250) ]))
    [] 0.

End Manager_samples.

(* ================================================================= *)
(** * Properties *)

(** ** Binary64 comparisons *)

Section Float_order.

Let cmp_pos (m1 : positive) (e1 : Z) (m2 : positive) (e2 : Z) : comparison :=
  match (e1 ?= e2)%Z with
  | Lt => Lt
  | Gt => Gt
  | Eq => Pos.compare_cont Eq m1 m2
  end.

Let cmp_neg (m1 : positive) (e1 : Z) (m2 : positive) (e2 : Z) : comparison :=
  match (e1 ?= e2)%Z with
  | Lt => Gt
  | Gt => Lt
  | Eq => CompOpp (Pos.compare_cont Eq m1 m2)
  end.

Lemma cmp_pos_Lt m1 e1 m2 e2 :
  cmp_pos m1 e1 m2 e2 = Lt <->
  (e1 < e2 \/ (e1 = e2 /\ (m1 < m2)%positive))%Z.
Proof.
  unfold cmp_pos. change (Pos.compare_cont Eq m1 m2) with (m1 ?= m2)%positive.
  destruct (Z.compare_spec e1 e2); destruct (Pos.compare_spec m1 m2);
    split; intros; try discriminate; try reflexivity; try lia.
Qed.

Lemma cmp_neg_Lt m1 e1 m2 e2 :
  cmp_neg m1 e1 m2 e2 = Lt <->
  (e2 < e1 \/ (e1 = e2 /\ (m2 < m1)%positive))%Z.
Proof.
  unfold cmp_neg. change (Pos.compare_cont Eq m1 m2) with (m1 ?= m2)%positive.
  destruct (Z.compare_spec e1 e2); destruct (Pos.compare_spec m1 m2);
    simpl; split; intros; try discriminate; try reflexivity; try lia.
Qed.

Lemma SFcompare_Lt_trans (a b c : spec_float) :
  SFcompare a b = Some Lt -> SFcompare b c = Some Lt ->
  SFcompare a c = Some Lt.
Proof.
  destruct a as [sa | sa | | sa ma ea], b as [sb | sb | | sb mb eb],
    c as [sc | sc | | sc mc ec];
    try destruct sa; try destruct sb; try destruct sc; simpl;
    try discriminate; try reflexivity; intros Hab Hbc.
  - f_equal. injection Hab as Hab. injection Hbc as Hbc.
    apply (cmp_neg_Lt ma ea mc ec).
    apply (cmp_neg_Lt ma ea mb eb) in Hab.
    apply (cmp_neg_Lt mb eb mc ec) in Hbc. lia.
  - f_equal. injection Hab as Hab. injection Hbc as Hbc.
    apply (cmp_pos_Lt ma ea mc ec).
    apply (cmp_pos_Lt ma ea mb eb) in Hab.
    apply (cmp_pos_Lt mb eb mc ec) in Hbc. lia.
Qed.

Lemma SFcompare_refl_not_Lt (a : spec_float) : SFcompare a a <> Some Lt.
Proof.
  destruct a as [s | s | | s m e]; try destruct s; simpl; try discriminate.
  - intros H. injection H as H. apply (cmp_neg_Lt m e m e) in H. lia.
  - intros H. injection H as H. apply (cmp_pos_Lt m e m e) in H. lia.
Qed.

Lemma ltb_trans (x y z : float) :
  (x <? y) = true -> (y <? z) = true -> (x <? z) = true.
Proof.
  rewrite !ltb_spec. unfold SFltb. intros Hxy Hyz.
  destruct (SFcompare (Prim2SF x) (Prim2SF y)) as [[| |] |] eqn:Exy;
    try discriminate.
  destruct (SFcompare (Prim2SF y) (Prim2SF z)) as [[| |] |] eqn:Eyz;
    try discriminate.
  now rewrite (SFcompare_Lt_trans _ _ _ Exy Eyz).
Qed.

Lemma ltb_irrefl (x : float) : (x <? x) = false.
Proof.
  rewrite ltb_spec. unfold SFltb.
  destruct (SFcompare (Prim2SF x) (Prim2SF x)) as [[| |] |] eqn:E;
    try reflexivity.
  now apply SFcompare_refl_not_Lt in E.
Qed.

End Float_order.

(** ** Binary64 arithmetic: signs *)

Section Rounding_signs.

Lemma shr_1_nonneg (r : shr_record) :
  (0 <= shr_m r)%Z -> (0 <= shr_m (shr_1 r))%Z.
Proof.
  destruct r as [m r s]. simpl.
  destruct m as [| [p | p |] | [p | p |]]; simpl; lia.
Qed.

Lemma iter_pos_shr_1_nonneg (n : positive) :
  forall r : shr_record,
    (0 <= shr_m r)%Z -> (0 <= shr_m (iter_pos shr_1 n r))%Z.
Proof.
  induction n as [n IH | n IH |]; intros r H; simpl.
  - apply IH, IH, shr_1_nonneg, H.
  - apply IH, IH, H.
  - apply shr_1_nonneg, H.
Qed.

Lemma shr_fexp_nonneg (m e : Z) (l : location) :
  (0 <= m)%Z -> (0 <= shr_m (fst (shr_fexp prec emax m e l)))%Z.
Proof.
  intros H. unfold shr_fexp, shr.
  assert (H0 : (0 <= shr_m (shr_record_of_loc m l))%Z)
    by (destruct l as [| []]; exact H).
  destruct (fexp prec emax (Zdigits2 m + e) - e)%Z; simpl; auto.
  now apply iter_pos_shr_1_nonneg.
Qed.

Lemma round_nearest_even_nonneg (m : Z) (l : location) :
  (0 <= m)%Z -> (0 <= round_nearest_even m l)%Z.
Proof.
  intros H. unfold round_nearest_even.
  destruct l as [| []]; try destruct (Z.even m); lia.
Qed.

Lemma binary_round_aux_nonneg (m e : Z) (l : location) :
  (0 <= m)%Z ->
  Binary64.nonneg (binary_round_aux prec emax false m e l) = true.
Proof.
  intros H. unfold binary_round_aux.
  pose proof (shr_fexp_nonneg m e l H) as H1.
  destruct (shr_fexp prec emax m e l) as [mrs' e']. simpl in H1.
  pose proof (shr_fexp_nonneg
                (round_nearest_even (shr_m mrs') (loc_of_shr_record mrs'))
                e' loc_Exact
                (round_nearest_even_nonneg _ _ H1)) as H2.
  destruct (shr_fexp prec emax
              (round_nearest_even (shr_m mrs') (loc_of_shr_record mrs'))
              e' loc_Exact) as [mrs'' e''].
  simpl in H2.
  destruct (shr_m mrs'') as [| p | p]; [ reflexivity | | lia ].
  destruct (e'' <=? emax - prec)%Z; reflexivity.
Qed.

Lemma binary_normalize_nonneg (m e : Z) :
  (0 <= m)%Z -> Binary64.nonneg (binary_normalize prec emax m e false) = true.
Proof.
  intros H. unfold binary_normalize.
  destruct m as [| p | p]; [ reflexivity | | lia ].
  unfold binary_round.
  destruct (shl_align p e (fexp prec emax (Z.pos (digits2_pos p) + e)))
    as [mz ez].
  apply binary_round_aux_nonneg. lia.
Qed.

End Rounding_signs.

Section Subtraction_sign.

Lemma digits2_pos_size (p : positive) : digits2_pos p = Pos.size p.
Proof. induction p; simpl; congruence. Qed.

Lemma digits_bounds (p : positive) :
  (2 ^ (Z.pos (digits2_pos p) - 1) <= Z.pos p < 2 ^ Z.pos (digits2_pos p))%Z.
Proof.
  rewrite digits2_pos_size.
  pose proof (Pos.size_gt p) as Hgt. pose proof (Pos.size_le p) as Hle.
  apply Pos2Z.pos_lt_pos in Hgt. apply Pos2Z.pos_le_pos in Hle.
  rewrite Pos2Z.inj_pow in Hgt, Hle.
  replace (Z.pos (Pos.size p)) with (Z.succ (Z.pos (Pos.size p) - 1)) in Hle
    by lia.
  rewrite Z.pow_succ_r in Hle by lia.
  change (Z.pos p~0) with (2 * Z.pos p)%Z in Hle. lia.
Qed.

Lemma valid_bounds (s : bool) (m : positive) (e : Z) :
  valid_binary (S754_finite s m e) = true ->
  (-1074 <= e <= 971
   /\ Z.pos (digits2_pos m) <= 53
   /\ (-1074 < e -> Z.pos (digits2_pos m) = 53))%Z.
Proof.
  unfold SpecFloat.valid_binary, bounded, canonical_mantissa, fexp, emin.
  change prec with 53%Z. change emax with 1024%Z.
  intros H. apply andb_true_iff in H. destruct H as [H1 H2].
  apply Z.eqb_eq in H1. apply Z.leb_le in H2. lia.
Qed.

Lemma shl_align_fst (m : positive) (e ez : Z) :
  (ez <= e)%Z -> Z.pos (fst (shl_align m e ez)) = (Z.pos m * 2 ^ (e - ez))%Z.
Proof.
  intros H. unfold shl_align.
  destruct (ez - e)%Z as [| d | d] eqn:E; cbn [fst].
  - replace (e - ez)%Z with 0%Z by lia. change (2 ^ 0)%Z with 1%Z. lia.
  - lia.
  - change (PosDef.Pos.iter xO m d) with (shift_pos d m).
    rewrite shift_pos_correct, Z.pow_pos_fold.
    replace (e - ez)%Z with (Z.pos d) by lia. lia.
Qed.

(** Of two valid positive magnitudes, the one with the smaller exponent
    is the smaller number. *)
Lemma aligned_le (s s' : bool) (m1 m2 : positive) (e1 e2 : Z) :
  valid_binary (S754_finite s m1 e1) = true ->
  valid_binary (S754_finite s' m2 e2) = true ->
  (e1 < e2 \/ (e1 = e2 /\ Z.pos m1 <= Z.pos m2))%Z ->
  (Z.pos m1 * 2 ^ (e1 - Z.min e2 e1) <= Z.pos m2 * 2 ^ (e2 - Z.min e2 e1))%Z.
Proof.
  intros V1 V2 [Hlt | [Heq Hle]].
  - apply valid_bounds in V1, V2.
    destruct V1 as (B1 & D1 & _). destruct V2 as (B2 & _ & N2).
    rewrite Z.min_r by lia. replace (e1 - e1)%Z with 0%Z by lia.
    pose proof (digits_bounds m1) as [_ U1].
    pose proof (digits_bounds m2) as [L2 _].
    rewrite N2 in L2 by lia.
    assert (Z.pos m1 < 2 ^ 53)%Z.
    { eapply Z.lt_le_trans; [ exact U1 |].
      apply Z.pow_le_mono_r; lia. }
    assert (2 ^ 1 <= 2 ^ (e2 - e1))%Z by (apply Z.pow_le_mono_r; lia).
    change (2 ^ (53 - 1))%Z with 4503599627370496%Z in L2.
    change (2 ^ 53)%Z with 9007199254740992%Z in H.
    change (2 ^ 1)%Z with 2%Z in H0. change (2 ^ 0)%Z with 1%Z. nia.
  - subst. rewrite Z.min_id. replace (e2 - e2)%Z with 0%Z by lia.
    change (2 ^ 0)%Z with 1%Z. lia.
Qed.

Lemma SFsub_nonneg (x y : spec_float) :
  valid_binary x = true -> valid_binary y = true ->
  Binary64.finite x = true -> Binary64.finite y = true ->
  SFleb x y = true ->
  Binary64.nonneg (SFsub prec emax y x) = true.
Proof.
  intros Vx Vy Fx Fy Hle.
  destruct x as [sx | sx | | sx mx ex]; try discriminate;
    destruct y as [sy | sy | | sy my ey]; try discriminate.
  - destruct sx, sy; reflexivity.
  - unfold SFleb in Hle. simpl in Hle. destruct sy; [ discriminate | reflexivity ].
  - unfold SFleb in Hle. simpl in Hle. destruct sx; [ reflexivity | discriminate ].
  - unfold SFsub. apply binary_normalize_nonneg.
    rewrite !shl_align_fst by lia.
    unfold SFleb in Hle. simpl in Hle.
    change (Pos.compare_cont Eq mx my) with (mx ?= my)%positive in Hle.
    assert (P1 : (0 < Z.pos mx * 2 ^ (ex - Z.min ey ex))%Z)
      by (apply Z.mul_pos_pos; [ lia | apply Z.pow_pos_nonneg; lia ]).
    assert (P2 : (0 < Z.pos my * 2 ^ (ey - Z.min ey ex))%Z)
      by (apply Z.mul_pos_pos; [ lia | apply Z.pow_pos_nonneg; lia ]).
    destruct sx, sy; unfold cond_Zopp; try discriminate.
    + (* both negative: x <= y means |y| <= |x| *)
      assert (Hord : (ey < ex \/ (ey = ex /\ Z.pos my <= Z.pos mx))%Z).
      { destruct (Z.compare_spec ex ey); destruct (Pos.compare_spec mx my);
          simpl in Hle; try discriminate; try lia. }
      pose proof (aligned_le _ _ _ _ _ _ Vy Vx Hord) as H.
      rewrite (Z.min_comm ex ey) in H. lia.
    + lia.
    + assert (Hord : (ex < ey \/ (ex = ey /\ Z.pos mx <= Z.pos my))%Z).
      { destruct (Z.compare_spec ex ey); destruct (Pos.compare_spec mx my);
          simpl in Hle; try discriminate; try lia. }
      pose proof (aligned_le _ _ _ _ _ _ Vx Vy Hord) as H. lia.
Qed.

Lemma is_finite_spec (x : float) :
  is_finite x = true -> Binary64.finite (Prim2SF x) = true.
Proof.
  unfold is_finite, is_nan, is_infinity.
  rewrite !eqb_spec, abs_spec.
  change (Prim2SF infinity) with (S754_infinity false).
  destruct (Prim2SF x) as [s | s | | s m e]; try reflexivity.
  - destruct s; discriminate.
  - discriminate.
Qed.

(** Subtracting a finite number from one that is not smaller gives zero
    or a positive number, never a negative one and never NaN. *)
Lemma sub_nonneg (x y : float) :
  is_finite x = true -> is_finite y = true -> (x <=? y) = true ->
  Binary64.nonneg (Prim2SF (y - x)) = true.
Proof.
  intros Fx Fy Hle. rewrite sub_spec. rewrite leb_spec in Hle.
  apply SFsub_nonneg; auto using Prim2SF_valid, is_finite_spec.
Qed.

End Subtraction_sign.

Section Zero_losses.

Lemma abs_of_zero (x : float) :
  Binary64.nonneg (Prim2SF x) = true -> Py.gt x 0 = false -> abs x = 0.
Proof.
  unfold Py.gt. rewrite ltb_spec.
  change (Prim2SF 0) with (S754_zero false).
  intros Hx Hgt. apply Prim2SF_inj. rewrite abs_spec.
  destruct (Prim2SF x) as [s | s | | s m e]; try discriminate.
  - reflexivity.
  - destruct s; discriminate.
  - destruct s; discriminate.
Qed.


Lemma Forall_slice_from {A : Type} (P : A -> Prop) (start : Z) (l : list A) :
  Forall P l -> Forall P (Py.slice_from start l).
Proof.
  unfold Py.slice_from. intros H.
  rewrite <- (firstn_skipn
                (Z.to_nat (if (start <? 0)%Z
                           then Z.max 0 (start + Z.of_nat (length l))
                           else Z.min start (Z.of_nat (length l)))) l) in H.
  now apply Forall_app in H.
Qed.

Lemma truediv_by_nonzero (x p : float) :
  Binary64.finite_nonzero (Prim2SF p) = true -> Py.truediv x p = Ok (x / p).
Proof.
  unfold Py.truediv. rewrite eqb_spec.
  change (Prim2SF 0) with (S754_zero false).
  destruct (Prim2SF p) as [s | s | | s m e]; try discriminate.
  destruct s; reflexivity.
Qed.

Lemma zero_div_is_zero (p : float) :
  Binary64.finite_nonzero (Prim2SF p) = true -> (0 / p =? 0) = true.
Proof.
  rewrite eqb_spec, div_spec.
  change (Prim2SF 0) with (S754_zero false).
  destruct (Prim2SF p) as [s | s | | s m e]; try discriminate.
  reflexivity.
Qed.

End Zero_losses.

Section Exact_conversion.

Lemma digits_shift (m k : positive) :
  digits2_pos (Pos.iter xO m k) = (digits2_pos m + k)%positive.
Proof.
  induction k as [| k IH] using Pos.peano_ind.
  - simpl. lia.
  - rewrite Pos.iter_succ. simpl. rewrite IH. lia.
Qed.

Lemma binary_round_aux_canonical (s : bool) (m : positive) (e : Z) :
  Z.pos (digits2_pos m) = 53%Z -> (-1074 <= e <= 971)%Z ->
  binary_round_aux prec emax s (Z.pos m) e loc_Exact = S754_finite s m e.
Proof.
  intros Hd He.
  assert (Hshift : (fexp prec emax (Zdigits2 (Z.pos m) + e) - e = 0)%Z).
  { unfold fexp, emin, Zdigits2. change prec with 53%Z.
    change emax with 1024%Z. lia. }
  unfold binary_round_aux, shr_fexp. rewrite Hshift.
  cbn [shr shr_record_of_loc shr_m loc_of_shr_record round_nearest_even].
  rewrite Hshift. cbn [shr shr_record_of_loc shr_m].
  change (emax - prec)%Z with 971%Z.
  destruct (Z.leb_spec e 971); [ reflexivity | lia ].
Qed.

Lemma binary_round_exact (s : bool) (m : positive) :
  (Z.pos m < 2 ^ 53)%Z ->
  exists mz ez,
    binary_round prec emax s m 0 = S754_finite s mz ez
    /\ valid_binary (S754_finite s mz ez) = true.
Proof.
  intros Hm.
  pose proof (digits_bounds m) as [Hlo _].
  assert (Hd : (Z.pos (digits2_pos m) <= 53)%Z).
  { destruct (Z.le_gt_cases (Z.pos (digits2_pos m)) 53) as [H | H]; auto.
    assert (2 ^ 53 <= 2 ^ (Z.pos (digits2_pos m) - 1))%Z
      by (apply Z.pow_le_mono_r; lia).
    lia. }
  assert (Hfexp : fexp prec emax (Z.pos (digits2_pos m) + 0)
                  = (Z.pos (digits2_pos m) - 53)%Z).
  { unfold fexp, emin. change prec with 53%Z. change emax with 1024%Z. lia. }
  unfold binary_round. rewrite Hfexp. unfold shl_align.
  destruct (Z.pos (digits2_pos m) - 53 - 0)%Z as [| k | k] eqn:E; try lia.
  - exists m, 0%Z. split.
    + apply binary_round_aux_canonical; lia.
    + unfold SpecFloat.valid_binary, bounded, canonical_mantissa, fexp, emin.
      change prec with 53%Z. change emax with 1024%Z.
      apply andb_true_iff. split; [ apply Z.eqb_eq | apply Z.leb_le ]; lia.
  - assert (Hk : Z.pos (digits2_pos (Pos.iter xO m k)) = 53%Z)
      by (rewrite digits_shift; lia).
    exists (Pos.iter xO m k), (Z.pos (digits2_pos m) - 53)%Z. split.
    + apply binary_round_aux_canonical; [ exact Hk | lia ].
    + unfold SpecFloat.valid_binary, bounded, canonical_mantissa, fexp, emin.
      rewrite Hk. change prec with 53%Z. change emax with 1024%Z.
      apply andb_true_iff. split; [ apply Z.eqb_eq | apply Z.leb_le ]; lia.
Qed.


End Exact_conversion.

Section Word_conversion.

Local Open Scope Z_scope.

Lemma digits_unique (p : positive) (k : Z) :
  2 ^ (k - 1) <= Z.pos p < 2 ^ k -> Z.pos (digits2_pos p) = k.
Proof.
  intros [Hlo Hhi]. pose proof (digits_bounds p) as [Dlo Dhi].
  assert (0 < k).
  { destruct (Z.lt_ge_cases 0 k); auto.
    assert (2 ^ k <= 1) by
      (destruct (Z.eq_dec k 0) as [-> | ]; [ simpl; lia | rewrite Z.pow_neg_r; lia ]).
    lia. }
  destruct (Z.lt_trichotomy (Z.pos (digits2_pos p)) k) as [H1 | [H1 | H1]]; auto.
  - assert (2 ^ Z.pos (digits2_pos p) <= 2 ^ (k - 1))
      by (apply Z.pow_le_mono_r; lia). lia.
  - assert (2 ^ k <= 2 ^ (Z.pos (digits2_pos p) - 1))
      by (apply Z.pow_le_mono_r; lia). lia.
Qed.

Lemma shr_1_m (r : shr_record) :
  0 <= shr_m r -> shr_m (shr_1 r) = shr_m r / 2.
Proof.
  destruct r as [m r s]. simpl. intros H.
  rewrite <- Z.div2_div.
  destruct m as [| [p | p |] | p]; try reflexivity. lia.
Qed.

Lemma iter_pos_shr_m (n : positive) :
  forall r : shr_record,
    0 <= shr_m r -> shr_m (iter_pos shr_1 n r) = shr_m r / 2 ^ Z.pos n.
Proof.
  induction n as [n IH | n IH |]; intros r H; simpl iter_pos.
  - assert (E : 2 ^ Z.pos n~1 = 2 * 2 ^ Z.pos n * 2 ^ Z.pos n).
    { replace (Z.pos n~1) with (1 + Z.pos n + Z.pos n) by lia.
      rewrite !Z.pow_add_r by lia. reflexivity. }
    assert (P : 0 < 2 ^ Z.pos n) by (apply Z.pow_pos_nonneg; lia).
    rewrite IH, IH, shr_1_m, E by
      (auto using shr_1_nonneg, iter_pos_shr_1_nonneg).
    rewrite !Z.div_div by lia. f_equal. lia.
  - assert (E : 2 ^ Z.pos n~0 = 2 ^ Z.pos n * 2 ^ Z.pos n).
    { replace (Z.pos n~0) with (Z.pos n + Z.pos n) by lia.
      rewrite !Z.pow_add_r by lia. reflexivity. }
    assert (P : 0 < 2 ^ Z.pos n) by (apply Z.pow_pos_nonneg; lia).
    rewrite IH, IH, E by (auto using iter_pos_shr_1_nonneg).
    rewrite !Z.div_div by lia. reflexivity.
  - now rewrite shr_1_m.
Qed.

Lemma round_nearest_even_bounds (m : Z) (l : location) :
  m <= round_nearest_even m l <= m + 1.
Proof.
  unfold round_nearest_even. destruct l as [| []]; try destruct (Z.even m); lia.
Qed.

Lemma valid_53 (s : bool) (q : positive) (e : Z) :
  2 ^ 52 <= Z.pos q < 2 ^ 53 -> 0 <= e <= 971 ->
  valid_binary (S754_finite s q e) = true.
Proof.
  intros Hq He. pose proof (digits_unique q 53 Hq) as Hd.
  unfold SpecFloat.valid_binary, bounded, canonical_mantissa, fexp, emin.
  rewrite Hd. change prec with 53%Z. change emax with 1024%Z.
  apply andb_true_iff. split; [ apply Z.eqb_eq | apply Z.leb_le ]; lia.
Qed.

Lemma binary_round_aux_rounded (s : bool) (m : positive) :
  2 ^ 53 <= Z.pos m < 2 ^ 63 ->
  exists mz ez,
    binary_round_aux prec emax s (Z.pos m) 0 loc_Exact = S754_finite s mz ez
    /\ valid_binary (S754_finite s mz ez) = true.
Proof.
  intros [Hlo Hhi].
  pose proof (digits_bounds m) as [Dlo Dhi].
  set (d := Z.pos (digits2_pos m)) in *.
  assert (Hd : 54 <= d <= 63).
  { split.
    - destruct (Z.lt_ge_cases d 54); auto.
      assert (2 ^ d <= 2 ^ 53) by (apply Z.pow_le_mono_r; lia). lia.
    - destruct (Z.lt_ge_cases 63 d); auto.
      assert (2 ^ 63 <= 2 ^ (d - 1)) by (apply Z.pow_le_mono_r; lia). lia. }
  destruct (d - 53) as [| k | k] eqn:Hk; try lia.
  set (r0 := {| shr_m := Z.pos m; shr_r := false; shr_s := false |}).
  set (r1 := iter_pos shr_1 k r0).
  assert (Hfirst : shr_fexp prec emax (Z.pos m) 0 loc_Exact = (r1, 0 + Z.pos k)).
  { unfold shr_fexp.
    replace (fexp prec emax (Zdigits2 (Z.pos m) + 0) - 0) with (Z.pos k).
    - reflexivity.
    - unfold fexp, emin, Zdigits2. fold d. change prec with 53%Z.
      change emax with 1024%Z. lia. }
  unfold binary_round_aux. rewrite Hfirst.
  assert (Hm1 : shr_m r1 = Z.pos m / 2 ^ Z.pos k)
    by (unfold r1; rewrite iter_pos_shr_m; simpl; lia).
  assert (P : 0 < 2 ^ Z.pos k) by (apply Z.pow_pos_nonneg; lia).
  assert (Hsplit : 2 ^ (d - 1) = 2 ^ Z.pos k * 2 ^ 52).
  { replace (d - 1) with (Z.pos k + 52) by lia. now rewrite Z.pow_add_r by lia. }
  assert (Hsplit' : 2 ^ d = 2 ^ Z.pos k * 2 ^ 53).
  { replace d with (Z.pos k + 53) by lia. now rewrite Z.pow_add_r by lia. }
  assert (B1 : 2 ^ 52 <= shr_m r1 < 2 ^ 53).
  { rewrite Hm1. split.
    - apply Z.div_le_lower_bound; lia.
    - apply Z.div_lt_upper_bound; lia. }
  pose proof (round_nearest_even_bounds (shr_m r1) (loc_of_shr_record r1)) as B2.
  set (m2 := round_nearest_even (shr_m r1) (loc_of_shr_record r1)) in *.
  destruct m2 as [| q | q] eqn:Hq; try lia.
  destruct (Z.lt_ge_cases (Z.pos q) (2 ^ 53)) as [Hsmall | Hbig].
  - assert (Hdq : Z.pos (digits2_pos q) = 53) by (apply digits_unique; lia).
    assert (Hsecond : shr_fexp prec emax (Z.pos q) (0 + Z.pos k) loc_Exact
                      = ({| shr_m := Z.pos q; shr_r := false; shr_s := false |},
                         0 + Z.pos k)).
    { unfold shr_fexp.
      replace (fexp prec emax (Zdigits2 (Z.pos q) + (0 + Z.pos k))
               - (0 + Z.pos k)) with 0.
      - reflexivity.
      - unfold fexp, emin, Zdigits2. rewrite Hdq. change prec with 53%Z.
        change emax with 1024%Z. lia. }
    rewrite Hsecond. cbn [shr_m].
    change (emax - prec) with 971.
    destruct (Z.leb_spec (0 + Z.pos k) 971); [| lia ].
    exists q, (0 + Z.pos k). split; [ reflexivity |].
    apply valid_53; lia.
  - assert (Hq53 : Z.pos q = 2 ^ 53) by lia.
    assert (Hdq : Z.pos (digits2_pos q) = 54) by (apply digits_unique; lia).
    set (r2 := shr_1 {| shr_m := Z.pos q; shr_r := false; shr_s := false |}).
    assert (Hsecond : shr_fexp prec emax (Z.pos q) (0 + Z.pos k) loc_Exact
                      = (r2, 0 + Z.pos k + 1)).
    { unfold shr_fexp.
      replace (fexp prec emax (Zdigits2 (Z.pos q) + (0 + Z.pos k))
               - (0 + Z.pos k)) with 1.
      - reflexivity.
      - unfold fexp, emin, Zdigits2. rewrite Hdq. change prec with 53%Z.
        change emax with 1024%Z. lia. }
    rewrite Hsecond.
    assert (Hm3 : shr_m r2 = 2 ^ 52).
    { unfold r2. rewrite shr_1_m by (simpl; lia). simpl shr_m. rewrite Hq53.
      reflexivity. }
    rewrite Hm3. 
    change (emax - prec) with 971.
    destruct (2 ^ 52) as [| q3 | q3] eqn:Hq3; try discriminate.
    destruct (Z.leb_spec (0 + Z.pos k + 1) 971); [| lia ].
    exists q3, (0 + Z.pos k + 1). split; [ reflexivity |].
    apply valid_53; [ rewrite <- Hq3; lia | lia ].
Qed.

Lemma binary_round_rounded (s : bool) (m : positive) :
  (2 ^ 53 <= Z.pos m < 2 ^ 63)%Z ->
  exists mz ez,
    binary_round prec emax s m 0 = S754_finite s mz ez
    /\ valid_binary (S754_finite s mz ez) = true.
Proof.
  intros Hm. pose proof (digits_bounds m) as [_ Dhi].
  assert (Hd : (54 <= Z.pos (digits2_pos m))%Z).
  { destruct (Z.lt_ge_cases (Z.pos (digits2_pos m)) 54) as [H | H]; auto.
    assert (2 ^ Z.pos (digits2_pos m) <= 2 ^ 53)%Z
      by (apply Z.pow_le_mono_r; lia).
    lia. }
  unfold binary_round, shl_align.
  assert (Hfexp : fexp prec emax (Z.pos (digits2_pos m) + 0)
                  = (Z.pos (digits2_pos m) - 53)%Z).
  { unfold fexp, emin. change prec with 53%Z. change emax with 1024%Z. lia. }
  rewrite Hfexp.
  destruct (Z.pos (digits2_pos m) - 53 - 0)%Z as [| k | k] eqn:E; try lia.
  now apply binary_round_aux_rounded.
Qed.

(** An [int] other than zero that fits a machine word converts, without
    error, to a finite float other than zero. *)
Lemma float_of_int_word (z : Z) :
  z <> 0%Z -> (Z.abs z < 2 ^ 63)%Z ->
  exists p,
    Py.float_of_int z = Ok p /\ Binary64.finite_nonzero (Prim2SF p) = true.
Proof.
  intros Hz Hsmall. unfold Py.float_of_int, binary_normalize.
  assert (Hboth : forall (s : bool) (m : positive),
             (Z.pos m < 2 ^ 63)%Z ->
             exists mz ez,
               binary_round prec emax s m 0 = S754_finite s mz ez
               /\ valid_binary (S754_finite s mz ez) = true).
  { intros s m Hm. destruct (Z.lt_ge_cases (Z.pos m) (2 ^ 53)).
    - now apply binary_round_exact.
    - apply binary_round_rounded. lia. }
  assert (Hround : exists s mz ez,
             match z with
             | 0%Z => S754_zero false
             | Z.pos m => binary_round prec emax false m 0
             | Z.neg m => binary_round prec emax true m 0
             end = S754_finite s mz ez
             /\ valid_binary (S754_finite s mz ez) = true).
  { destruct z as [| m | m]; [ congruence | |].
    - destruct (Hboth false m) as (mz & ez & H1 & H2); [ lia |].
      exists false, mz, ez. split; assumption.
    - destruct (Hboth true m) as (mz & ez & H1 & H2); [ lia |].
      exists true, mz, ez. split; assumption. }
  destruct Hround as (s & mz & ez & -> & Hvalid).
  pose proof (Prim2SF_SF2Prim _ Hvalid) as Hp.
  exists (SF2Prim (S754_finite s mz ez)).
  assert (Hinf : is_infinity (SF2Prim (S754_finite s mz ez)) = false).
  { unfold is_infinity. rewrite eqb_spec, abs_spec, Hp. reflexivity. }
  cbv zeta. rewrite Hinf, Hp. split; reflexivity.
Qed.

End Word_conversion.
(** ** The result monad *)

Lemma bind_Ok {A B : Type} (m : result A) (k : A -> result B) (b : B) :
  bind m k = Ok b -> exists a, m = Ok a /\ k a = Ok b.
Proof.
  destruct m as [a | e]; simpl; intros H; [ eauto | discriminate ].
Qed.

Ltac inv_bind H :=
  let a := fresh "a" in
  let Ha := fresh "Ha" in
  apply bind_Ok in H; destruct H as (a & Ha & H).

(** ** The backtest engine *)

Section Backtest_facts.

Import Backtest_engine.

Variable self : BacktestEngine.
Variable strategy : Strategy.

Lemma run_loop_snoc (candles : list Candle) :
  forall (l : list Candle) (i : nat) (c : Candle) (st : Locals),
    run_loop self strategy candles i (l ++ [c]) st =
    (st' <- run_loop self strategy candles i l st ;;
     signal <- _check_signal c strategy (firstn (i + length l) candles) ;;
     loop_body self c signal st').
Proof.
  induction l as [| c0 l IH]; intros i c st; simpl.
  - rewrite Nat.add_0_r.
    destruct (_check_signal c strategy (firstn i candles)); simpl; auto.
    destruct (loop_body self c a st); reflexivity.
  - destruct (_check_signal c0 strategy (firstn i candles)); simpl; auto.
    destruct (loop_body self c0 a st); simpl; auto.
    rewrite IH. replace (S i + length l)%nat with (i + S (length l))%nat by lia.
    reflexivity.
Qed.

Lemma firstn_S_nth_error {A : Type} (l : list A) :
  forall (k : nat) (x : A),
    nth_error l k = Some x -> firstn (S k) l = firstn k l ++ [x].
Proof.
  induction l as [| y l IH]; intros [| k] x H; simpl in *; try discriminate.
  - now inversion H.
  - f_equal. now apply IH.
Qed.

(** Processing one more candle. *)
Lemma run_upto_S (candles : list Candle) (k : nat) (candle : Candle) :
  nth_error candles k = Some candle ->
  run_upto self strategy candles (S k) =
  (st <- run_upto self strategy candles k ;;
   signal <- _check_signal candle strategy (firstn k candles) ;;
   loop_body self candle signal st).
Proof.
  intros H. unfold run_upto.
  rewrite (firstn_S_nth_error _ _ _ H), run_loop_snoc. simpl.
  assert (Hk : (k < length candles)%nat)
    by (apply nth_error_Some; congruence).
  rewrite length_firstn, Nat.min_l by lia. reflexivity.
Qed.

Lemma run_upto_all (candles : list Candle) :
  snd (run self candles strategy) =
  (st <- run_upto self strategy candles (length candles) ;; report self st).
Proof.
  unfold run, run_upto. simpl. now rewrite firstn_all.
Qed.

Lemma loop_body_transition (candle : Candle) (signal : Signal) (st st' : Locals) :
  loop_body self candle signal st = Ok st' -> transition st st'.
Proof.
  unfold loop_body. intros H.
  destruct (position st) as [pos |] eqn:Hpos.
  - assert (Hexit :
      (if low candle <=? sl pos then Ok (exit_at pos (sl pos) "SL" candle st)
       else if Py.ge (high candle) (tp pos)
            then Ok (exit_at pos (tp pos) "TP" candle st)
            else Ok st) = Ok st') by (destruct signal; exact H).
    clear H.
    destruct (low candle <=? sl pos).
    + inversion Hexit; subst. eapply go_flat; eauto; reflexivity.
    + destruct (Py.ge (high candle) (tp pos)); inversion Hexit; subst.
      * eapply go_flat; eauto; reflexivity.
      * eapply stay_long; eauto.
  - destruct signal.
    + inv_bind H. inversion H; subst. eapply go_long; eauto; reflexivity.
    + inversion H; subst. now apply stay_flat.
Qed.

Lemma enter_long_entered_on (candle : Candle) (pos : Position) :
  enter_long self candle = Ok pos -> entered_on self candle pos.
Proof.
  unfold enter_long, Py.truediv. intros H.
  destruct (close candle * (1 + FEES.slippage) =? 0); simpl in H;
    [ discriminate |].
  inversion H; subst; clear H. unfold entered_on; simpl.
  repeat split; reflexivity.
Qed.


End Backtest_facts.

Section Backtest_run_facts.

Import Backtest_engine.


Lemma check_signal_exit_fields (candle : Candle) (strategy : Strategy)
    (history : list Candle) (a b : option float) :
  _check_signal candle (with_exit_fields strategy a b) history =
  _check_signal candle strategy history.
Proof. reflexivity. Qed.

Lemma run_loop_exit_fields (self : BacktestEngine) (strategy : Strategy)
    (candles : list Candle) (a b : option float) :
  forall (rest : list Candle) (i : nat) (st : Locals),
    run_loop self (with_exit_fields strategy a b) candles i rest st =
    run_loop self strategy candles i rest st.
Proof.
  induction rest as [| c rest IH]; intros i st; simpl; [ reflexivity |].
  rewrite check_signal_exit_fields.
  destruct (_check_signal c strategy (firstn i candles)); simpl; auto.
  destruct (loop_body self c a0 st); simpl; auto.
Qed.

End Backtest_run_facts.

(** C7.  A history shorter than [period + 1] candles makes the oscillator
    exactly 50.0, whatever the period and the candles. *)
Theorem rsi_is_50_on_short_history :
  forall (candles : list Backtest_engine.Candle) (period : Z),
    (Z.of_nat (length candles) < period + 1)%Z ->
    Backtest_engine._calculate_rsi candles period = Ok 50.
Proof.
  intros candles period H. unfold Backtest_engine._calculate_rsi.
  apply Z.ltb_lt in H. now rewrite H.
Qed.

Lemma rsi_is_50_on_short_history_witness :
  let candles :=
    [ Backtest_engine.mkCandle 100 101 99 1000 0;
      Backtest_engine.mkCandle 98 100 97 1200 1 ] in
  (Z.of_nat (length candles) < 14 + 1)%Z
  /\ Backtest_engine._calculate_rsi candles 14 = Ok 50.
Proof.
  split.
  - reflexivity.
  - apply rsi_is_50_on_short_history. reflexivity.
Defined.

(** C5.  [run] holds at most one position at any time, each candle moves
    the Flat/Long machine by one of its four transitions (so a held
    position is only ever kept or closed, never replaced), and a BUY signal
    that arrives while a position is held is treated exactly as HOLD. *)
Theorem run_single_position :
  forall (self : Backtest_engine.BacktestEngine)
         (strategy : Backtest_engine.Strategy)
         (candles : list Backtest_engine.Candle) (k : nat)
         (st st' : Backtest_engine.Locals),
    (k < length candles)%nat ->
    Backtest_engine.run_upto self strategy candles k = Ok st ->
    Backtest_engine.run_upto self strategy candles (S k) = Ok st' ->
    (Backtest_engine.open_positions st <= 1)%nat
    /\ (Backtest_engine.open_positions st' <= 1)%nat
    /\ Backtest_engine.transition st st'
    /\ (forall candle pos,
          Backtest_engine.position st = Some pos ->
          Backtest_engine.loop_body self candle Backtest_engine.BUY st =
          Backtest_engine.loop_body self candle Backtest_engine.HOLD st)
    /\ (forall pos pos',
          Backtest_engine.position st = Some pos ->
          Backtest_engine.position st' = Some pos' -> pos' = pos).
Proof.
  intros self strategy candles k st st' Hk Hst Hst'.
  destruct (nth_error candles k) as [candle |] eqn:Hnth;
    [| apply nth_error_None in Hnth; lia ].
  rewrite (run_upto_S _ _ _ _ _ Hnth), Hst in Hst'. simpl in Hst'.
  inv_bind Hst'. apply loop_body_transition in Hst'.
  split; [| split; [| split; [| split ]]].
  - unfold Backtest_engine.open_positions.
    destruct (Backtest_engine.position st); lia.
  - unfold Backtest_engine.open_positions.
    destruct (Backtest_engine.position st'); lia.
  - exact Hst'.
  - intros c pos Hpos. unfold Backtest_engine.loop_body. now rewrite Hpos.
  - intros pos pos' Hpos Hpos'.
    destruct Hst' as [H0 H1 | p H0 H1 H2 H3 | p H0 H1 | p t H0 H1 H2];
      subst; congruence.
Qed.

Lemma run_single_position_witness :
  (21 < length Samples.candles)%nat
  /\ Backtest_engine.run_upto Samples.engine Samples.params Samples.candles 21
     = Ok (Samples.locals_after 21)
  /\ Backtest_engine.run_upto Samples.engine Samples.params Samples.candles 22
     = Ok (Samples.locals_after 22)
  /\ Backtest_engine.transition (Samples.locals_after 21) (Samples.locals_after 22).
Proof.
  assert (H1 : (21 < length Samples.candles)%nat) by (vm_compute; lia).
  assert (H2 : Backtest_engine.run_upto Samples.engine Samples.params
                 Samples.candles 21 = Ok (Samples.locals_after 21))
    by (vm_compute; reflexivity).
  assert (H3 : Backtest_engine.run_upto Samples.engine Samples.params
                 Samples.candles 22 = Ok (Samples.locals_after 22))
    by (vm_compute; reflexivity).
  split; [ exact H1 | split; [ exact H2 | split; [ exact H3 |] ] ].
  exact (proj1 (proj2 (proj2
    (run_single_position Samples.engine Samples.params Samples.candles 21
       (Samples.locals_after 21) (Samples.locals_after 22) H1 H2 H3)))).
Defined.

(** C10.  [run] assigns no field of the engine: the engine it leaves is
    the engine it was given, so a second [run] on the same candles and
    strategy returns (or raises) the same. *)
Theorem run_leaves_engine_unchanged :
  forall (self : Backtest_engine.BacktestEngine)
         (candles : list Backtest_engine.Candle)
         (strategy : Backtest_engine.Strategy),
    let '(self1, first) := Backtest_engine.run self candles strategy in
    let '(self2, second) := Backtest_engine.run self1 candles strategy in
    self1 = self
    /\ Backtest_engine.capital self1 = Backtest_engine.capital self
    /\ Backtest_engine.self_trades self1 = Backtest_engine.self_trades self
    /\ Backtest_engine.equity_curve self1
       = Backtest_engine.equity_curve self
    /\ self2 = self
    /\ second = first.
Proof.
  intros self candles strategy. unfold Backtest_engine.run.
  repeat split; reflexivity.
Qed.
Section Rsi_facts.

Import Backtest_engine.

(** What the two lists of the oscillator hold: the [int] 0 or a float;
    and what the losses hold when no close falls: a zero of either
    kind. *)
Let plain (n : Py.number) : Prop := n = Py.Int 0 \/ exists x, n = Py.Float x.

Let zero (n : Py.number) : Prop := n = Py.Int 0 \/ n = Py.Float 0.

Lemma gains_losses_plain (rest : list Candle) :
  forall prev : Candle,
    Forall plain (fst (gains_losses prev rest))
    /\ Forall plain (snd (gains_losses prev rest)).
Proof.
  induction rest as [| c rest IH]; intros prev; simpl.
  - split; constructor.
  - destruct (IH c) as [Hg Hl].
    destruct (gains_losses c rest) as [gains losses]. simpl in Hg, Hl.
    destruct (Py.gt (close c - close prev) 0); simpl; split;
      constructor; auto; unfold plain; eauto.
Qed.

Lemma gains_losses_length (rest : list Candle) :
  forall prev : Candle,
    length (fst (gains_losses prev rest)) = length rest
    /\ length (snd (gains_losses prev rest)) = length rest.
Proof.
  induction rest as [| c rest IH]; intros prev; simpl; [ auto |].
  destruct (IH c) as [Hg Hl].
  destruct (gains_losses c rest) as [gains losses]. simpl in Hg, Hl.
  destruct (Py.gt (close c - close prev) 0); simpl; auto.
Qed.

Lemma gains_losses_no_loss (rest : list Candle) :
  forall prev : Candle,
    is_finite (close prev) = true ->
    finite_closes rest = true ->
    non_decreasing_from prev rest = true ->
    Forall zero (snd (gains_losses prev rest)).
Proof.
  induction rest as [| c rest IH]; intros prev Hprev Hfin Hmono; simpl.
  - constructor.
  - simpl in Hfin, Hmono.
    apply andb_true_iff in Hfin. destruct Hfin as [Hc Hfin].
    apply andb_true_iff in Hmono. destruct Hmono as [Hle Hmono].
    specialize (IH c Hc Hfin Hmono).
    destruct (gains_losses c rest) as [gains losses]. simpl in IH.
    destruct (Py.gt (close c - close prev) 0) eqn:Hgt; simpl.
    + constructor; [ now left | exact IH ].
    + constructor; [| exact IH ].
      right. f_equal.
      apply abs_of_zero; [| exact Hgt ]. now apply sub_nonneg.
Qed.

Lemma float_of_int_zero : Py.float_of_int 0 = Ok 0%float.
Proof. vm_compute. reflexivity. Qed.

Lemma number_add_plain (a b : Py.number) :
  plain a -> plain b -> exists n, Py.number_add a b = Ok n /\ plain n.
Proof.
  intros [-> | [x ->]] [-> | [y ->]]; unfold Py.number_add;
    try rewrite float_of_int_zero; cbn [bind];
    eexists; (split; [ reflexivity |]); unfold plain; eauto.
Qed.

Lemma number_add_zero (a b : Py.number) :
  zero a -> zero b -> exists n, Py.number_add a b = Ok n /\ zero n.
Proof.
  intros [-> | ->] [-> | ->]; unfold Py.number_add;
    try rewrite float_of_int_zero; cbn [bind];
    eexists; (split; [ reflexivity |]); unfold zero; auto.
Qed.

Lemma sum_from_plain (l : list Py.number) :
  forall acc, plain acc -> Forall plain l ->
              exists n, Py.sum_from acc l = Ok n /\ plain n.
Proof.
  induction l as [| x l IH]; intros acc Hacc Hl; simpl; [ eauto |].
  inversion Hl; subst.
  destruct (number_add_plain acc x Hacc) as (n & -> & Hn); auto.
  cbn [bind]. now apply IH.
Qed.

Lemma sum_from_zero (l : list Py.number) :
  forall acc, zero acc -> Forall zero l ->
              exists n, Py.sum_from acc l = Ok n /\ zero n.
Proof.
  induction l as [| x l IH]; intros acc Hacc Hl; simpl; [ eauto |].
  inversion Hl; subst.
  destruct (number_add_zero acc x Hacc) as (n & -> & Hn); auto.
  cbn [bind]. now apply IH.
Qed.

Lemma slice_from_beyond {A : Type} (start : Z) (l : list A) :
  (Z.of_nat (length l) <= start)%Z -> Py.slice_from start l = [].
Proof.
  intros H. unfold Py.slice_from.
  destruct (Z.ltb_spec start 0); [ lia |].
  rewrite Z.min_r by lia. rewrite Nat2Z.id. apply skipn_all.
Qed.

(** The division of the [int] 0 by an [int] other than 0. *)
Lemma int_truediv_zero (period : Z) :
  period <> 0%Z ->
  exists a, Py.int_truediv 0 period = Ok a /\ (a =? 0) = true.
Proof.
  intros Hnz. unfold Py.int_truediv.
  destruct (Z.eqb_spec period 0); [ contradiction |].
  destruct period as [| m | m]; [ congruence | |];
    eexists; split; vm_compute; reflexivity.
Qed.

Lemma number_truediv_plain (n : Py.number) (period : Z) :
  plain n -> period <> 0%Z ->
  n = Py.Int 0 \/ (Z.abs period < 2 ^ 63)%Z ->
  exists a, Py.number_truediv n period = Ok a.
Proof.
  intros [-> | [x ->]] Hnz Hcase; unfold Py.number_truediv.
  - destruct (int_truediv_zero period Hnz) as (a & -> & _). eauto.
  - destruct Hcase as [H | H]; [ discriminate |].
    destruct (float_of_int_word period Hnz H) as (p & -> & Hp).
    cbn [bind]. rewrite (truediv_by_nonzero _ _ Hp). eauto.
Qed.

Lemma number_truediv_zero (n : Py.number) (period : Z) :
  zero n -> period <> 0%Z ->
  n = Py.Int 0 \/ (Z.abs period < 2 ^ 63)%Z ->
  exists a, Py.number_truediv n period = Ok a /\ (a =? 0) = true.
Proof.
  intros [-> | ->] Hnz Hcase; unfold Py.number_truediv.
  - exact (int_truediv_zero period Hnz).
  - destruct Hcase as [H | H]; [ discriminate |].
    destruct (float_of_int_word period Hnz H) as (p & -> & Hp).
    cbn [bind]. rewrite (truediv_by_nonzero _ _ Hp).
    eexists. split; [ reflexivity | exact (zero_div_is_zero _ Hp) ].
Qed.

Lemma rsi_of_averages_unguarded (avg_gain avg_loss : float) :
  rsi_of_averages avg_gain avg_loss =
  if avg_loss =? 0 then Ok 100
  else (q <- Py.truediv 100 (1 + avg_gain / avg_loss) ;; Ok (100 - q)).
Proof.
  unfold rsi_of_averages, Py.truediv at 1.
  destruct (avg_loss =? 0); reflexivity.
Qed.

(** The sum of a trailing slice, and what makes its division by the
    period safe: the period fits a machine word, or it is so far below
    zero that the slice is empty and the sum the [int] 0. *)
Lemma trailing_slice (candles : list Candle) (period : Z)
    (l : list Py.number) :
  (period + 1 <= Z.of_nat (length candles))%Z ->
  (Z.of_nat (length candles) <= Py.sys_maxsize)%Z ->
  (length l <= length candles)%nat ->
  Py.slice_from (- period) l = [] \/ (Z.abs period < 2 ^ 63)%Z.
Proof.
  intros Hlen Hmax Hl. unfold Py.sys_maxsize in Hmax.
  destruct (Z.lt_ge_cases (- 2 ^ 63) period).
  - right. lia.
  - left. apply slice_from_beyond. lia.
Qed.

Lemma trailing_sum_plain (l : list Py.number) (period : Z) :
  Forall plain l ->
  Py.slice_from (- period) l = [] \/ (Z.abs period < 2 ^ 63)%Z ->
  exists n,
    Py.sum_numbers (Py.slice_from (- period) l) = Ok n
    /\ plain n /\ (n = Py.Int 0 \/ (Z.abs period < 2 ^ 63)%Z).
Proof.
  intros Hl [E | R].
  - rewrite E. exists (Py.Int 0).
    split; [ reflexivity | split; [ now left | now left ] ].
  - destruct (sum_from_plain (Py.slice_from (- period) l) (Py.Int 0))
      as (n & Hn & Pn);
      [ now left | now apply Forall_slice_from |].
    exists n. split; [ exact Hn | split; [ exact Pn | now right ] ].
Qed.

Lemma trailing_sum_zero (l : list Py.number) (period : Z) :
  Forall zero l ->
  Py.slice_from (- period) l = [] \/ (Z.abs period < 2 ^ 63)%Z ->
  exists n,
    Py.sum_numbers (Py.slice_from (- period) l) = Ok n
    /\ zero n /\ (n = Py.Int 0 \/ (Z.abs period < 2 ^ 63)%Z).
Proof.
  intros Hl [E | R].
  - rewrite E. exists (Py.Int 0).
    split; [ reflexivity | split; [ now left | now left ] ].
  - destruct (sum_from_zero (Py.slice_from (- period) l) (Py.Int 0))
      as (n & Hn & Pn);
      [ now left | now apply Forall_slice_from |].
    exists n. split; [ exact Hn | split; [ exact Pn | now right ] ].
Qed.

(** The averages are always formed from plain lists: the sums never
    raise. *)
Lemma gains_losses_of_facts (candles : list Candle) :
  Forall plain (fst (gains_losses_of candles))
  /\ Forall plain (snd (gains_losses_of candles))
  /\ (length (fst (gains_losses_of candles)) <= length candles)%nat
  /\ (length (snd (gains_losses_of candles)) <= length candles)%nat.
Proof.
  destruct candles as [| c0 rest]; simpl.
  - repeat split; constructor.
  - destruct (gains_losses_plain rest c0) as [Hg Hl].
    destruct (gains_losses_length rest c0) as [Lg Ll].
    rewrite Lg, Ll. repeat split; auto.
Qed.

Lemma calculate_rsi_non_decreasing (candles : list Candle) (period : Z) :
  period <> 0%Z ->
  (period + 1 <= Z.of_nat (length candles))%Z ->
  (Z.of_nat (length candles) <= Py.sys_maxsize)%Z ->
  finite_closes candles = true ->
  non_decreasing_closes candles = true ->
  _calculate_rsi candles period = Ok 100.
Proof.
  intros Hnz Hlen Hmax Hfin Hmono. unfold _calculate_rsi.
  destruct (Z.ltb_spec (Z.of_nat (length candles)) (period + 1)); [ lia |].
  unfold averages.
  assert (Hloss : Forall zero (snd (gains_losses_of candles))).
  { destruct candles as [| c0 rest]; [ constructor |].
    simpl in Hfin. apply andb_true_iff in Hfin. destruct Hfin as [H0 Hfin].
    now apply gains_losses_no_loss. }
  destruct (gains_losses_of_facts candles) as (Hgain & _ & Lg & Ll).
  destruct (gains_losses_of candles) as [gains losses].
  simpl in Hloss, Hgain, Lg, Ll.
  destruct (trailing_sum_plain gains period Hgain
              (trailing_slice candles period gains Hlen Hmax Lg))
    as (sg & -> & Psg & Csg).
  cbn [bind].
  destruct (number_truediv_plain sg period Psg Hnz Csg) as (avg_gain & ->).
  cbn [bind].
  destruct (trailing_sum_zero losses period Hloss
              (trailing_slice candles period losses Hlen Hmax Ll))
    as (sl & -> & Psl & Csl).
  cbn [bind].
  destruct (number_truediv_zero sl period Psl Hnz Csl)
    as (avg_loss & -> & Hzero).
  cbn [bind]. unfold rsi_of_averages. now rewrite Hzero.
Qed.

(** With a period of 0 the first division raises, whatever the lists
    hold. *)
Lemma averages_period_zero (candles : list Candle) :
  averages candles 0 = Raise ZeroDivisionError.
Proof.
  unfold averages.
  destruct (gains_losses_of_facts candles) as (Hgain & _).
  destruct (gains_losses_of candles) as [gains losses]. simpl in Hgain.
  destruct (sum_from_plain (Py.slice_from (- 0) gains) (Py.Int 0))
    as (n & Hn & Pn); [ now left | now apply Forall_slice_from |].
  unfold Py.sum_numbers. rewrite Hn. cbn [bind].
  destruct Pn as [-> | [x ->]]; reflexivity.
Qed.

End Rsi_facts.

(** C8, the claim as it stands, fails: four non-decreasing closes and a
    period of 0 pass the length test and raise [ZeroDivisionError]; two
    closes that are both infinite, non-decreasing as well, give NaN with a
    period of 1. *)
Lemma rsi_is_100_without_losses_counterexample :
  (Backtest_engine.non_decreasing_closes Samples.rising = true
   /\ (0 + 1 <= Z.of_nat (length Samples.rising))%Z
   /\ Backtest_engine._calculate_rsi Samples.rising 0
      = Raise ZeroDivisionError)
  /\ (Backtest_engine.non_decreasing_closes Samples.unbounded = true
      /\ (1 + 1 <= Z.of_nat (length Samples.unbounded))%Z
      /\ exists x,
           Backtest_engine._calculate_rsi Samples.unbounded 1 = Ok x
           /\ is_nan x = true).
Proof.
  split; (split; [ vm_compute; reflexivity |]);
    (split; [ vm_compute; discriminate |]).
  - vm_compute. reflexivity.
  - eexists. split; vm_compute; reflexivity.
Qed.

(** C8, amended.  With at least [period + 1] candles, whenever the
    average loss over the trailing period is formed and is zero
    ([avg_loss == 0]) the oscillator is exactly 100.0; this is the case for
    every sequence of finite, non-decreasing closes and every period other
    than 0 (the list being one Python can hold: no longer than
    [sys.maxsize]).  The quotient [avg_gain / avg_loss] is only formed when
    [avg_loss] is not zero: the check Python makes on the divisor never
    fires there. *)
Theorem rsi_is_100_without_losses :
  forall (candles : list Backtest_engine.Candle) (period : Z),
    (period + 1 <= Z.of_nat (length candles))%Z ->
    (forall avg_gain avg_loss,
        Backtest_engine.averages candles period = Ok (avg_gain, avg_loss) ->
        (avg_loss =? 0) = true ->
        Backtest_engine._calculate_rsi candles period = Ok 100)
    /\ (period <> 0%Z ->
        (Z.of_nat (length candles) <= Py.sys_maxsize)%Z ->
        Backtest_engine.finite_closes candles = true ->
        Backtest_engine.non_decreasing_closes candles = true ->
        Backtest_engine._calculate_rsi candles period = Ok 100)
    /\ (forall avg_gain avg_loss,
          Backtest_engine.rsi_of_averages avg_gain avg_loss =
          if avg_loss =? 0 then Ok 100
          else (q <- Py.truediv 100 (1 + avg_gain / avg_loss) ;; Ok (100 - q)))
    /\ is_nan 100 = false /\ is_infinity 100 = false.
Proof.
  intros candles period Hlen. split; [| split; [| split ] ].
  - intros avg_gain avg_loss Havg Hzero.
    unfold Backtest_engine._calculate_rsi.
    destruct (Z.ltb_spec (Z.of_nat (length candles)) (period + 1)); [ lia |].
    rewrite Havg. simpl. unfold Backtest_engine.rsi_of_averages.
    now rewrite Hzero.
  - intros. now apply calculate_rsi_non_decreasing.
  - apply rsi_of_averages_unguarded.
  - split; reflexivity.
Qed.

Lemma rsi_is_100_without_losses_witness :
  (3 + 1 <= Z.of_nat (length Samples.rising))%Z
  /\ Backtest_engine.averages Samples.rising 3 = Ok (1, 0)
  /\ Backtest_engine.finite_closes Samples.rising = true
  /\ Backtest_engine.non_decreasing_closes Samples.rising = true
  /\ Backtest_engine._calculate_rsi Samples.rising 3 = Ok 100.
Proof.
  assert (H : (3 + 1 <= Z.of_nat (length Samples.rising))%Z)
    by (vm_compute; discriminate).
  assert (Hfin : Backtest_engine.finite_closes Samples.rising = true)
    by (vm_compute; reflexivity).
  assert (Hmono : Backtest_engine.non_decreasing_closes Samples.rising = true)
    by (vm_compute; reflexivity).
  split; [ exact H |].
  split; [ vm_compute; reflexivity |].
  split; [ exact Hfin | split; [ exact Hmono |] ].
  refine (proj1 (proj2 (rsi_is_100_without_losses Samples.rising 3 H))
            _ _ Hfin Hmono).
  - discriminate.
  - vm_compute. discriminate.
Defined.

(** ** The strategy evolver *)

Section Evolver_facts.

Import Strategy_evolver.

Lemma no_lower_refl (a : float) : no_lower a a.
Proof. now left. Qed.

Lemma no_lower_trans (a b c : float) :
  no_lower a b -> no_lower b c -> no_lower a c.
Proof.
  intros [-> | Hab] [-> | Hbc]; unfold no_lower; auto.
  right. eapply ltb_trans; eauto.
Qed.

Lemma max_from_In (rest : list Result.t) :
  forall best, In (max_from best rest) (best :: rest).
Proof.
  induction rest as [| r rest IH]; intros best; simpl; [ now left |].
  destruct (IH (if Py.gt (Result.win_rate r) (Result.win_rate best)
                then r else best)) as [H | H].
  - destruct (Py.gt (Result.win_rate r) (Result.win_rate best));
      rewrite <- H; auto.
  - auto.
Qed.

(** One call: either the selected result beats the best so far and takes
    its place, or the evolver is left as it was. *)
Lemma select_best_cases (self : StrategyEvolver) (utcnow : string)
    (results : list Result.t) (best : Result.t) :
  max_by_win_rate results = Ok best ->
  let self' := fst (select_best self utcnow results) in
  (Py.gt (Result.win_rate best) (best_win_rate self) = true
   /\ best_win_rate self' = Result.win_rate best
   /\ base_strategy self' = Result.params best)
  \/ (Py.gt (Result.win_rate best) (best_win_rate self) = false
      /\ self' = self).
Proof.
  intros Hmax. unfold select_best, select_best_in, _log_evolution. rewrite Hmax.
  destruct (Py.gt (Result.win_rate best) (best_win_rate self)) eqn:Hgt; simpl.
  - left. repeat split; reflexivity.
  - right. split; reflexivity.
Qed.

Lemma select_best_returns (self : StrategyEvolver) (utcnow : string)
    (results : list Result.t) (best : Result.t) :
  max_by_win_rate results = Ok best ->
  exists v,
    snd (select_best self utcnow results) = Ok v
    /\ params v = Result.params best
    /\ win_rate v = Result.win_rate best.
Proof.
  intros Hmax. unfold select_best, select_best_in, _log_evolution.
  rewrite Hmax.
  destruct (Py.gt (Result.win_rate best) (best_win_rate self)); simpl;
    eexists; (split; [ reflexivity |]); split; reflexivity.
Qed.

Lemma select_best_no_lower (self : StrategyEvolver) (utcnow : string)
    (results : list Result.t) :
  no_lower (best_win_rate self)
    (best_win_rate (fst (select_best self utcnow results))).
Proof.
  destruct (max_by_win_rate results) as [best | e] eqn:Hmax.
  - destruct (select_best_cases self utcnow results best Hmax)
      as [(Hgt & Hbest & _) | (_ & Hsame)].
    + right. rewrite Hbest. exact Hgt.
    + rewrite Hsame. apply no_lower_refl.
  - unfold select_best, select_best_in, _log_evolution. rewrite Hmax. apply no_lower_refl.
Qed.

Lemma select_best_each_no_lower (calls : list (string * list Result.t)) :
  forall self,
    no_lower (best_win_rate self) (best_win_rate (select_best_each self calls)).
Proof.
  induction calls as [| [utcnow results] calls IH]; intros self; simpl.
  - apply no_lower_refl.
  - eapply no_lower_trans; [ apply select_best_no_lower | apply IH ].
Qed.

End Evolver_facts.

(** C9.  On a non-empty results list [select_best] returns the variant of
    the first result with the greatest win rate; [best_win_rate] afterwards
    is the old value or a greater one, also after any sequence of calls;
    and the base strategy (with [best_win_rate] and the log) changes only
    when the selected win rate is strictly greater than the old
    [best_win_rate]: otherwise the evolver is left exactly as it was. *)
Theorem select_best_never_lowers_best_win_rate :
  forall (self : Strategy_evolver.StrategyEvolver) (utcnow : string)
         (results : list Strategy_evolver.Result.t)
         (calls : list (string * list Strategy_evolver.Result.t)),
    results <> [] ->
    let '(self', out) := Strategy_evolver.select_best self utcnow results in
    Strategy_evolver.no_lower
      (Strategy_evolver.best_win_rate self)
      (Strategy_evolver.best_win_rate self')
    /\ Strategy_evolver.no_lower
         (Strategy_evolver.best_win_rate self)
         (Strategy_evolver.best_win_rate
            (Strategy_evolver.select_best_each self calls))
    /\ exists best,
         In best results
         /\ Strategy_evolver.max_by_win_rate results = Ok best
         /\ (exists v, out = Ok v
               /\ Strategy_evolver.win_rate v = Strategy_evolver.Result.win_rate best
               /\ Strategy_evolver.params v = Strategy_evolver.Result.params best)
         /\ ((Py.gt (Strategy_evolver.Result.win_rate best)
                (Strategy_evolver.best_win_rate self) = true
              /\ Strategy_evolver.best_win_rate self'
                 = Strategy_evolver.Result.win_rate best
              /\ Strategy_evolver.base_strategy self'
                 = Strategy_evolver.Result.params best)
             \/ (Py.gt (Strategy_evolver.Result.win_rate best)
                   (Strategy_evolver.best_win_rate self) = false
                 /\ self' = self)).
Proof.
  intros self utcnow results calls Hne.
  pose proof (select_best_no_lower self utcnow results) as Hone.
  pose proof (select_best_each_no_lower calls self) as Hall.
  destruct results as [| r rest]; [ congruence |].
  pose proof (select_best_cases self utcnow (r :: rest) _ eq_refl) as Hcases.
  destruct (Strategy_evolver.select_best self utcnow (r :: rest))
    as [self' out] eqn:Hsel.
  simpl in Hone, Hcases.
  split; [ exact Hone | split; [ exact Hall |] ].
  exists (Strategy_evolver.max_from r rest).
  split; [ apply max_from_In | split; [ reflexivity | split ] ].
  - unfold Strategy_evolver.select_best, Strategy_evolver.select_best_in,
      Strategy_evolver._log_evolution in Hsel. simpl in Hsel.
    destruct (Py.gt _ _) in Hsel; inversion Hsel; subst;
      eexists; (split; [ reflexivity |]); split; reflexivity.
  - exact Hcases.
Qed.

Lemma select_best_never_lowers_best_win_rate_witness :
  Evolver_samples.results <> []
  /\ Strategy_evolver.no_lower
       (Strategy_evolver.best_win_rate Evolver_samples.evolver)
       (Strategy_evolver.best_win_rate
          (fst (Strategy_evolver.select_best Evolver_samples.evolver
                  "2026-01-01T00:00:00" Evolver_samples.results))).
Proof.
  assert (H : Evolver_samples.results <> []) by discriminate.
  split; [ exact H |].
  exact (proj1 (select_best_never_lowers_best_win_rate
                  Evolver_samples.evolver "2026-01-01T00:00:00"
                  Evolver_samples.results
                  [("2026-01-01T01:00:00"%string, Evolver_samples.weaker)] H)).
Defined.

(** ** The trade manager *)

Section Dict_facts.

Context {V : Type}.

Lemma dict_set_absent (k : string) (v : V) (d : Py.dict V) :
  Py.dict_get k d = None -> Py.dict_set k v d = d ++ [(k, v)].
Proof.
  induction d as [| [k' v'] d IH]; simpl; intros H; [ reflexivity |].
  destruct (String.eqb k k'); [ discriminate |]. now rewrite IH.
Qed.

Lemma dict_get_app_absent (k : string) (d d' : Py.dict V) :
  Py.dict_get k d = None -> Py.dict_get k (d ++ d') = Py.dict_get k d'.
Proof.
  induction d as [| [k' v'] d IH]; simpl; intros H; [ reflexivity |].
  destruct (String.eqb k k'); [ discriminate |]. now apply IH.
Qed.

Lemma dict_contains_false (k : string) (d : Py.dict V) :
  Py.dict_contains k d = false -> Py.dict_get k d = None.
Proof.
  unfold Py.dict_contains. destruct (Py.dict_get k d); [ discriminate | auto ].
Qed.

Lemma dict_del_length (k : string) (d : Py.dict V) (v : V) :
  Py.dict_get k d = Some v -> S (length (Py.dict_del k d)) = length d.
Proof.
  induction d as [| [k' v'] d IH]; simpl; intros H; [ discriminate |].
  destruct (String.eqb k k'); simpl; [ reflexivity |]. now rewrite IH.
Qed.

End Dict_facts.

Section Persistence_facts.

Import Trade_manager.

Lemma from_dict_to_dict (p : Position) : from_dict (to_dict p) = Ok p.
Proof. destruct p; reflexivity. Qed.

Lemma snapshot_alloc_set (st : State) (k : string) (p : Position) :
  allocated st ->
  Py.dict_get k (positions st) = None ->
  let st1 := snd (alloc p st) in
  let st2 := set_positions (Py.dict_set k (fst (alloc p st)) (positions st1)) st1 in
  snapshot st2 = snapshot st ++ [(k, p)]
  /\ allocated st2
  /\ positions st2 = positions st ++ [(k, length (heap st))].
Proof.
  intros Hwf Hk. simpl. rewrite (dict_set_absent _ _ _ Hk).
  split; [| split ]; [| | reflexivity ].
  - unfold snapshot, deref. simpl. rewrite map_app. simpl.
    rewrite nth_middle. f_equal.
    apply map_ext_in. intros [k' r] Hin. simpl. f_equal.
    unfold allocated in Hwf. rewrite Forall_forall in Hwf.
    specialize (Hwf _ Hin). simpl in Hwf. now rewrite app_nth1.
  - unfold allocated in *. simpl. apply Forall_app. split.
    + eapply Forall_impl; [| exact Hwf ]. intros [k' r]. simpl.
      rewrite length_app. simpl. lia.
    + constructor; [| constructor ]. simpl. rewrite length_app. simpl. lia.
Qed.

Lemma load_items_snapshot (d : Py.dict Position) :
  forall st : State,
    NoDup (Py.keys d) ->
    (forall k, In k (Py.keys d) -> Py.dict_get k (positions st) = None) ->
    allocated st ->
    snapshot (load_items (map encode d) st) = snapshot st ++ d.
Proof.
  induction d as [| [k p] d IH]; intros st Hnd Hfresh Hwf.
  - simpl. now rewrite app_nil_r.
  - cbn [map]. unfold encode at 1. cbn [fst snd load_items].
    rewrite from_dict_to_dict.
    assert (Hk : Py.dict_get k (positions st) = None)
      by (apply Hfresh; now left).
    destruct (snapshot_alloc_set st k p Hwf Hk) as (Hsnap & Hwf' & Hpos).
    simpl in Hsnap, Hwf', Hpos. simpl.
    inversion Hnd as [| ? ? Hnotin Hnd' ]; subst.
    rewrite IH; auto.
    + rewrite Hsnap, <- app_assoc. reflexivity.
    + intros k' Hin. cbn [positions set_positions alloc snd fst].
      rewrite (dict_set_absent _ _ _ Hk).
      rewrite dict_get_app_absent by (apply Hfresh; now right).
      simpl. destruct (String.eqb_spec k' k); [ subst; contradiction | auto ].
Qed.

Lemma snapshot_keys (st : State) : Py.keys (snapshot st) = Py.keys (positions st).
Proof.
  unfold snapshot, Py.keys. rewrite map_map. reflexivity.
Qed.

End Persistence_facts.

(** C4.  Saving the state and constructing a fresh manager on the file
    that was written gives back the saved position set: the same keys in
    the same order, each with a position equal to the saved one field by
    field.  The fresh manager is given nothing but the disk: whatever else
    the process that starts it holds, its position set is read from the
    state file. *)
Theorem save_then_load_round_trip :
  forall (env : Trade_manager.Env) (st disk : Trade_manager.State),
    NoDup (Py.keys (Trade_manager.positions st)) ->
    Trade_manager.STATE_FILE disk
    = Trade_manager.STATE_FILE (Trade_manager._save_state env st) ->
    Trade_manager.snapshot (Trade_manager.__init__ disk)
    = Trade_manager.snapshot st
    /\ Py.keys (Trade_manager.positions (Trade_manager.__init__ disk))
       = Py.keys (Trade_manager.positions st).
Proof.
  intros env st disk Hnd Hfile.
  assert (Hload : Trade_manager.__init__ disk
                  = Trade_manager.load_items
                      (map Trade_manager.encode (Trade_manager.snapshot st))
                      (Trade_manager.mkState [] [] []
                         (Trade_manager.STATE_FILE disk)
                         (Trade_manager.TRADES_LOG_FILE disk)
                         (Trade_manager.ticks disk))).
  { unfold Trade_manager.__init__, Trade_manager._load_state.
    cbn [Trade_manager.STATE_FILE]. rewrite Hfile.
    unfold Trade_manager._save_state, Trade_manager.state_json. simpl.
    reflexivity. }
  assert (Hsnap : Trade_manager.snapshot (Trade_manager.__init__ disk)
                  = Trade_manager.snapshot st).
  { rewrite Hload, load_items_snapshot.
    - reflexivity.
    - now rewrite snapshot_keys.
    - intros k _. reflexivity.
    - constructor. }
  split; [ exact Hsnap |].
  now rewrite <- !snapshot_keys, Hsnap.
Qed.

Lemma save_then_load_round_trip_witness :
  NoDup (Py.keys (Trade_manager.positions Manager_samples.two_open))
  /\ Trade_manager.STATE_FILE Manager_samples.restarted
     = Trade_manager.STATE_FILE
         (Trade_manager._save_state Manager_samples.falling
            Manager_samples.two_open)
  /\ Trade_manager.snapshot
       (Trade_manager.__init__ Manager_samples.restarted)
     = [ ("MintA"%string, Manager_samples.alpha);
         ("MintB"%string, Manager_samples.beta) ].
Proof.
  assert (H : NoDup (Py.keys (Trade_manager.positions Manager_samples.two_open))).
  { simpl. repeat constructor; simpl; intuition discriminate. }
  split; [ exact H |].
  split; [ reflexivity |].
  exact (proj1 (save_then_load_round_trip Manager_samples.falling
                  Manager_samples.two_open Manager_samples.restarted H
                  eq_refl)).
Defined.


Lemma min_never_above (a b : float) : (b <? Py.min a b) = false.
Proof.
  unfold Py.min. destruct (b <? a) eqn:H; [ apply ltb_irrefl | exact H ].
Qed.

(** C3.  [open_position] returns [None] and leaves the whole state (the
    position set, the trade history, both files) as it was when the
    instrument is already open, when the number of open positions has
    reached the configured maximum, or when the buy is not filled or is
    filled with an amount [<= 0].  In every other case, and only then, the
    fill is a number that is not [<= 0], and the manager holds one more
    position, of size [min(amount_usdc, MAX_POSITION_SIZE_USDC)] (never
    above the maximum), has appended one OPEN record to the history and to
    the trades file, and has written the snapshot of the new position set
    to the state file. *)
Theorem open_position_all_or_nothing :
  forall (cfg : Trade_manager.config.t) (env : Trade_manager.Env)
         (mint symbol : string) (price_usd amount_usdc : float)
         (st : Trade_manager.State),
    let size :=
      Py.min amount_usdc (Trade_manager.config.MAX_POSITION_SIZE_USDC cfg) in
    let '(st', out) :=
      Trade_manager.open_position cfg env mint symbol price_usd amount_usdc st in
    if Trade_manager.refused cfg env mint amount_usdc st
    then st' = st /\ out = Ok None
    else
      exists token_amount position record,
        Trade_manager._execute_buy env mint size = Some token_amount
        /\ (token_amount <=? 0) = false
        /\ Trade_manager.heap st' = Trade_manager.heap st ++ [position]
        /\ Trade_manager.positions st'
           = Trade_manager.positions st
               ++ [(mint, length (Trade_manager.heap st))]
        /\ Trade_manager.mint position = mint
        /\ Trade_manager.token_amount position = token_amount
        /\ Trade_manager.position_size_usdc position = size
        /\ (Trade_manager.config.MAX_POSITION_SIZE_USDC cfg
              <? Trade_manager.position_size_usdc position) = false
        /\ Trade_manager.trade_history st'
           = Trade_manager.trade_history st ++ [record]
        /\ Trade_manager.TRADES_LOG_FILE st'
           = Trade_manager.TRADES_LOG_FILE st ++ [record]
        /\ Trade_manager.TradeRecord.action record = "OPEN"%string
        /\ Trade_manager.TradeRecord.mint record = mint
        /\ Trade_manager.TradeRecord.token_amount record = token_amount
        /\ Trade_manager.STATE_FILE st'
           = Trade_manager.Content
               (Trade_manager.state_json (Trade_manager.snapshot st')
                  (Trade_manager.time_time env (S (S (Trade_manager.ticks st)))))
        /\ (out = Ok (Some (length (Trade_manager.heap st)))
            \/ out = Raise ZeroDivisionError).
Proof.
  intros cfg env mint symbol price_usd amount_usdc st size.
  unfold Trade_manager.open_position, Trade_manager.refused.
  destruct (Py.dict_contains mint (Trade_manager.positions st)) eqn:Hin;
    [ simpl; auto |].
  destruct (Trade_manager.config.MAX_SIMULTANEOUS_POSITIONS cfg
              <=? Z.of_nat (length (Trade_manager.positions st)))%Z eqn:Hmax;
    [ simpl; auto |].
  fold size.
  destruct (Trade_manager._execute_buy env mint size) as [token_amount |] eqn:Hbuy;
    [| simpl; auto ].
  destruct (token_amount <=? 0) eqn:Hle; [ simpl; auto |].
  cbn [orb Trade_manager.alloc].
  rewrite (dict_set_absent _ _ _ (dict_contains_false _ _ Hin)).
  unfold Trade_manager.__str__.
  set (position :=
         Trade_manager.mkPosition mint symbol price_usd
           (Trade_manager.time_time env (Trade_manager.ticks st)) size
           token_amount
           (price_usd * (1 + Trade_manager.config.STOP_LOSS_PERCENT cfg / 100))
           (price_usd * (1 + Trade_manager.config.TAKE_PROFIT_PERCENT cfg / 100))
           price_usd 0).
  unfold Trade_manager.deref, Trade_manager.set_positions,
    Trade_manager._log_trade, Trade_manager._save_state, Trade_manager.tick.
  cbn [Trade_manager.heap Trade_manager.positions
       Trade_manager.trade_history Trade_manager.STATE_FILE
       Trade_manager.TRADES_LOG_FILE Trade_manager.ticks].
  rewrite !nth_middle.
  destruct (Trade_manager.unrealized_pnl_percent position) as [pct | e] eqn:Hpct.
  - eexists token_amount, position, _.
    cbn [Trade_manager.tick Trade_manager.heap Trade_manager.positions
         Trade_manager.trade_history Trade_manager.STATE_FILE
         Trade_manager.TRADES_LOG_FILE Trade_manager.ticks].
    repeat (split; [ first [ reflexivity | assumption | apply min_never_above ] |]).
    now left.
  - eexists token_amount, position, _.
    cbn [Trade_manager.tick Trade_manager.heap Trade_manager.positions
         Trade_manager.trade_history Trade_manager.STATE_FILE
         Trade_manager.TRADES_LOG_FILE Trade_manager.ticks].
    repeat (split; [ first [ reflexivity | assumption | apply min_never_above ] |]).
    right. f_equal.
    unfold Trade_manager.unrealized_pnl_percent, Py.truediv in Hpct.
    destruct (Trade_manager.position_size_usdc position =? 0);
      simpl in Hpct; congruence.
Qed.

Section Closing_facts.

Import Trade_manager.

Variable env : Env.

(** A sale that goes through takes exactly one key out of the dict, and
    logs one CLOSE record with the reason it was given. *)
Lemma close_position_filled (mint reason : string) (st st' : State)
    (usdc_received : float) :
  close_position env mint reason st = (st', Ok (Some usdc_received)) ->
  positions st' = Py.dict_del mint (positions st)
  /\ S (length (positions st')) = length (positions st)
  /\ exists record,
       trade_history st' = trade_history st ++ [record]
       /\ TradeRecord.action record = "CLOSE"%string
       /\ TradeRecord.reason record = reason.
Proof.
  unfold close_position. intros H.
  destruct (Py.dict_get mint (positions st)) as [r |] eqn:Hget;
    [| inversion H ].
  destruct (unrealized_pnl_percent (deref st r)); [| inversion H ].
  destruct (_execute_sell env mint (token_amount (deref st r)));
    inversion H; subst; clear H.
  simpl. split; [ reflexivity | split ].
  - now apply (dict_del_length mint (positions st) r).
  - eexists. split; [ reflexivity | split; reflexivity ].
Qed.

Lemma close_position_unfilled (mint reason : string) (st st' : State) :
  close_position env mint reason st = (st', Ok None) -> st' = st.
Proof.
  unfold close_position. intros H.
  destruct (Py.dict_get mint (positions st)) as [r |];
    [| now inversion H ].
  destruct (unrealized_pnl_percent (deref st r)); [| inversion H ].
  destruct (_execute_sell env mint (token_amount (deref st r)));
    now inversion H.
Qed.

Lemma trigger_outcome (label mint : string) (r : ref) (st st' : State)
    (actions actions' : list Action.t) :
  trigger env label mint r st actions = (st', Ok actions') ->
  (st' = st /\ actions' = actions)
  \/ S (length (positions st')) = length (positions st).
Proof.
  unfold trigger. intros H.
  destruct (close_position env mint label st) as [st1 [[u |] | e]] eqn:Hclose;
    inversion H; subst; clear H.
  - right. now apply close_position_filled in Hclose.
  - left. split; [ now apply close_position_unfilled in Hclose | reflexivity ].
Qed.

Lemma check_one_outcome (prices : Py.dict float) (mint : string) (r : ref)
    (st st' : State) (actions actions' : list Action.t) :
  check_one env prices mint r st actions = (st', Ok actions') ->
  (positions st' = positions st /\ actions' = actions)
  \/ S (length (positions st')) = length (positions st).
Proof.
  unfold check_one. intros H.
  destruct (Py.dict_get mint prices) as [price |];
    [| inversion H; subst; now left ].
  set (st1 := store r (set_current_price_usd (deref st r) price) st) in *.
  assert (Hpos : positions st1 = positions st) by reflexivity.
  destruct (should_stop_loss (deref st1 r)).
  - apply trigger_outcome in H. rewrite <- Hpos.
    destruct H as [[-> ->] | H]; auto.
  - destruct (should_take_profit (deref st1 r)).
    + apply trigger_outcome in H. rewrite <- Hpos.
      destruct H as [[-> ->] | H]; auto.
    + inversion H; subst. now left.
Qed.

(** The loop cannot finish after a position was closed: the next request
    to the iterator raises. *)
Lemma check_loop_returns_nothing (prices : Py.dict float) (used : nat)
    (items : Py.dict ref) :
  forall (st st' : State) (actions actions' : list Action.t),
    check_loop env prices used items st actions = (st', Ok actions') ->
    actions' = actions /\ positions st' = positions st.
Proof.
  induction items as [| [mint r] items IH]; intros st st' actions actions' H;
    simpl in H;
    destruct (length (positions st) =? used)%nat eqn:Hsize; simpl in H;
    try discriminate.
  - inversion H; subst. auto.
  - destruct (check_one env prices mint r st actions) as [st1 [acts1 | e]]
      eqn:Hone; [| discriminate ].
    destruct (check_one_outcome _ _ _ _ _ _ _ Hone) as [[Hpos ->] | Hless].
    + destruct (IH _ _ _ _ H) as [-> Hpos']. split; congruence.
    + exfalso. apply Nat.eqb_eq in Hsize.
      destruct items as [| [mint' r'] items']; simpl in H;
        destruct (length (positions st1) =? used)%nat eqn:Hsize1;
        simpl in H; try discriminate;
        apply Nat.eqb_eq in Hsize1; lia.
Qed.

Lemma check_positions_returns_nothing (st st' : State)
    (actions : list Action.t) :
  check_positions env st = (st', Ok actions) ->
  actions = [] /\ positions st' = positions st.
Proof.
  unfold check_positions. intros H.
  destruct (positions st) as [| kv d] eqn:Hpos.
  - inversion H; subst. auto.
  - apply check_loop_returns_nothing in H. destruct H as [-> H].
    split; [ reflexivity | congruence ].
Qed.

End Closing_facts.

(** C1 (what the code does).  [check_positions] never returns a triggered
    action: a call that returns normally returns the empty list and has
    closed nothing, because the loop runs over [self.positions.items()]
    while [close_position] deletes from that dict.  With AAA and BBB open
    and AAA below its stop, AAA is sold and logged, the request for the
    next item raises [RuntimeError], and BBB is neither refreshed (its
    current price stays 2 where the feed says 2.1) nor checked. *)
Theorem check_positions_stops_at_first_close :
  (forall env st st' actions,
     Trade_manager.check_positions env st = (st', Ok actions) ->
     actions = [] /\ Trade_manager.positions st' = Trade_manager.positions st)
  /\ (let '(st', out) :=
        Trade_manager.check_positions Manager_samples.falling
          Manager_samples.two_open in
      out = Raise RuntimeError
      /\ Trade_manager.snapshot st' = [("MintB"%string, Manager_samples.beta)]
      /\ map Trade_manager.TradeRecord.mint (Trade_manager.trade_history st')
         = ["MintA"%string]
      /\ map Trade_manager.TradeRecord.reason (Trade_manager.trade_history st')
         = ["stop_loss"%string]).
Proof.
  split.
  - intros env st st' actions H.
    now apply check_positions_returns_nothing in H.
  - vm_compute. repeat split; reflexivity.
Qed.

(** ** More on the trade manager: heap, dict and invariants *)

Section Heap_facts.

Import Trade_manager.

Lemma replace_nth_length {A : Type} (l : list A) :
  forall (n : nat) (x : A), length (replace_nth n x l) = length l.
Proof.
  induction l as [| y l IH]; intros [| n] x; simpl; auto.
Qed.

Lemma nth_replace_nth_same {A : Type} (l : list A) :
  forall (n : nat) (x d : A),
    (n < length l)%nat -> nth n (replace_nth n x l) d = x.
Proof.
  induction l as [| y l IH]; intros [| n] x d H; simpl in *; try lia; auto.
  apply IH. lia.
Qed.

Lemma nth_replace_nth_other {A : Type} (l : list A) :
  forall (n m : nat) (x d : A),
    n <> m -> nth m (replace_nth n x l) d = nth m l d.
Proof.
  induction l as [| y l IH]; intros [| n] [| m] x d H; simpl; auto;
    try congruence.
Qed.

Lemma deref_store_same (r : ref) (p : Position) (st : State) :
  (r < length (heap st))%nat -> deref (store r p st) r = p.
Proof. intros H. unfold deref, store. simpl. now apply nth_replace_nth_same. Qed.

Lemma deref_store_other (r r' : ref) (p : Position) (st : State) :
  r <> r' -> deref (store r p st) r' = deref st r'.
Proof. intros H. unfold deref, store. simpl. now apply nth_replace_nth_other. Qed.

Lemma allocated_store (r : ref) (p : Position) (st : State) :
  allocated st -> allocated (store r p st).
Proof.
  unfold allocated, store. simpl. now rewrite replace_nth_length.
Qed.

End Heap_facts.

Section Dict_del_facts.

Context {V : Type}.

Lemma dict_del_incl (k : string) (d : Py.dict V) :
  forall kv, In kv (Py.dict_del k d) -> In kv d.
Proof.
  induction d as [| [k' v'] d IH]; simpl; intros kv H; [ exact H |].
  destruct (String.eqb k k'); [ now right |].
  destruct H as [H | H]; [ now left | right; now apply IH ].
Qed.

Lemma dict_del_keys_NoDup (k : string) (d : Py.dict V) :
  NoDup (Py.keys d) -> NoDup (Py.keys (Py.dict_del k d)).
Proof.
  induction d as [| [k' v'] d IH]; simpl; intros H; [ exact H |].
  inversion H as [| ? ? Hnotin Hnd ]; subst.
  destruct (String.eqb k k'); [ exact Hnd |].
  simpl. constructor; [| now apply IH ].
  intros Hin. apply Hnotin. unfold Py.keys in *.
  apply in_map_iff in Hin. destruct Hin as (kv & Hfst & Hin).
  apply in_map_iff. exists kv. split; [ exact Hfst | now apply dict_del_incl in Hin ].
Qed.

Lemma dict_del_values_NoDup (k : string) (d : Py.dict V) :
  NoDup (map snd d) -> NoDup (map snd (Py.dict_del k d)).
Proof.
  induction d as [| [k' v'] d IH]; simpl; intros H; [ exact H |].
  inversion H as [| ? ? Hnotin Hnd ]; subst.
  destruct (String.eqb k k'); [ exact Hnd |].
  simpl. constructor; [| now apply IH ].
  intros Hin. apply Hnotin.
  apply in_map_iff in Hin. destruct Hin as (kv & Hsnd & Hin).
  apply in_map_iff. exists kv. split; [ exact Hsnd | now apply dict_del_incl in Hin ].
Qed.

Lemma dict_get_In (k : string) (d : Py.dict V) (v : V) :
  Py.dict_get k d = Some v -> In (k, v) d.
Proof.
  induction d as [| [k' v'] d IH]; simpl; intros H; [ discriminate |].
  destruct (String.eqb_spec k k').
  - inversion H; subst. now left.
  - right. now apply IH.
Qed.

Lemma dict_get_None_not_key (k : string) (d : Py.dict V) :
  Py.dict_get k d = None -> ~ In k (Py.keys d).
Proof.
  induction d as [| [k' v'] d IH]; simpl; intros H; [ tauto |].
  destruct (String.eqb_spec k k'); [ discriminate |].
  intros [Heq | Hin]; [ congruence | now apply IH ].
Qed.


Lemma dict_del_app_last (k : string) (v : V) (d : Py.dict V) :
  Py.dict_get k d = None -> Py.dict_del k (d ++ [(k, v)]) = d.
Proof.
  induction d as [| [k' v'] d IH]; simpl; intros H.
  - now rewrite String.eqb_refl.
  - destruct (String.eqb k k'); [ discriminate |]. now rewrite IH.
Qed.

Lemma dict_get_app_last (k : string) (v : V) (d : Py.dict V) :
  Py.dict_get k d = None -> Py.dict_get k (d ++ [(k, v)]) = Some v.
Proof.
  intros H. rewrite dict_get_app_absent by exact H. simpl.
  now rewrite String.eqb_refl.
Qed.

(** Deleting a key commutes with a change of the values. *)
Lemma dict_del_map {W : Type} (f : string * V -> W) (k : string)
    (d : Py.dict V) :
  Py.dict_del k (map (fun kv => (fst kv, f kv)) d)
  = map (fun kv => (fst kv, f kv)) (Py.dict_del k d).
Proof.
  induction d as [| [k' v'] d IH]; simpl; [ reflexivity |].
  destruct (String.eqb k k'); simpl; [ reflexivity | now rewrite IH ].
Qed.

End Dict_del_facts.

Section Close_facts.

Import Trade_manager.

Variable env : Env.

Lemma dict_del_other_refs (k : string) (d : Py.dict ref) (r : ref) :
  NoDup (map snd d) -> Py.dict_get k d = Some r ->
  forall kv, In kv (Py.dict_del k d) -> snd kv <> r.
Proof.
  induction d as [| [k' r'] d IH]; simpl; intros Hnd Hget kv Hin;
    [ discriminate |].
  inversion Hnd as [| ? ? Hnotin Hnd' ]; subst.
  destruct (String.eqb k k').
  - inversion Hget; subst. intros Heq. apply Hnotin.
    apply in_map_iff. exists kv. split; assumption.
  - destruct Hin as [<- | Hin]; simpl.
    + intros Heq. subst. apply Hnotin.
      apply dict_get_In in Hget.
      apply in_map_iff. exists (k, r). split; [ reflexivity | exact Hget ].
    + now apply IH.
Qed.

(** What a filled sale leaves behind, field by field. *)
Lemma close_position_filled_state (mint reason : string) (st st' : State)
    (usdc_received : float) :
  close_position env mint reason st = (st', Ok (Some usdc_received)) ->
  exists r record,
    Py.dict_get mint (positions st) = Some r
    /\ heap st'
       = replace_nth r
           (set_realized_pnl_usd (deref st r)
              (usdc_received - position_size_usdc (deref st r)))
           (heap st)
    /\ positions st' = Py.dict_del mint (positions st)
    /\ trade_history st' = trade_history st ++ [record]
    /\ TRADES_LOG_FILE st' = TRADES_LOG_FILE st ++ [record]
    /\ STATE_FILE st'
       = Content (state_json (snapshot st') (time_time env (S (ticks st))))
    /\ TradeRecord.action record = "CLOSE"%string
    /\ TradeRecord.reason record = reason
    /\ TradeRecord.pnl_usd record
       = realized_pnl_usd (deref st' r).
Proof.
  unfold close_position. intros H.
  destruct (Py.dict_get mint (positions st)) as [r |] eqn:Hget;
    [| inversion H ].
  destruct (unrealized_pnl_percent (deref st r)); [| inversion H ].
  destruct (_execute_sell env mint (token_amount (deref st r)));
    inversion H; subst; clear H.
  eexists r, _. split; [ reflexivity |].
  unfold _save_state, set_positions, _log_trade, store. cbn [heap positions
    trade_history STATE_FILE TRADES_LOG_FILE ticks].
  repeat (split; [ reflexivity |]). reflexivity.
Qed.

Lemma close_position_snapshot (mint reason : string) (st st' : State)
    (usdc_received : float) :
  consistent st ->
  close_position env mint reason st = (st', Ok (Some usdc_received)) ->
  snapshot st' = Py.dict_del mint (snapshot st) /\ consistent st'.
Proof.
  intros (Hkeys & Hrefs & Halloc) H.
  destruct (close_position_filled_state _ _ _ _ _ H)
    as (r & record & Hget & Hheap & Hpos & _).
  split.
  - unfold snapshot. rewrite Hpos.
    rewrite (dict_del_map (fun kv => deref st (snd kv))).
    apply map_ext_in. intros kv Hin. f_equal.
    unfold deref. rewrite Hheap. apply nth_replace_nth_other.
    intros Heq. eapply dict_del_other_refs; eauto.
  - unfold consistent, allocated. rewrite Hpos, Hheap, replace_nth_length.
    split; [ now apply dict_del_keys_NoDup |].
    split; [ now apply dict_del_values_NoDup |].
    apply Forall_forall. intros kv Hin. apply dict_del_incl in Hin.
    unfold allocated in Halloc. rewrite Forall_forall in Halloc. auto.
Qed.

Lemma close_position_not_filled (mint reason : string) (st st' : State)
    (out : result (option float)) :
  close_position env mint reason st = (st', out) ->
  (forall u, out <> Ok (Some u)) ->
  st' = st
  /\ ((Py.dict_get mint (positions st) = None /\ out = Ok None)
      \/ exists r,
           Py.dict_get mint (positions st) = Some r
           /\ (((position_size_usdc (deref st r) =? 0) = true
                /\ out = Raise ZeroDivisionError)
               \/ ((position_size_usdc (deref st r) =? 0) = false
                   /\ _execute_sell env mint (token_amount (deref st r)) = None
                   /\ out = Ok None))).
Proof.
  unfold close_position, unrealized_pnl_percent, Py.truediv. intros H Hout.
  destruct (Py.dict_get mint (positions st)) as [r |] eqn:Hget.
  - destruct (position_size_usdc (deref st r) =? 0) eqn:Hsize; simpl in H.
    + inversion H; subst. split; [ reflexivity |]. right. exists r. auto.
    + destruct (_execute_sell env mint (token_amount (deref st r))) eqn:Hsell;
        inversion H; subst.
      * exfalso. eapply Hout. reflexivity.
      * split; [ reflexivity |]. right. exists r. auto.
  - inversion H; subst. auto.
Qed.

End Close_facts.

Section Restart_facts.

Import Trade_manager.

(** A manager started on a state file that holds the snapshot [d] holds
    [d]. *)
Lemma restart_from_snapshot (st : State) (d : Py.dict Position) (t : float) :
  STATE_FILE st = Content (state_json d t) ->
  NoDup (Py.keys d) ->
  snapshot (__init__ st) = d.
Proof.
  intros Hfile Hnd. unfold __init__, _load_state. cbn [STATE_FILE].
  rewrite Hfile. unfold state_json. simpl.
  rewrite load_items_snapshot.
  - reflexivity.
  - exact Hnd.
  - intros k _. reflexivity.
  - constructor.
Qed.

End Restart_facts.

Section Open_facts.

Import Trade_manager.

Variable cfg : config.t.
Variable env : Env.

Lemma open_position_refused (mint symbol : string)
    (price_usd amount_usdc : float) (st : State) :
  refused cfg env mint amount_usdc st = true ->
  open_position cfg env mint symbol price_usd amount_usdc st = (st, Ok None).
Proof.
  unfold refused, open_position. intros H.
  destruct (Py.dict_contains mint (positions st)); [ reflexivity |].
  destruct (config.MAX_SIMULTANEOUS_POSITIONS cfg
              <=? Z.of_nat (length (positions st)))%Z; [ reflexivity |].
  simpl in H.
  destruct (_execute_buy env mint
              (Py.min amount_usdc (config.MAX_POSITION_SIZE_USDC cfg)))
    as [token_amount |]; [| reflexivity ].
  now rewrite H.
Qed.

(** What an accepted buy leaves behind, field by field. *)
Lemma open_position_accepted (mint symbol : string)
    (price_usd amount_usdc : float) (st : State) :
  refused cfg env mint amount_usdc st = false ->
  exists token_amount record st' out,
    open_position cfg env mint symbol price_usd amount_usdc st = (st', out)
    /\ _execute_buy env mint
         (Py.min amount_usdc (config.MAX_POSITION_SIZE_USDC cfg))
       = Some token_amount
    /\ (token_amount <=? 0) = false
    /\ Py.dict_get mint (positions st) = None
    /\ heap st'
       = heap st
           ++ [new_position cfg env mint symbol price_usd amount_usdc
                 token_amount st]
    /\ positions st' = positions st ++ [(mint, length (heap st))]
    /\ trade_history st' = trade_history st ++ [record]
    /\ TRADES_LOG_FILE st' = TRADES_LOG_FILE st ++ [record]
    /\ STATE_FILE st'
       = Content (state_json (snapshot st')
                    (time_time env (S (S (ticks st)))))
    /\ TradeRecord.action record = "OPEN"%string
    /\ TradeRecord.mint record = mint
    /\ (((Py.min amount_usdc (config.MAX_POSITION_SIZE_USDC cfg) =? 0) = false
         /\ out = Ok (Some (length (heap st))))
        \/ ((Py.min amount_usdc (config.MAX_POSITION_SIZE_USDC cfg) =? 0) = true
            /\ out = Raise ZeroDivisionError)).
Proof.
  unfold refused, open_position. intros H.
  destruct (Py.dict_contains mint (positions st)) eqn:Hin;
    [ discriminate |].
  destruct (config.MAX_SIMULTANEOUS_POSITIONS cfg
              <=? Z.of_nat (length (positions st)))%Z; [ discriminate |].
  simpl in H.
  destruct (_execute_buy env mint
              (Py.min amount_usdc (config.MAX_POSITION_SIZE_USDC cfg)))
    as [token_amount |]; [| discriminate ].
  rewrite H. cbn [alloc].
  rewrite (dict_set_absent _ _ _ (dict_contains_false _ _ Hin)).
  unfold __str__, deref, set_positions, _log_trade, _save_state, tick.
  cbn [heap positions trade_history STATE_FILE TRADES_LOG_FILE ticks].
  rewrite !nth_middle.
  fold (new_position cfg env mint symbol price_usd amount_usdc token_amount st).
  unfold unrealized_pnl_percent, Py.truediv.
  change (position_size_usdc
            (new_position cfg env mint symbol price_usd amount_usdc
               token_amount st))
    with (Py.min amount_usdc (config.MAX_POSITION_SIZE_USDC cfg)).
  destruct (Py.min amount_usdc (config.MAX_POSITION_SIZE_USDC cfg) =? 0);
    cbn [bind];
    eexists token_amount, _, _, _;
    (split; [ reflexivity |]);
    cbn [heap positions trade_history STATE_FILE TRADES_LOG_FILE ticks];
    repeat (split; [ first [ reflexivity | assumption
                           | now apply dict_contains_false ] |]);
    [ right | left ]; split; reflexivity.
Qed.

End Open_facts.

Section Invariant_facts.

Import Trade_manager.

Lemma logs_extended_refl (st : State) : logs_extended st st.
Proof. exists []. now rewrite !app_nil_r. Qed.

Lemma logs_extended_trans (a b c : State) :
  logs_extended a b -> logs_extended b c -> logs_extended a c.
Proof.
  intros (r1 & H1 & F1) (r2 & H2 & F2). exists (r1 ++ r2).
  rewrite H2, F2, H1, F1, !app_assoc. auto.
Qed.

Lemma consistent_store (r : ref) (p : Position) (st : State) :
  consistent st -> consistent (store r p st).
Proof.
  intros (H1 & H2 & H3). repeat split; auto. now apply allocated_store.
Qed.

Lemma close_position_keeps (env : Env) (mint reason : string)
    (st st' : State) (out : result (option float)) :
  close_position env mint reason st = (st', out) ->
  (consistent st -> consistent st') /\ logs_extended st st'.
Proof.
  intros H.
  destruct out as [[u |] | e].
  - split.
    + intros Hc. now destruct (close_position_snapshot _ _ _ _ _ _ Hc H).
    + destruct (close_position_filled_state _ _ _ _ _ _ H)
        as (r & record & _ & _ & _ & Hh & Hf & _).
      exists [record]. auto.
  - apply close_position_not_filled in H; [| discriminate ].
    destruct H as [-> _]. split; [ auto | apply logs_extended_refl ].
  - apply close_position_not_filled in H; [| discriminate ].
    destruct H as [-> _]. split; [ auto | apply logs_extended_refl ].
Qed.

Lemma trigger_keeps (env : Env) (label mint : string) (r : ref)
    (st st' : State) (actions : list Action.t)
    (out : result (list Action.t)) :
  trigger env label mint r st actions = (st', out) ->
  (consistent st -> consistent st') /\ logs_extended st st'.
Proof.
  unfold trigger. intros H.
  destruct (close_position env mint label st) as [st1 res] eqn:Hclose.
  apply close_position_keeps in Hclose.
  destruct res as [[u |] | e]; inversion H; subst; exact Hclose.
Qed.

Lemma check_one_keeps (env : Env) (prices : Py.dict float) (mint : string)
    (r : ref) (st st' : State) (actions : list Action.t)
    (out : result (list Action.t)) :
  check_one env prices mint r st actions = (st', out) ->
  (consistent st -> consistent st') /\ logs_extended st st'.
Proof.
  unfold check_one. intros H.
  destruct (Py.dict_get mint prices) as [price |];
    [| inversion H; subst; split; [ auto | apply logs_extended_refl ] ].
  set (st1 := store r (set_current_price_usd (deref st r) price) st) in *.
  assert (H1 : (consistent st -> consistent st1) /\ logs_extended st st1).
  { split; [ apply consistent_store |].
    exists []. simpl. now rewrite !app_nil_r. }
  assert (Htrig : forall label,
             trigger env label mint r st1 actions = (st', out) ->
             (consistent st -> consistent st') /\ logs_extended st st').
  { intros label Ht. apply trigger_keeps in Ht.
    destruct H1 as [C1 L1], Ht as [C2 L2].
    split; [ intros Hc; apply C2, C1, Hc
           | exact (logs_extended_trans _ _ _ L1 L2) ]. }
  destruct (should_stop_loss (deref st1 r)); [ eapply Htrig; eauto |].
  destruct (should_take_profit (deref st1 r)); [ eapply Htrig; eauto |].
  inversion H; subst. exact H1.
Qed.

Lemma check_loop_keeps (env : Env) (prices : Py.dict float) (used : nat)
    (items : Py.dict ref) :
  forall (st st' : State) (actions : list Action.t)
         (out : result (list Action.t)),
    check_loop env prices used items st actions = (st', out) ->
    (consistent st -> consistent st') /\ logs_extended st st'.
Proof.
  induction items as [| [mint r] items IH]; intros st st' actions out H;
    simpl in H;
    destruct (negb (length (positions st) =? used)%nat);
    try (inversion H; subst; split; [ auto | apply logs_extended_refl ]).
  destruct (check_one env prices mint r st actions) as [st1 [acts1 | e]]
    eqn:Hone; apply check_one_keeps in Hone; destruct Hone as [C1 L1].
  - apply IH in H. destruct H as [C2 L2].
    split; [ intros Hc; apply C2, C1, Hc
           | exact (logs_extended_trans _ _ _ L1 L2) ].
  - inversion H; subst. auto.
Qed.

Lemma check_positions_keeps (env : Env) (st st' : State)
    (out : result (list Action.t)) :
  check_positions env st = (st', out) ->
  (consistent st -> consistent st') /\ logs_extended st st'.
Proof.
  unfold check_positions. intros H.
  destruct (positions st) as [| kv d] eqn:Hpos.
  - inversion H; subst. split; [ auto | apply logs_extended_refl ].
  - rewrite <- Hpos in H. now apply check_loop_keeps in H.
Qed.

(** [str(p)] and the summary only read the clock. *)
Lemma render_only_ticks (env : Env) (refs : list ref) :
  forall (st st' : State) (lines : list (Position * float))
         (out : result (list (Position * float))),
    render env refs st lines = (st', out) ->
    heap st' = heap st /\ positions st' = positions st
    /\ trade_history st' = trade_history st
    /\ STATE_FILE st' = STATE_FILE st
    /\ TRADES_LOG_FILE st' = TRADES_LOG_FILE st.
Proof.
  induction refs as [| r refs IH]; intros st st' lines out H; simpl in H.
  - inversion H; subst. auto.
  - unfold __str__ in H.
    destruct (unrealized_pnl_percent (deref st r)).
    + apply IH in H. exact H.
    + inversion H; subst. auto.
Qed.

Lemma summary_only_ticks (env : Env) (st st' : State)
    (out : result Summary.t) :
  get_portfolio_summary env st = (st', out) ->
  heap st' = heap st /\ positions st' = positions st
  /\ trade_history st' = trade_history st
  /\ STATE_FILE st' = STATE_FILE st
  /\ TRADES_LOG_FILE st' = TRADES_LOG_FILE st.
Proof.
  unfold get_portfolio_summary. intros H.
  destruct (if Py.gt _ 0 then _ else _) as [pct | e];
    [| inversion H; subst; auto ].
  destruct (render env (map snd (positions st)) st []) as [st1 res] eqn:Hr.
  apply render_only_ticks in Hr.
  destruct res; inversion H; subst; exact Hr.
Qed.

Lemma open_position_keeps (cfg : config.t) (env : Env) (mint symbol : string)
    (price_usd amount_usdc : float) (st st' : State)
    (out : result (option ref)) :
  open_position cfg env mint symbol price_usd amount_usdc st = (st', out) ->
  (consistent st -> consistent st') /\ logs_extended st st'.
Proof.
  intros H.
  destruct (refused cfg env mint amount_usdc st) eqn:Href.
  - rewrite (open_position_refused _ _ _ symbol price_usd _ _ Href) in H.
    inversion H; subst. split; [ auto | apply logs_extended_refl ].
  - destruct (open_position_accepted _ _ _ symbol price_usd _ _ Href)
      as (t & record & st1 & out1 & Hopen & _ & _ & Hfresh & Hheap & Hpos
          & Hh & Hf & _).
    rewrite Hopen in H. inversion H; subst. split.
    + intros (Hkeys & Hrefs & Halloc).
      unfold consistent, allocated, Py.keys.
      rewrite Hpos, Hheap, !map_app, length_app. cbn [map fst snd length].
      unfold allocated in Halloc. rewrite Forall_forall in Halloc.
      split; [| split ].
      * apply NoDup_app; [ exact Hkeys | repeat constructor; simpl; tauto |].
        intros k Hk [<- | []].
        now apply (dict_get_None_not_key _ _ Hfresh).
      * apply NoDup_app; [ exact Hrefs | repeat constructor; simpl; tauto |].
        intros r Hr [<- | []].
        apply in_map_iff in Hr. destruct Hr as (kv & Hsnd & Hin).
        specialize (Halloc _ Hin). unfold ref in *. simpl in *. lia.
      * apply Forall_app. split.
        -- apply Forall_forall. intros kv Hin. specialize (Halloc _ Hin).
           apply Nat.lt_lt_add_r. exact Halloc.
        -- constructor; [ simpl; lia | constructor ].
    + exists [record]. auto.
Qed.

End Invariant_facts.

Section Dict_set_facts.

Context {V : Type}.

Lemma dict_set_keys (k : string) (v : V) (d : Py.dict V) :
  Py.keys (Py.dict_set k v d)
  = if Py.dict_contains k d then Py.keys d else Py.keys d ++ [k].
Proof.
  unfold Py.dict_contains.
  induction d as [| [k' v'] d IH]; simpl; [ reflexivity |].
  destruct (String.eqb k k'); simpl; [ reflexivity |].
  rewrite IH. now destruct (Py.dict_get k d).
Qed.

Lemma dict_set_keys_NoDup (k : string) (v : V) (d : Py.dict V) :
  NoDup (Py.keys d) -> NoDup (Py.keys (Py.dict_set k v d)).
Proof.
  intros Hnd. rewrite dict_set_keys. unfold Py.dict_contains.
  destruct (Py.dict_get k d) eqn:Hget; [ exact Hnd |].
  apply NoDup_app; [ exact Hnd | repeat constructor; simpl; tauto |].
  intros k' Hk [<- | []]. now apply (dict_get_None_not_key _ _ Hget).
Qed.

Lemma dict_set_values_incl (k : string) (v : V) (d : Py.dict V) :
  forall x, In x (map snd (Py.dict_set k v d)) -> x = v \/ In x (map snd d).
Proof.
  induction d as [| [k' v'] d IH]; simpl; intros x H.
  - destruct H as [<- | []]. now left.
  - destruct (String.eqb k k'); simpl in H.
    + destruct H as [<- | H]; auto.
    + destruct H as [<- | H]; auto.
      destruct (IH _ H); auto.
Qed.

Lemma dict_set_values_NoDup (k : string) (v : V) (d : Py.dict V) :
  NoDup (map snd d) -> ~ In v (map snd d) ->
  NoDup (map snd (Py.dict_set k v d)).
Proof.
  induction d as [| [k' v'] d IH]; simpl; intros Hnd Hv.
  - repeat constructor. simpl. tauto.
  - inversion Hnd as [| ? ? Hnotin Hnd' ]; subst.
    destruct (String.eqb k k'); simpl.
    + constructor; [ tauto | exact Hnd' ].
    + constructor; [| apply IH; tauto ].
      intros Hin. apply dict_set_values_incl in Hin.
      destruct Hin as [-> | Hin]; tauto.
Qed.

Lemma dict_set_Forall (P : string * V -> Prop) (k : string) (v : V)
    (d : Py.dict V) :
  Forall P d -> (forall k', P (k', v)) -> Forall P (Py.dict_set k v d).
Proof.
  induction d as [| [k' v'] d IH]; simpl; intros Hd Hv.
  - constructor; [ apply Hv | constructor ].
  - inversion Hd; subst.
    destruct (String.eqb k k'); constructor; auto.
Qed.

End Dict_set_facts.

Section Reachable_facts.

Import Trade_manager.

Lemma load_items_keeps (items : Py.dict json) :
  forall st : State,
    consistent st ->
    consistent (load_items items st)
    /\ trade_history (load_items items st) = trade_history st
    /\ TRADES_LOG_FILE (load_items items st) = TRADES_LOG_FILE st.
Proof.
  induction items as [| [mint [x | s | pos_data]] items IH]; intros st Hc;
    simpl; auto.
  destruct (from_dict pos_data) as [p | e]; [| auto ].
  destruct Hc as (Hkeys & Hrefs & Halloc).
  unfold allocated in Halloc.
  destruct (IH (set_positions
                  (Py.dict_set mint (length (heap st)) (positions st))
                  (snd (alloc p st)))) as (C & Hh & Hf).
  - unfold consistent, allocated. simpl. split; [| split ].
    + now apply dict_set_keys_NoDup.
    + apply dict_set_values_NoDup; [ exact Hrefs |].
      intros Hin. apply in_map_iff in Hin. destruct Hin as (kv & Hsnd & Hin).
      rewrite Forall_forall in Halloc. specialize (Halloc _ Hin).
      unfold ref in *. simpl in *. lia.
    + rewrite length_app. simpl. apply dict_set_Forall.
      * eapply Forall_impl; [| exact Halloc ]. intros kv Hlt.
        unfold ref in *. simpl in *. lia.
      * intros k'. simpl. lia.
  - simpl in *. auto.
Qed.

Lemma init_keeps (disk : State) :
  consistent (__init__ disk)
  /\ trade_history (__init__ disk) = []
  /\ TRADES_LOG_FILE (__init__ disk) = TRADES_LOG_FILE disk.
Proof.
  assert (Hempty : consistent
                     (mkState [] [] [] (STATE_FILE disk)
                        (TRADES_LOG_FILE disk) (ticks disk))).
  { repeat split; constructor. }
  unfold __init__, _load_state. cbn [STATE_FILE].
  destruct (STATE_FILE disk) as [| | [x | s | state]]; auto.
  destruct (Py.dict_get "positions" state) as [[x | s | positions_data] |];
    auto.
  destruct (load_items_keeps positions_data _ Hempty) as (C & Hh & Hf).
  auto.
Qed.

Lemma perform_keeps (cfg : config.t) (st : State) (ec : Env * call) :
  (consistent st -> consistent (perform cfg st ec))
  /\ logs_extended st (perform cfg st ec).
Proof.
  unfold perform. destruct ec as [env c]. simpl.
  destruct c as [mint symbol price_usd amount_usdc | mint reason | |].
  - destruct (open_position cfg env mint symbol price_usd amount_usdc st)
      as [st' out] eqn:H. now apply open_position_keeps in H.
  - destruct (close_position env mint reason st) as [st' out] eqn:H.
    now apply close_position_keeps in H.
  - destruct (check_positions env st) as [st' out] eqn:H.
    now apply check_positions_keeps in H.
  - destruct (get_portfolio_summary env st) as [st' out] eqn:H.
    apply summary_only_ticks in H. destruct H as (Hh & Hp & Ht & _ & Hf).
    simpl. split.
    + unfold consistent, allocated. now rewrite Hp, Hh.
    + exists []. now rewrite Ht, Hf, !app_nil_r.
Qed.

Lemma perform_all_keeps (cfg : config.t) (calls : list (Env * call)) :
  forall st : State,
    (consistent st -> consistent (perform_all cfg calls st))
    /\ logs_extended st (perform_all cfg calls st).
Proof.
  unfold perform_all.
  induction calls as [| ec calls IH]; intros st; simpl.
  - split; [ auto | apply logs_extended_refl ].
  - destruct (perform_keeps cfg st ec) as [C1 L1].
    destruct (IH (perform cfg st ec)) as [C2 L2].
    split; [ intros Hc; apply C2, C1, Hc
           | exact (logs_extended_trans _ _ _ L1 L2) ].
Qed.

End Reachable_facts.

(** X1.  Whatever a manager finds in its state file at start-up and
    whatever calls of [open_position], [close_position], [check_positions]
    and [get_portfolio_summary] follow, with any answers of the swap
    executor and the price feed, the position set stays a dict of distinct
    objects: no instrument twice, no object under two keys, no dangling
    reference. *)
Theorem position_set_stays_consistent :
  forall (cfg : Trade_manager.config.t) (disk : Trade_manager.State)
         (calls : list (Trade_manager.Env * Trade_manager.call)),
    Trade_manager.consistent
      (Trade_manager.perform_all cfg calls (Trade_manager.__init__ disk)).
Proof.
  intros cfg disk calls.
  apply perform_all_keeps. apply init_keeps.
Qed.

(** X2.  The trade history in memory and the trades file only grow, and by
    the same records: after any sequence of calls on a manager started on
    [disk], the trades file is what it was at start-up followed by the
    manager's trade history. *)
Theorem trades_file_mirrors_history :
  forall (cfg : Trade_manager.config.t) (disk : Trade_manager.State)
         (calls : list (Trade_manager.Env * Trade_manager.call)),
    let st := Trade_manager.perform_all cfg calls (Trade_manager.__init__ disk) in
    Trade_manager.TRADES_LOG_FILE st
    = Trade_manager.TRADES_LOG_FILE disk ++ Trade_manager.trade_history st.
Proof.
  intros cfg disk calls st.
  destruct (init_keeps disk) as (_ & Hh & Hf).
  destruct (proj2 (perform_all_keeps cfg calls (Trade_manager.__init__ disk)))
    as (records & Hh' & Hf').
  subst st. rewrite Hf', Hh', Hh, Hf. reflexivity.
Qed.

Section Snapshot_facts.

Import Trade_manager.

Lemma snapshot_extended (st st' : State) (k : string) (p : Position) :
  allocated st ->
  heap st' = heap st ++ [p] ->
  positions st' = positions st ++ [(k, length (heap st))] ->
  snapshot st' = snapshot st ++ [(k, p)].
Proof.
  intros Halloc Hheap Hpos. unfold snapshot, deref.
  rewrite Hpos, Hheap, map_app. cbn [map fst snd].
  rewrite nth_middle. f_equal.
  apply map_ext_in. intros kv Hin. f_equal.
  unfold allocated in Halloc. rewrite Forall_forall in Halloc.
  specialize (Halloc _ Hin). now rewrite app_nth1.
Qed.

Lemma snapshot_get_None (st : State) (k : string) :
  Py.dict_get k (positions st) = None -> Py.dict_get k (snapshot st) = None.
Proof.
  unfold snapshot. induction (positions st) as [| [k' r] d IH]; simpl;
    [ reflexivity |].
  destruct (String.eqb k k'); [ discriminate | exact IH ].
Qed.

Lemma two_open_consistent : consistent Manager_samples.two_open.
Proof.
  unfold consistent, allocated. simpl.
  repeat split; repeat constructor; simpl; intuition (try discriminate; try lia).
Qed.

End Snapshot_facts.

(** X3.  A call of [close_position] that does not report a filled sale
    leaves the whole state as it was: the instrument is not open ([None]),
    the sale is not filled ([None], the position stays open for another
    attempt), or the position has size zero, in which case the log line
    written before the sale divides by the size and the call raises
    [ZeroDivisionError]. *)
Theorem unfilled_close_changes_nothing :
  forall (env : Trade_manager.Env) (mint reason : string)
         (st st' : Trade_manager.State) (out : result (option float)),
    Trade_manager.close_position env mint reason st = (st', out) ->
    (forall usdc_received, out <> Ok (Some usdc_received)) ->
    st' = st
    /\ ((Py.dict_get mint (Trade_manager.positions st) = None /\ out = Ok None)
        \/ exists r,
             Py.dict_get mint (Trade_manager.positions st) = Some r
             /\ (((Trade_manager.position_size_usdc (Trade_manager.deref st r)
                     =? 0) = true
                  /\ out = Raise ZeroDivisionError)
                 \/ ((Trade_manager.position_size_usdc (Trade_manager.deref st r)
                        =? 0) = false
                     /\ Trade_manager._execute_sell env mint
                          (Trade_manager.token_amount (Trade_manager.deref st r))
                        = None
                     /\ out = Ok None))).
Proof.
  intros env mint reason st st' out H Hout.
  exact (close_position_not_filled env mint reason st st' out H Hout).
Qed.

Lemma unfilled_close_changes_nothing_witness :
  Trade_manager.close_position Manager_samples.falling "MintB" "manual"
    Manager_samples.two_open
  = (Manager_samples.two_open, Ok None)
  /\ (forall usdc_received,
        @Ok (option float) None <> Ok (Some usdc_received))
  /\ Manager_samples.two_open = Manager_samples.two_open.
Proof.
  assert (H1 : Trade_manager.close_position Manager_samples.falling "MintB"
                 "manual" Manager_samples.two_open
               = (Manager_samples.two_open, Ok None))
    by (vm_compute; reflexivity).
  assert (H2 : forall usdc_received : float,
             @Ok (option float) None <> Ok (Some usdc_received))
    by discriminate.
  exact (conj H1 (conj H2
           (proj1 (unfilled_close_changes_nothing _ _ _ _ _ _ H1 H2)))).
Defined.

(** X4.  A filled sale on a consistent state removes exactly that
    instrument and leaves every other position as it was; the closed
    object, still readable by whoever holds it, carries
    [realized_pnl_usd = usdc_received - position_size_usdc]; one CLOSE
    record with that pnl and the given reason is appended to the history
    and to the trades file; and the state file holds the new position set,
    so a manager restarted now holds exactly it. *)
Theorem filled_close_outcome :
  forall (env : Trade_manager.Env) (mint reason : string)
         (st st' : Trade_manager.State) (usdc_received : float),
    Trade_manager.consistent st ->
    Trade_manager.close_position env mint reason st
    = (st', Ok (Some usdc_received)) ->
    Trade_manager.snapshot st' = Py.dict_del mint (Trade_manager.snapshot st)
    /\ Trade_manager.snapshot (Trade_manager.__init__ st')
       = Trade_manager.snapshot st'
    /\ exists r record,
         Py.dict_get mint (Trade_manager.positions st) = Some r
         /\ Trade_manager.realized_pnl_usd (Trade_manager.deref st' r)
            = usdc_received
              - Trade_manager.position_size_usdc (Trade_manager.deref st r)
         /\ Trade_manager.trade_history st'
            = Trade_manager.trade_history st ++ [record]
         /\ Trade_manager.TRADES_LOG_FILE st'
            = Trade_manager.TRADES_LOG_FILE st ++ [record]
         /\ Trade_manager.TradeRecord.action record = "CLOSE"%string
         /\ Trade_manager.TradeRecord.reason record = reason
         /\ Trade_manager.TradeRecord.pnl_usd record
            = usdc_received
              - Trade_manager.position_size_usdc (Trade_manager.deref st r).
Proof.
  intros env mint reason st st' u Hc H.
  destruct (close_position_snapshot _ _ _ _ _ _ Hc H) as [Hsnap Hc'].
  destruct (close_position_filled_state _ _ _ _ _ _ H)
    as (r & record & Hget & Hheap & Hpos & Hh & Hf & Hfile & Ha & Hr & Hpnl).
  assert (Hreal : Trade_manager.realized_pnl_usd (Trade_manager.deref st' r)
                  = u - Trade_manager.position_size_usdc
                          (Trade_manager.deref st r)).
  { unfold Trade_manager.deref at 1. rewrite Hheap.
    rewrite nth_replace_nth_same; [ reflexivity |].
    destruct Hc as (_ & _ & Halloc).
    unfold Trade_manager.allocated in Halloc. rewrite Forall_forall in Halloc.
    apply dict_get_In in Hget. exact (Halloc _ Hget). }
  split; [ exact Hsnap | split ].
  - apply (restart_from_snapshot _ _ _ Hfile).
    rewrite snapshot_keys. apply Hc'.
  - exists r, record. rewrite Hpnl, Hreal. repeat split; assumption.
Qed.

Lemma filled_close_outcome_witness :
  Trade_manager.consistent Manager_samples.two_open
  /\ snd (Trade_manager.close_position Manager_samples.falling "MintA"
            "manual" Manager_samples.two_open) = Ok (Some 40)
  /\ Trade_manager.snapshot
       (fst (Trade_manager.close_position Manager_samples.falling "MintA"
               "manual" Manager_samples.two_open))
     = Py.dict_del "MintA" (Trade_manager.snapshot Manager_samples.two_open).
Proof.
  assert (H : Trade_manager.close_position Manager_samples.falling "MintA"
                "manual" Manager_samples.two_open
              = (fst (Trade_manager.close_position Manager_samples.falling
                        "MintA" "manual" Manager_samples.two_open),
                 Ok (Some 40)))
    by (vm_compute; reflexivity).
  split; [ exact two_open_consistent |].
  split; [ vm_compute; reflexivity |].
  exact (proj1 (filled_close_outcome _ _ _ _ _ _ two_open_consistent H)).
Defined.

(** X5.  When [open_position] accepts (none of its three refusals
    applies) on a consistent state, the position set by value is the old
    one followed by the new position under its mint, and the state file
    holds that set: a manager restarted now holds exactly it, also when the
    call itself ends in [ZeroDivisionError] (a position of size zero makes
    the closing log line divide by zero after everything was saved). *)
Theorem accepted_open_is_persisted :
  forall (cfg : Trade_manager.config.t) (env : Trade_manager.Env)
         (mint symbol : string) (price_usd amount_usdc : float)
         (st : Trade_manager.State),
    Trade_manager.consistent st ->
    Trade_manager.refused cfg env mint amount_usdc st = false ->
    let '(st', out) :=
      Trade_manager.open_position cfg env mint symbol price_usd amount_usdc st in
    exists token_amount,
      Trade_manager._execute_buy env mint
        (Py.min amount_usdc (Trade_manager.config.MAX_POSITION_SIZE_USDC cfg))
      = Some token_amount
      /\ Trade_manager.snapshot st'
         = Trade_manager.snapshot st
             ++ [(mint,
                  Trade_manager.new_position cfg env mint symbol price_usd
                    amount_usdc token_amount st)]
      /\ Trade_manager.snapshot (Trade_manager.__init__ st')
         = Trade_manager.snapshot st'
      /\ (out = Ok (Some (length (Trade_manager.heap st)))
          \/ ((Py.min amount_usdc
                 (Trade_manager.config.MAX_POSITION_SIZE_USDC cfg) =? 0) = true
              /\ out = Raise ZeroDivisionError)).
Proof.
  intros cfg env mint symbol price_usd amount_usdc st Hc Href.
  destruct (open_position_accepted cfg env mint symbol price_usd _ _ Href)
    as (t & record & st' & out & Hopen & Hbuy & _ & Hfresh & Hheap & Hpos
        & _ & _ & Hfile & _ & _ & Hout).
  rewrite Hopen. exists t.
  pose proof (open_position_keeps _ _ _ _ _ _ _ _ _ Hopen) as [Hkeep _].
  assert (Hsnap := snapshot_extended st st' mint _ (proj2 (proj2 Hc)) Hheap Hpos).
  split; [ exact Hbuy | split; [ exact Hsnap | split ] ].
  - apply (restart_from_snapshot _ _ _ Hfile).
    rewrite snapshot_keys. apply (Hkeep Hc).
  - destruct Hout as [[_ ->] | [Hz ->]]; auto.
Qed.

Lemma accepted_open_is_persisted_witness :
  Trade_manager.consistent Manager_samples.two_open
  /\ Trade_manager.refused Trade_manager.config.default Manager_samples.buying
       "MintC" 80 Manager_samples.two_open = false
  /\ exists token_amount,
       Trade_manager.snapshot
         (fst (Trade_manager.open_position Trade_manager.config.default
                 Manager_samples.buying "MintC" "CCC" 1.5 80
                 Manager_samples.two_open))
       = Trade_manager.snapshot Manager_samples.two_open
           ++ [("MintC"%string,
                Trade_manager.new_position Trade_manager.config.default
                  Manager_samples.buying "MintC" "CCC" 1.5 80 token_amount
                  Manager_samples.two_open)].
Proof.
  assert (H : Trade_manager.refused Trade_manager.config.default
                Manager_samples.buying "MintC" 80 Manager_samples.two_open
              = false) by (vm_compute; reflexivity).
  split; [ exact two_open_consistent | split; [ exact H |] ].
  pose proof (accepted_open_is_persisted Trade_manager.config.default
                Manager_samples.buying "MintC" "CCC" 1.5 80
                Manager_samples.two_open two_open_consistent H) as T.
  destruct (Trade_manager.open_position Trade_manager.config.default
              Manager_samples.buying "MintC" "CCC" 1.5 80
              Manager_samples.two_open) as [st' out].
  destruct T as (t & _ & Hsnap & _). exists t. exact Hsnap.
Defined.

(** X6.  Opening a position and then closing it, both filled, on a
    consistent state gives back the position set the manager had before,
    in memory and in the state file; the history has gained an OPEN and a
    CLOSE record, the second with pnl [usdc_received - position size]. *)
Theorem open_then_close_restores_the_set :
  forall (cfg : Trade_manager.config.t) (env env' : Trade_manager.Env)
         (mint symbol reason : string) (price_usd amount_usdc : float)
         (st st1 st2 : Trade_manager.State) (r : Trade_manager.ref)
         (usdc_received : float),
    Trade_manager.consistent st ->
    Trade_manager.open_position cfg env mint symbol price_usd amount_usdc st
    = (st1, Ok (Some r)) ->
    Trade_manager.close_position env' mint reason st1
    = (st2, Ok (Some usdc_received)) ->
    Trade_manager.snapshot st2 = Trade_manager.snapshot st
    /\ Trade_manager.snapshot (Trade_manager.__init__ st2)
       = Trade_manager.snapshot st
    /\ exists opened closed,
         Trade_manager.trade_history st2
         = Trade_manager.trade_history st ++ [opened; closed]
         /\ Trade_manager.TradeRecord.action opened = "OPEN"%string
         /\ Trade_manager.TradeRecord.action closed = "CLOSE"%string
         /\ Trade_manager.TradeRecord.pnl_usd closed
            = usdc_received
              - Py.min amount_usdc
                  (Trade_manager.config.MAX_POSITION_SIZE_USDC cfg).
Proof.
  intros cfg env env' mint symbol reason price_usd amount_usdc st st1 st2 r u
    Hc Hopen Hclose.
  destruct (Trade_manager.refused cfg env mint amount_usdc st) eqn:Href.
  { rewrite (open_position_refused _ _ _ symbol price_usd _ _ Href) in Hopen.
    discriminate. }
  destruct (open_position_accepted cfg env mint symbol price_usd _ _ Href)
    as (t & opened & st1' & out & Hopen' & _ & _ & Hfresh & Hheap & Hpos
        & Hh & _ & _ & Hact & _ & _).
  rewrite Hopen in Hopen'. inversion Hopen'; subst st1' out. clear Hopen'.
  pose proof (open_position_keeps _ _ _ _ _ _ _ _ _ Hopen) as [Hkeep _].
  specialize (Hkeep Hc).
  assert (Hsnap1 := snapshot_extended st st1 mint _ (proj2 (proj2 Hc)) Hheap Hpos).
  destruct (close_position_snapshot _ _ _ _ _ _ Hkeep Hclose) as [Hsnap2 Hc2].
  destruct (close_position_filled_state _ _ _ _ _ _ Hclose)
    as (r' & closed & Hget & Hheap2 & _ & Hh2 & _ & Hfile & Hact2 & _ & Hpnl).
  assert (Hset : Trade_manager.snapshot st2 = Trade_manager.snapshot st).
  { rewrite Hsnap2, Hsnap1.
    apply dict_del_app_last. now apply snapshot_get_None. }
  assert (Hr' : r' = length (Trade_manager.heap st)).
  { rewrite Hpos in Hget. rewrite (dict_get_app_last _ _ _ Hfresh) in Hget.
    now inversion Hget. }
  subst r'.
  split; [ exact Hset | split ].
  - rewrite <- Hset. apply (restart_from_snapshot _ _ _ Hfile).
    rewrite snapshot_keys. apply Hc2.
  - exists opened, closed. rewrite Hh2, Hh, <- app_assoc.
    split; [ reflexivity | split; [ exact Hact | split; [ exact Hact2 |] ] ].
    rewrite Hpnl. unfold Trade_manager.deref. rewrite Hheap2.
    unfold Trade_manager.deref. rewrite Hheap.
    rewrite nth_replace_nth_same by (rewrite length_app; simpl; lia).
    rewrite nth_middle. reflexivity.
Qed.

Lemma open_then_close_restores_the_set_witness :
  let st1 :=
    fst (Trade_manager.open_position Trade_manager.config.default
           Manager_samples.buying "MintC" "CCC" 1.5 80
           Manager_samples.two_open) in
  let st2 :=
    fst (Trade_manager.close_position Manager_samples.level "MintC" "manual"
           st1) in
  Trade_manager.consistent Manager_samples.two_open
  /\ Trade_manager.open_position Trade_manager.config.default
       Manager_samples.buying "MintC" "CCC" 1.5 80 Manager_samples.two_open
     = (st1, Ok (Some 2%nat))
  /\ Trade_manager.close_position Manager_samples.level "MintC" "manual" st1
     = (st2, Ok (Some 49))
  /\ Trade_manager.snapshot st2
     = Trade_manager.snapshot Manager_samples.two_open.
Proof.
  intros st1 st2.
  assert (H1 : Trade_manager.open_position Trade_manager.config.default
                 Manager_samples.buying "MintC" "CCC" 1.5 80
                 Manager_samples.two_open = (st1, Ok (Some 2%nat)))
    by (vm_compute; reflexivity).
  assert (H2 : Trade_manager.close_position Manager_samples.level "MintC"
                 "manual" st1 = (st2, Ok (Some 49)))
    by (vm_compute; reflexivity).
  split; [ exact two_open_consistent | split; [ exact H1 | split; [ exact H2 |] ] ].
  exact (proj1 (open_then_close_restores_the_set _ _ _ _ _ _ _ _ _ _ _ _ _
                  two_open_consistent H1 H2)).
Defined.

Section Check_outcome_facts.

Import Trade_manager.

Variable env : Env.

(** One pass of the loop either closes nothing, or closes the position
    it looks at and reports it. *)
Lemma check_one_full (prices : Py.dict float) (mint : string) (r : ref)
    (st st' : State) (actions : list Action.t)
    (out : result (list Action.t)) :
  check_one env prices mint r st actions = (st', out) ->
  (positions st' = positions st
   /\ trade_history st' = trade_history st
   /\ STATE_FILE st' = STATE_FILE st
   /\ (out = Ok actions \/ out = Raise ZeroDivisionError))
  \/ (exists a record,
        out = Ok (actions ++ [a])
        /\ positions st' = Py.dict_del mint (positions st)
        /\ S (length (positions st')) = length (positions st)
        /\ trade_history st' = trade_history st ++ [record]
        /\ TradeRecord.action record = "CLOSE"%string).
Proof.
  unfold check_one. intros H.
  destruct (Py.dict_get mint prices) as [price |];
    [| inversion H; subst; left; auto ].
  set (st1 := store r (set_current_price_usd (deref st r) price) st) in *.
  assert (Htrig : forall label,
             trigger env label mint r st1 actions = (st', out) ->
             (positions st' = positions st
              /\ trade_history st' = trade_history st
              /\ STATE_FILE st' = STATE_FILE st
              /\ (out = Ok actions \/ out = Raise ZeroDivisionError))
             \/ (exists a record,
                   out = Ok (actions ++ [a])
                   /\ positions st' = Py.dict_del mint (positions st)
                   /\ S (length (positions st')) = length (positions st)
                   /\ trade_history st' = trade_history st ++ [record]
                   /\ TradeRecord.action record = "CLOSE"%string)).
  { intros label Ht. unfold trigger in Ht.
    destruct (close_position env mint label st1) as [st2 res] eqn:Hclose.
    destruct res as [[u |] | e].
    - right. inversion Ht; subst.
      destruct (close_position_filled_state _ _ _ _ _ _ Hclose)
        as (r' & record & Hget & _ & Hpos & Hh & _ & _ & Ha & _).
      eexists _, record. split; [ reflexivity |].
      split; [ exact Hpos |].
      split; [ rewrite Hpos; exact (dict_del_length _ _ _ Hget) |].
      split; [ exact Hh | exact Ha ].
    - left. inversion Ht; subst.
      apply close_position_not_filled in Hclose; [| discriminate ].
      destruct Hclose as [-> _]. auto.
    - left. inversion Ht; subst.
      apply close_position_not_filled in Hclose; [| discriminate ].
      destruct Hclose as [-> [[_ Hout] | (r' & _ & [[_ Hout] | (_ & _ & Hout)])]];
        try discriminate.
      inversion Hout; subst. auto. }
  destruct (should_stop_loss (deref st1 r)); [ eapply Htrig; eauto |].
  destruct (should_take_profit (deref st1 r)); [ eapply Htrig; eauto |].
  inversion H; subst. left. auto.
Qed.

Lemma check_loop_full (prices : Py.dict float) (used : nat)
    (items : Py.dict ref) :
  forall (st st' : State) (actions : list Action.t)
         (out : result (list Action.t)),
    length (positions st) = used ->
    check_loop env prices used items st actions = (st', out) ->
    (positions st' = positions st
     /\ trade_history st' = trade_history st
     /\ STATE_FILE st' = STATE_FILE st
     /\ (out = Ok actions \/ out = Raise ZeroDivisionError))
    \/ (exists mint record,
          out = Raise RuntimeError
          /\ positions st' = Py.dict_del mint (positions st)
          /\ S (length (positions st')) = length (positions st)
          /\ trade_history st' = trade_history st ++ [record]
          /\ TradeRecord.action record = "CLOSE"%string).
Proof.
  induction items as [| [mint r] items IH]; intros st st' actions out Hused H;
    simpl in H; rewrite Hused, Nat.eqb_refl in H; simpl in H.
  - inversion H; subst. left. auto.
  - destruct (check_one env prices mint r st actions) as [st1 res] eqn:Hone.
    destruct (check_one_full _ _ _ _ _ _ _ Hone)
      as [(Hp & Hh & Hf & [-> | ->]) | (a & record & -> & Hp & Hlen & Hh & Ha)].
    + apply IH in H; [| congruence ].
      destruct H as [(Hp' & Hh' & Hf' & Hout) | (m & rc & Hout & Hp' & Hl' & Hh' & Ha')].
      * left. repeat split; congruence.
      * right. exists m, rc. rewrite <- Hp, <- Hh. auto.
    + inversion H; subst. left. auto.
    + right. exists mint, record.
      assert (Hneq : (length (positions st1) =? used)%nat = false)
        by (apply Nat.eqb_neq; lia).
      destruct items as [| [mint' r'] items']; simpl in H;
        rewrite Hneq in H; simpl in H; inversion H; subst; auto.
Qed.

End Check_outcome_facts.

(** X7.  A call of [check_positions] closes at most one position, and it
    has closed one exactly when it raises [RuntimeError]: then one key is
    gone from the position set and one CLOSE record was appended.  In every
    other outcome (the empty list, or [ZeroDivisionError] from a position of
    size zero) the position set, the history and the state file are as they
    were. *)
Theorem check_positions_closes_at_most_one :
  forall (env : Trade_manager.Env) (st st' : Trade_manager.State)
         (out : result (list Trade_manager.Action.t)),
    Trade_manager.check_positions env st = (st', out) ->
    (Trade_manager.positions st' = Trade_manager.positions st
     /\ Trade_manager.trade_history st' = Trade_manager.trade_history st
     /\ Trade_manager.STATE_FILE st' = Trade_manager.STATE_FILE st
     /\ (out = Ok [] \/ out = Raise ZeroDivisionError))
    \/ (exists mint record,
          out = Raise RuntimeError
          /\ Trade_manager.positions st'
             = Py.dict_del mint (Trade_manager.positions st)
          /\ S (length (Trade_manager.positions st'))
             = length (Trade_manager.positions st)
          /\ Trade_manager.trade_history st'
             = Trade_manager.trade_history st ++ [record]
          /\ Trade_manager.TradeRecord.action record = "CLOSE"%string).
Proof.
  intros env st st' out H. unfold Trade_manager.check_positions in H.
  destruct (Trade_manager.positions st) as [| kv d] eqn:Hpos.
  - inversion H; subst. left. auto.
  - rewrite <- Hpos in *.
    now apply (check_loop_full env _ _ _ _ _ _ _ eq_refl) in H.
Qed.

Lemma check_positions_closes_at_most_one_witness :
  let st' := fst (Trade_manager.check_positions Manager_samples.falling
                    Manager_samples.two_open) in
  Trade_manager.check_positions Manager_samples.falling Manager_samples.two_open
  = (st', Raise RuntimeError)
  /\ ((Trade_manager.positions st'
       = Trade_manager.positions Manager_samples.two_open
       /\ Trade_manager.trade_history st'
          = Trade_manager.trade_history Manager_samples.two_open
       /\ Trade_manager.STATE_FILE st'
          = Trade_manager.STATE_FILE Manager_samples.two_open
       /\ (@Raise (list Trade_manager.Action.t) RuntimeError = Ok []
           \/ @Raise (list Trade_manager.Action.t) RuntimeError
              = Raise ZeroDivisionError))
      \/ (exists mint record,
            @Raise (list Trade_manager.Action.t) RuntimeError
            = Raise RuntimeError
            /\ Trade_manager.positions st'
               = Py.dict_del mint
                   (Trade_manager.positions Manager_samples.two_open)
            /\ S (length (Trade_manager.positions st'))
               = length (Trade_manager.positions Manager_samples.two_open)
            /\ Trade_manager.trade_history st'
               = Trade_manager.trade_history Manager_samples.two_open
                   ++ [record]
            /\ Trade_manager.TradeRecord.action record = "CLOSE"%string)).
Proof.
  intros st'.
  assert (H : Trade_manager.check_positions Manager_samples.falling
                Manager_samples.two_open = (st', Raise RuntimeError))
    by (vm_compute; reflexivity).
  split; [ exact H |].
  exact (check_positions_closes_at_most_one _ _ _ _ H).
Defined.

Section Quiet_check_facts.

Import Trade_manager.

Variable env : Env.

Lemma refresh_fst (prices : Py.dict float) (k : string) (p : Position) :
  refresh prices (k, p) = (k, snd (refresh prices (k, p))).
Proof.
  unfold refresh. simpl. now destruct (Py.dict_get k prices).
Qed.

Lemma check_loop_quiet (prices : Py.dict float) (used : nat)
    (items : Py.dict ref) :
  forall (st : State) (actions : list Action.t),
    NoDup (map snd items) ->
    Forall (fun kv => (snd kv < length (heap st))%nat) items ->
    (forall mint r price,
        In (mint, r) items -> Py.dict_get mint prices = Some price ->
        quiet_at (deref st r) price = true) ->
    length (positions st) = used ->
    exists st',
      check_loop env prices used items st actions = (st', Ok actions)
      /\ positions st' = positions st
      /\ length (heap st') = length (heap st)
      /\ trade_history st' = trade_history st
      /\ STATE_FILE st' = STATE_FILE st
      /\ TRADES_LOG_FILE st' = TRADES_LOG_FILE st
      /\ ticks st' = ticks st
      /\ (forall mint r,
            In (mint, r) items ->
            deref st' r = snd (refresh prices (mint, deref st r)))
      /\ (forall r, ~ In r (map snd items) -> deref st' r = deref st r).
Proof.
  induction items as [| [mint r] items IH];
    intros st actions Hnd Halloc Hquiet Hused;
    simpl; rewrite Hused, Nat.eqb_refl; simpl.
  - exists st. repeat split; auto. intros m r0 [].
  - inversion Hnd as [| ? ? Hnotin Hnd' ]; subst.
    inversion Halloc as [| ? ? Hr Halloc' ]; subst. simpl in Hr.
    unfold check_one.
    destruct (Py.dict_get mint prices) as [price |] eqn:Hprice.
    + set (st1 := store r (set_current_price_usd (deref st r) price) st).
      assert (Hd1 : deref st1 r = set_current_price_usd (deref st r) price)
        by (apply deref_store_same; exact Hr).
      pose proof (Hquiet mint r price (or_introl eq_refl) Hprice) as Hq.
      unfold quiet_at in Hq. apply andb_true_iff in Hq.
      destruct Hq as [Hsl Htp].
      rewrite Hd1.
      apply negb_true_iff in Hsl. apply negb_true_iff in Htp.
      rewrite Hsl, Htp.
      destruct (IH st1 actions Hnd') as (st' & Hloop & Hp & Hl & Hh & Hf & Ht
                                         & Hk & Hin & Hout).
      * unfold st1, store. simpl. now rewrite replace_nth_length.
      * intros m r0 p0 Hitem Hp0.
        assert (Hne : r <> r0).
        { intros ->. apply Hnotin. apply in_map_iff.
          exists (m, r0). split; [ reflexivity | exact Hitem ]. }
        unfold st1. rewrite (deref_store_other _ _ _ _ Hne).
        apply (Hquiet m r0 p0); [ now right | exact Hp0 ].
      * reflexivity.
      * exists st'. rewrite Hloop.
        unfold st1, store in Hl; simpl in Hl; rewrite replace_nth_length in Hl.
        repeat (split; [ assumption || reflexivity |]).
        split.
        -- intros m r0 [Heq | Hitem].
           ++ inversion Heq; subst m r0.
              rewrite (Hout r Hnotin), Hd1. unfold refresh. simpl.
              now rewrite Hprice.
           ++ rewrite (Hin _ _ Hitem).
              assert (Hne : r <> r0).
              { intros ->. apply Hnotin. apply in_map_iff.
                exists (m, r0). split; [ reflexivity | exact Hitem ]. }
              unfold st1. now rewrite (deref_store_other _ _ _ _ Hne).
        -- intros r0 Hr0. simpl in Hr0.
           rewrite Hout by tauto.
           unfold st1. apply deref_store_other. tauto.
    + destruct (IH st actions Hnd' Halloc') as (st' & Hloop & Hp & Hl & Hh & Hf
                                                & Ht & Hk & Hin & Hout).
      * intros m r0 p0 Hitem Hp0. apply (Hquiet m r0 p0); [ now right | exact Hp0 ].
      * reflexivity.
      * exists st'. rewrite Hloop.
        repeat (split; [ assumption || reflexivity |]).
        split.
        -- intros m r0 [Heq | Hitem].
           ++ inversion Heq; subst m r0.
              rewrite (Hout r Hnotin). unfold refresh. simpl.
              now rewrite Hprice.
           ++ exact (Hin _ _ Hitem).
        -- intros r0 Hr0. simpl in Hr0. apply Hout. tauto.
Qed.

End Quiet_check_facts.

(** X8.  When no position triggers at the prices of the feed,
    [check_positions] on a consistent state returns the empty list, gives
    every position that has a price that price as its current price,
    leaves the positions that have none as they were, and writes nothing:
    the history, both files and the clock are untouched, so the refreshed
    prices are not in the state file. *)
Theorem quiet_check_only_refreshes_prices :
  forall (env : Trade_manager.Env) (st : Trade_manager.State),
    Trade_manager.consistent st ->
    Trade_manager.nothing_triggers
      (Trade_manager.get_token_prices env
         (Py.keys (Trade_manager.positions st))) st ->
    exists st',
      Trade_manager.check_positions env st = (st', Ok [])
      /\ Trade_manager.snapshot st'
         = map (Trade_manager.refresh
                  (Trade_manager.get_token_prices env
                     (Py.keys (Trade_manager.positions st))))
             (Trade_manager.snapshot st)
      /\ Trade_manager.trade_history st' = Trade_manager.trade_history st
      /\ Trade_manager.STATE_FILE st' = Trade_manager.STATE_FILE st
      /\ Trade_manager.TRADES_LOG_FILE st' = Trade_manager.TRADES_LOG_FILE st
      /\ Trade_manager.ticks st' = Trade_manager.ticks st.
Proof.
  intros env st (Hkeys & Hrefs & Halloc) Hquiet.
  unfold Trade_manager.check_positions.
  destruct (Trade_manager.positions st) as [| kv d] eqn:Hpos.
  - exists st. unfold Trade_manager.snapshot. rewrite Hpos. simpl.
    repeat split.
  - rewrite <- Hpos in *.
    destruct (check_loop_quiet env
                (Trade_manager.get_token_prices env
                   (Py.keys (Trade_manager.positions st)))
                (length (Trade_manager.positions st))
                (Trade_manager.positions st) st [] Hrefs Halloc Hquiet eq_refl)
      as (st' & Hloop & Hp & _ & Hh & Hf & Ht & Hk & Hin & _).
    exists st'. split; [ exact Hloop |].
    split; [| repeat split; assumption ].
    unfold Trade_manager.snapshot. rewrite Hp, map_map.
    apply map_ext_in. intros [k r] Hitem. simpl.
    rewrite refresh_fst. f_equal. exact (Hin _ _ Hitem).
Qed.

Lemma quiet_check_only_refreshes_prices_witness :
  Trade_manager.consistent Manager_samples.two_open
  /\ Trade_manager.nothing_triggers [("MintB"%string, 2.1)]
       Manager_samples.two_open
  /\ exists st',
       Trade_manager.check_positions
         (Manager_samples.world [("MintB"%string, 2.1)] [] [])
         Manager_samples.two_open = (st', Ok [])
       /\ Trade_manager.snapshot st'
          = [("MintA"%string, Manager_samples.alpha);
             ("MintB"%string,
              Trade_manager.set_current_price_usd Manager_samples.beta 2.1)].
Proof.
  assert (H : Trade_manager.nothing_triggers [("MintB"%string, 2.1)]
                Manager_samples.two_open).
  { intros mint r price Hin Hprice. simpl in Hin.
    destruct Hin as [Heq | [Heq | []]]; inversion Heq; subst;
      simpl in Hprice; inversion Hprice; subst; vm_compute; reflexivity. }
  split; [ exact two_open_consistent | split; [ exact H |] ].
  destruct (quiet_check_only_refreshes_prices
              (Manager_samples.world [("MintB"%string, 2.1)] [] [])
              Manager_samples.two_open two_open_consistent H)
    as (st' & Hrun & Hsnap & _).
  exists st'. split; [ exact Hrun | exact Hsnap ].
Defined.

Section Summary_facts.

Import Trade_manager.

Lemma gt_zero_nonzero (x : float) : (0 <? x) = true -> (x =? 0) = false.
Proof.
  rewrite ltb_spec, eqb_spec. unfold SFltb, SFeqb.
  change (Prim2SF 0) with (S754_zero false).
  destruct (Prim2SF x) as [s | s | | s m e]; simpl; try discriminate;
    destruct s; (discriminate || reflexivity).
Qed.

(** The guarded division of the totals never raises. *)
Lemma total_percent_defined (total_pnl total_invested : float) :
  exists pct,
    (if Py.gt total_invested 0
     then q <- Py.truediv total_pnl total_invested ;; Ok (q * 100)
     else Ok 0) = Ok pct
    /\ pct = (if Py.gt total_invested 0
              then total_pnl / total_invested * 100 else 0)%float.
Proof.
  destruct (Py.gt total_invested 0) eqn:Hgt.
  - unfold Py.truediv. rewrite (gt_zero_nonzero _ Hgt).
    eexists. split; reflexivity.
  - exists 0%float. split; reflexivity.
Qed.

Lemma existsb_over_map {A B : Type} (f : A -> B) (p : B -> bool)
    (l : list A) :
  existsb p (map f l) = existsb (fun a => p (f a)) l.
Proof.
  induction l as [| a l IH]; simpl; [ reflexivity | now rewrite IH ].
Qed.

Lemma render_outcome (env : Env) (refs : list ref) :
  forall (st : State) (lines : list (Position * float)),
    if existsb (fun r => position_size_usdc (deref st r) =? 0) refs
    then snd (render env refs st lines) = Raise ZeroDivisionError
    else exists more,
        snd (render env refs st lines) = Ok (lines ++ more)
        /\ map fst more = map (deref st) refs
        /\ ticks (fst (render env refs st lines))
           = (length refs + ticks st)%nat.
Proof.
  induction refs as [| r refs IH]; intros st lines; simpl.
  - exists []. now rewrite app_nil_r.
  - unfold __str__, unrealized_pnl_percent, Py.truediv.
    destruct (position_size_usdc (deref st r) =? 0) eqn:Hz; simpl.
    + reflexivity.
    + specialize (IH (tick st)
                     (lines ++ [(deref st r, time_time env (ticks st))])).
      change (fun r0 => position_size_usdc (deref (tick st) r0) =? 0)
        with (fun r0 => position_size_usdc (deref st r0) =? 0) in IH.
      destruct (existsb _ refs); [ exact IH |].
      destruct IH as (more & Hout & Hfst & Hticks).
      exists ((deref st r, time_time env (ticks st)) :: more).
      rewrite Hout, Hticks, <- app_assoc. simpl.
      split; [ reflexivity | split; [ now rewrite Hfst | lia ] ].
Qed.

(** The two ways [get_portfolio_summary] ends. *)
Lemma summary_cases :
forall (env : Trade_manager.Env) (st : Trade_manager.State),
  if existsb
       (fun kv =>
          Trade_manager.position_size_usdc
            (Trade_manager.deref st (snd kv)) =? 0)
       (Trade_manager.positions st)
  then snd (Trade_manager.get_portfolio_summary env st)
       = Raise ZeroDivisionError
  else exists summary,
      snd (Trade_manager.get_portfolio_summary env st) = Ok summary
      /\ Trade_manager.Summary.num_positions summary
         = Z.of_nat (length (Trade_manager.positions st))
      /\ map fst (Trade_manager.Summary.positions summary)
         = map snd (Trade_manager.snapshot st)
      /\ Trade_manager.ticks
           (fst (Trade_manager.get_portfolio_summary env st))
         = (length (Trade_manager.positions st) + Trade_manager.ticks st)%nat
      /\ Trade_manager.Summary.total_pnl_percent summary
         = (if Py.gt (Trade_manager.Summary.total_invested_usdc summary) 0
            then Trade_manager.Summary.total_pnl_usdc summary
                 / Trade_manager.Summary.total_invested_usdc summary * 100
            else 0)%float.
Proof.
intros env st.
pose proof (render_outcome env (map snd (Trade_manager.positions st)) st [])
  as Hrender.
rewrite existsb_over_map in Hrender.
unfold Trade_manager.get_portfolio_summary.
match goal with
| |- context [ if Py.gt ?ti 0 then (q <- Py.truediv ?tp ?ti ;; _) else _ ] =>
    destruct (total_percent_defined tp ti) as (pct & Hpct & Hzero);
    rewrite Hpct
end.
destruct (existsb _ (Trade_manager.positions st)).
- destruct (Trade_manager.render env _ st []) as [st1 [lines | e]];
    simpl in Hrender |- *; [ discriminate | now inversion Hrender ].
- destruct Hrender as (more & Hout & Hfst & Hticks).
  destruct (Trade_manager.render env _ st []) as [st1 [lines | e]];
    simpl in Hout, Hticks |- *; [| discriminate ].
  inversion Hout; subst lines.
  eexists. split; [ reflexivity |]. simpl.
  split; [ reflexivity |].
  split; [| split; [ now rewrite Hticks, length_map | exact Hzero ] ].
  rewrite Hfst. unfold Trade_manager.snapshot. now rewrite !map_map.
Qed.

End Summary_facts.

(** X9.  [get_portfolio_summary] divides the totals only under its guard, so
    that division never raises; the call raises exactly when a held position
    has size zero, and then it is the [ZeroDivisionError] of [str(p)].
    Otherwise it returns a summary that counts the positions, lists them in
    the order of the dict, reads the clock once for each, and reports as
    percentage the quotient of its two totals times 100, or 0 when the
    invested total is not above zero. *)
Theorem portfolio_summary_raises_only_on_a_zero_size :
  forall (env : Trade_manager.Env) (st : Trade_manager.State),
    if existsb
         (fun kv =>
            Trade_manager.position_size_usdc
              (Trade_manager.deref st (snd kv)) =? 0)
         (Trade_manager.positions st)
    then snd (Trade_manager.get_portfolio_summary env st)
         = Raise ZeroDivisionError
    else exists summary,
        snd (Trade_manager.get_portfolio_summary env st) = Ok summary
        /\ Trade_manager.Summary.num_positions summary
           = Z.of_nat (length (Trade_manager.positions st))
        /\ map fst (Trade_manager.Summary.positions summary)
           = map snd (Trade_manager.snapshot st)
        /\ Trade_manager.ticks
             (fst (Trade_manager.get_portfolio_summary env st))
           = (length (Trade_manager.positions st) + Trade_manager.ticks st)%nat
        /\ Trade_manager.Summary.total_pnl_percent summary
           = (if Py.gt (Trade_manager.Summary.total_invested_usdc summary) 0
              then Trade_manager.Summary.total_pnl_usdc summary
                   / Trade_manager.Summary.total_invested_usdc summary * 100
              else 0)%float.
Proof.
  exact summary_cases.
Qed.

Section Damaged_file_facts.

Import Trade_manager.

Lemma load_items_encoded_first (d : Py.dict Position) (items : Py.dict json) :
  forall st : State,
    load_items (map encode d ++ items) st
    = load_items items (load_items (map encode d) st).
Proof.
  induction d as [| [k p] d IH]; intros st; [ reflexivity |].
  cbn [map app]. unfold encode at 1 3. cbn [fst snd load_items].
  rewrite from_dict_to_dict. simpl. apply IH.
Qed.

Lemma load_items_damaged (mint : string) (entry : json)
    (rest : Py.dict json) (st : State) :
  damaged entry = true -> load_items ((mint, entry) :: rest) st = st.
Proof.
  intros H. destruct entry as [x | s | fields]; try reflexivity.
  simpl in H |- *. unfold from_dict. now rewrite H.
Qed.

Lemma load_items_file_clock (items : Py.dict json) :
  forall st : State,
    STATE_FILE (load_items items st) = STATE_FILE st
    /\ ticks (load_items items st) = ticks st.
Proof.
  induction items as [| [k [x | s0 | fields]] items IH]; intros st;
    try (split; reflexivity).
  cbn [load_items]. destruct (from_dict fields) as [p | e];
    [| split; reflexivity ].
  unfold alloc.
  match goal with
  | |- context [ load_items items ?s ] => destruct (IH s) as [A B]
  end.
  split; [ exact A | exact B ].
Qed.

End Damaged_file_facts.

(** X10.  [_load_state] stops at the first entry of the state file that
    [Position.from_dict] cannot take and says nothing to its caller: the
    manager starts with exactly the positions written before that entry,
    the file is left as it was, and the entries after it are gone from the
    file with the next [_save_state]. *)
Theorem load_state_stops_at_a_damaged_entry :
  forall (env : Trade_manager.Env) (disk : Trade_manager.State)
         (d : Py.dict Trade_manager.Position) (mint : string)
         (entry : Trade_manager.json) (rest : Py.dict Trade_manager.json)
         (last_updated : float),
    NoDup (Py.keys d) ->
    Trade_manager.damaged entry = true ->
    Trade_manager.STATE_FILE disk
    = Trade_manager.Content
        (Trade_manager.JObject
           [ ("positions"%string,
              Trade_manager.JObject
                (map Trade_manager.encode d ++ (mint, entry) :: rest));
             ("last_updated"%string, Trade_manager.JNumber last_updated) ]) ->
    let st := Trade_manager.__init__ disk in
    Trade_manager.snapshot st = d
    /\ Trade_manager.STATE_FILE st = Trade_manager.STATE_FILE disk
    /\ Trade_manager.STATE_FILE (Trade_manager._save_state env st)
       = Trade_manager.Content
           (Trade_manager.state_json d
              (Trade_manager.time_time env (Trade_manager.ticks disk))).
Proof.
  intros env disk d mint entry rest t Hnd Hbad Hfile st.
  set (empty := Trade_manager.mkState [] [] [] (Trade_manager.STATE_FILE disk)
                  (Trade_manager.TRADES_LOG_FILE disk)
                  (Trade_manager.ticks disk)).
  assert (Hst : st = Trade_manager.load_items (map Trade_manager.encode d) empty).
  { unfold st, Trade_manager.__init__, Trade_manager._load_state.
    cbn [Trade_manager.STATE_FILE]. rewrite Hfile. simpl.
    rewrite load_items_encoded_first.
    rewrite (load_items_damaged _ _ _ _ Hbad).
    unfold empty. rewrite Hfile. reflexivity. }
  assert (Hsnap : Trade_manager.snapshot st = d).
  { rewrite Hst, load_items_snapshot.
    - reflexivity.
    - exact Hnd.
    - intros k _. reflexivity.
    - constructor. }
  destruct (load_items_file_clock (map Trade_manager.encode d) empty)
    as [Hf Ht].
  split; [ exact Hsnap |].
  split; [ rewrite Hst; exact Hf |].
  unfold Trade_manager._save_state. cbn [Trade_manager.STATE_FILE].
  rewrite Hsnap, Hst, Ht. reflexivity.
Qed.

Lemma load_state_stops_at_a_damaged_entry_witness :
  Trade_manager.snapshot (Trade_manager.__init__ Manager_samples.torn)
  = [("MintA"%string, Manager_samples.alpha)]
  /\ Trade_manager.STATE_FILE
       (Trade_manager._save_state Manager_samples.buying
          (Trade_manager.__init__ Manager_samples.torn))
     = Trade_manager.Content
         (Trade_manager.state_json [("MintA"%string, Manager_samples.alpha)]
            (Trade_manager.time_time Manager_samples.buying 0)).
Proof.
  assert (Hnd : NoDup (Py.keys [("MintA"%string, Manager_samples.alpha)])).
  { simpl. constructor; [ intros [] | constructor ]. }
  destruct (load_state_stops_at_a_damaged_entry Manager_samples.buying
              Manager_samples.torn [("MintA"%string, Manager_samples.alpha)]
              "MintB" (Trade_manager.JObject [])
              (map Trade_manager.encode [("MintC"%string, Manager_samples.gamma)])
              1700000250 Hnd eq_refl eq_refl) as (H1 & _ & H3).
  split; [ exact H1 | exact H3 ].
Defined.

Section Zero_size_facts.

Import Trade_manager.

Lemma close_position_zero_size (env : Env) (mint reason : string)
    (st : State) :
  zero_size_at mint st = true ->
  close_position env mint reason st = (st, Raise ZeroDivisionError).
Proof.
  unfold zero_size_at, close_position. intros Hz.
  destruct (Py.dict_get mint (positions st)) as [r |]; [| discriminate ].
  unfold unrealized_pnl_percent, Py.truediv. now rewrite Hz.
Qed.

Lemma summary_zero_size (env : Env) (mint : string) (st : State) :
  zero_size_at mint st = true ->
  snd (get_portfolio_summary env st) = Raise ZeroDivisionError.
Proof.
  unfold zero_size_at. intros Hz.
  destruct (Py.dict_get mint (positions st)) as [r |] eqn:Hget;
    [| discriminate ].
  pose proof (summary_cases env st) as Hsum.
  replace (existsb _ (positions st)) with true in Hsum; [ exact Hsum |].
  symmetry. apply existsb_exists. exists (mint, r).
  split; [ now apply dict_get_In | exact Hz ].
Qed.

Lemma dict_get_app_present {V : Type} (k : string) (v : V)
    (d d' : Py.dict V) :
  Py.dict_get k d = Some v -> Py.dict_get k (d ++ d') = Some v.
Proof.
  induction d as [| [k' v'] d IH]; simpl; intros H; [ discriminate |].
  destruct (String.eqb k k'); [ exact H | now apply IH ].
Qed.

Lemma dict_get_del_other {V : Type} (k k' : string) (d : Py.dict V) :
  k <> k' -> Py.dict_get k (Py.dict_del k' d) = Py.dict_get k d.
Proof.
  intros Hne. induction d as [| [k0 v0] d IH]; simpl; [ reflexivity |].
  destruct (String.eqb_spec k' k0) as [-> |].
  - destruct (String.eqb_spec k k0); [ contradiction | reflexivity ].
  - simpl. now rewrite IH.
Qed.

(** Writing to an object a value of the same size changes no size. *)
Lemma size_kept (l : list Position) (r' : ref) (p : Position) :
  position_size_usdc p = position_size_usdc (nth r' l null) ->
  forall r,
    position_size_usdc (nth r (replace_nth r' p l) null)
    = position_size_usdc (nth r l null).
Proof.
  intros Hp r. destruct (Nat.eq_dec r' r) as [<- | Hne].
  - destruct (Nat.lt_ge_cases r' (length l)) as [Hlt | Hge].
    + now rewrite nth_replace_nth_same.
    + rewrite !nth_overflow; [ reflexivity | exact Hge |].
      now rewrite replace_nth_length.
  - now rewrite nth_replace_nth_other.
Qed.

Section Held.

Variable mint : string.

Lemma store_keeps_zero (r' : ref) (p : Position) (st : State) :
  position_size_usdc p = position_size_usdc (deref st r') ->
  zero_size_at mint st = true -> zero_size_at mint (store r' p st) = true.
Proof.
  unfold zero_size_at, store, deref. cbn [heap positions]. intros Hp Hz.
  destruct (Py.dict_get mint (positions st)) as [r |]; [| discriminate ].
  now rewrite size_kept.
Qed.

Lemma close_position_keeps_zero (env : Env) (mint' reason : string)
    (st st' : State) (out : result (option float)) :
  close_position env mint' reason st = (st', out) ->
  zero_size_at mint st = true -> zero_size_at mint st' = true.
Proof.
  intros H Hz.
  assert (Hstay : (forall u, out <> Ok (Some u)) ->
                  zero_size_at mint st' = true).
  { intros Hout. apply close_position_not_filled in H; [| exact Hout ].
    destruct H as [-> _]. exact Hz. }
  destruct out as [[u |] | e]; try (apply Hstay; discriminate).
  destruct (String.eqb_spec mint' mint) as [-> | Hne].
  { rewrite (close_position_zero_size env mint reason st Hz) in H.
    discriminate. }
  destruct (close_position_filled_state _ _ _ _ _ _ H)
    as (r' & record & Hget' & Hheap & Hpos & _).
  unfold zero_size_at, deref in Hz |- *.
  rewrite Hpos, Hheap, dict_get_del_other by congruence.
  destruct (Py.dict_get mint (positions st)) as [r |]; [| discriminate ].
  now rewrite size_kept.
Qed.

Lemma check_one_keeps_zero (env : Env) (prices : Py.dict float)
    (mint' : string) (r' : ref) (st st' : State)
    (actions : list Action.t) (out : result (list Action.t)) :
  check_one env prices mint' r' st actions = (st', out) ->
  zero_size_at mint st = true -> zero_size_at mint st' = true.
Proof.
  unfold check_one. intros H Hz.
  destruct (Py.dict_get mint' prices) as [price |];
    [| now inversion H; subst ].
  set (st1 := store r' (set_current_price_usd (deref st r') price) st) in *.
  assert (H1 : zero_size_at mint st1 = true)
    by (apply store_keeps_zero; [ reflexivity | exact Hz ]).
  assert (Htrig : forall label,
             trigger env label mint' r' st1 actions = (st', out) ->
             zero_size_at mint st' = true).
  { intros label Ht. unfold trigger in Ht.
    destruct (close_position env mint' label st1) as [st2 res] eqn:Hclose.
    apply close_position_keeps_zero in Hclose; [| exact H1 ].
    destruct res as [[u |] | e]; inversion Ht; subst; exact Hclose. }
  destruct (should_stop_loss (deref st1 r')); [ eapply Htrig; eauto |].
  destruct (should_take_profit (deref st1 r')); [ eapply Htrig; eauto |].
  inversion H; subst. exact H1.
Qed.

Lemma check_loop_keeps_zero (env : Env) (prices : Py.dict float)
    (used : nat) (items : Py.dict ref) :
  forall (st st' : State) (actions : list Action.t)
         (out : result (list Action.t)),
    check_loop env prices used items st actions = (st', out) ->
    zero_size_at mint st = true -> zero_size_at mint st' = true.
Proof.
  induction items as [| [mint' r'] items IH];
    intros st st' actions out H Hz; simpl in H;
    destruct (negb (length (positions st) =? used)%nat);
    try (inversion H; subst; exact Hz).
  destruct (check_one env prices mint' r' st actions) as [st1 [acts1 | e]]
    eqn:Hone; apply check_one_keeps_zero in Hone; try exact Hz.
  - exact (IH _ _ _ _ H Hone).
  - inversion H; subst. exact Hone.
Qed.

Lemma open_position_keeps_zero (cfg : config.t) (env : Env)
    (mint' symbol : string) (price_usd amount_usdc : float)
    (st st' : State) (out : result (option ref)) :
  open_position cfg env mint' symbol price_usd amount_usdc st = (st', out) ->
  allocated st ->
  zero_size_at mint st = true -> zero_size_at mint st' = true.
Proof.
  intros H Halloc Hz.
  destruct (refused cfg env mint' amount_usdc st) eqn:Href.
  - rewrite (open_position_refused _ _ _ symbol price_usd _ _ Href) in H.
    now inversion H; subst.
  - destruct (open_position_accepted _ _ _ symbol price_usd _ _ Href)
      as (t & record & st1 & out1 & Hopen & _ & _ & _ & Hheap & Hpos & _).
    rewrite Hopen in H. inversion H; subst st1 out1.
    unfold zero_size_at, deref in Hz |- *. rewrite Hpos, Hheap.
    destruct (Py.dict_get mint (positions st)) as [r |] eqn:Hget;
      [| discriminate ].
    rewrite (dict_get_app_present _ _ _ _ Hget).
    apply dict_get_In in Hget.
    unfold allocated in Halloc. rewrite Forall_forall in Halloc.
    specialize (Halloc _ Hget). simpl in Halloc.
    now rewrite app_nth1.
Qed.

Lemma perform_keeps_zero (cfg : config.t) (st : State) (ec : Env * call) :
  consistent st ->
  zero_size_at mint st = true ->
  zero_size_at mint (perform cfg st ec) = true.
Proof.
  intros (_ & _ & Halloc) Hz. unfold perform. destruct ec as [env c]. simpl.
  destruct c as [mint' symbol price_usd amount_usdc | mint' reason | |].
  - destruct (open_position cfg env mint' symbol price_usd amount_usdc st)
      as [st' out] eqn:H.
    exact (open_position_keeps_zero _ _ _ _ _ _ _ _ _ H Halloc Hz).
  - destruct (close_position env mint' reason st) as [st' out] eqn:H.
    exact (close_position_keeps_zero _ _ _ _ _ _ H Hz).
  - destruct (check_positions env st) as [st' out] eqn:H.
    unfold check_positions in H.
    destruct (positions st) as [| kv d] eqn:Hpos.
    + now inversion H; subst.
    + rewrite <- Hpos in H.
      exact (check_loop_keeps_zero _ _ _ _ _ _ _ _ H Hz).
  - destruct (get_portfolio_summary env st) as [st' out] eqn:H.
    apply summary_only_ticks in H. destruct H as (Hh & Hp & _).
    unfold zero_size_at, deref in Hz |- *. simpl.
    now rewrite Hp, Hh.
Qed.

Lemma perform_all_keeps_zero (cfg : config.t)
    (calls : list (Env * call)) :
  forall st : State,
    consistent st ->
    zero_size_at mint st = true ->
    zero_size_at mint (perform_all cfg calls st) = true.
Proof.
  unfold perform_all.
  induction calls as [| ec calls IH]; intros st Hc Hz; simpl.
  - exact Hz.
  - apply IH.
    + now apply perform_keeps.
    + now apply perform_keeps_zero.
Qed.

End Held.

End Zero_size_facts.

(** X20.  A position of size zero is stuck.  When [open_position] accepts
    an order whose size [min(amount_usdc, MAX_POSITION_SIZE_USDC)] is zero,
    the call raises [ZeroDivisionError] from its last log line, after the
    position was added and saved: the manager holds it, the state file
    holds the position set with it, and a manager restarted on that file
    holds the same set.  From then on, whatever calls are made with whatever
    answers of the swap executor and the price feed, the manager still
    holds that position with size zero, every [close_position] for its
    mint raises [ZeroDivisionError] before it sells and leaves the state as
    it is, and every [get_portfolio_summary] raises it too. *)
Theorem zero_size_position_is_stuck :
  forall (cfg : Trade_manager.config.t) (env : Trade_manager.Env)
         (mint symbol : string) (price_usd amount_usdc : float)
         (st : Trade_manager.State),
    Trade_manager.consistent st ->
    Trade_manager.refused cfg env mint amount_usdc st = false ->
    (Py.min amount_usdc (Trade_manager.config.MAX_POSITION_SIZE_USDC cfg) =? 0)
    = true ->
    let opened :=
      Trade_manager.open_position cfg env mint symbol price_usd amount_usdc st in
    snd opened = Raise ZeroDivisionError
    /\ Trade_manager.zero_size_at mint (fst opened) = true
    /\ Trade_manager.STATE_FILE (fst opened)
       = Trade_manager.Content
           (Trade_manager.state_json (Trade_manager.snapshot (fst opened))
              (Trade_manager.time_time env (S (S (Trade_manager.ticks st)))))
    /\ Trade_manager.snapshot (Trade_manager.__init__ (fst opened))
       = Trade_manager.snapshot (fst opened)
    /\ forall calls : list (Trade_manager.Env * Trade_manager.call),
         let later := Trade_manager.perform_all cfg calls (fst opened) in
         Trade_manager.zero_size_at mint later = true
         /\ (forall env' reason,
                Trade_manager.close_position env' mint reason later
                = (later, Raise ZeroDivisionError))
         /\ (forall env',
                snd (Trade_manager.get_portfolio_summary env' later)
                = Raise ZeroDivisionError).
Proof.
  intros cfg env mint symbol price_usd amount_usdc st Hc Href Hz opened.
  destruct (open_position_accepted cfg env mint symbol price_usd _ _ Href)
    as (t & record & st' & out & Hopen & _ & _ & Hfresh & Hheap & Hpos
        & _ & _ & Hfile & _ & _ & Hout).
  assert (Hc' : Trade_manager.consistent st')
    by exact (proj1 (open_position_keeps _ _ _ _ _ _ _ _ _ Hopen) Hc).
  unfold opened. rewrite Hopen. cbn [fst snd].
  assert (Hheld : Trade_manager.zero_size_at mint st' = true).
  { unfold Trade_manager.zero_size_at, Trade_manager.deref.
    rewrite Hpos, (dict_get_app_last _ _ _ Hfresh), Hheap, nth_middle.
    exact Hz. }
  split; [ destruct Hout as [[Hnz _] | [_ ->]]; [ congruence | reflexivity ] |].
  split; [ exact Hheld |].
  split; [ exact Hfile |].
  split.
  { apply (restart_from_snapshot _ _ _ Hfile).
    unfold Trade_manager.snapshot, Py.keys. rewrite map_map. simpl.
    exact (proj1 Hc'). }
  intros calls.
  set (later := Trade_manager.perform_all cfg calls st').
  assert (Hlater : Trade_manager.zero_size_at mint later = true)
    by exact (perform_all_keeps_zero mint cfg calls st' Hc' Hheld).
  split; [ exact Hlater |].
  split.
  - intros env' reason. now apply close_position_zero_size.
  - intros env'. exact (summary_zero_size env' mint later Hlater).
Qed.

Lemma zero_size_position_is_stuck_witness :
  Trade_manager.refused Trade_manager.config.default Manager_samples.buying
    "MintC" 0 Manager_samples.two_open = false
  /\ snd (Trade_manager.open_position Trade_manager.config.default
            Manager_samples.buying "MintC" "CCC" 1.5 0
            Manager_samples.two_open)
     = Raise ZeroDivisionError.
Proof.
  assert (H : Trade_manager.refused Trade_manager.config.default
                Manager_samples.buying "MintC" 0 Manager_samples.two_open
              = false) by (vm_compute; reflexivity).
  split; [ exact H |].
  refine (proj1 (zero_size_position_is_stuck Trade_manager.config.default
                   Manager_samples.buying "MintC" "CCC" 1.5 0
                   Manager_samples.two_open two_open_consistent H _)).
  vm_compute. reflexivity.
Defined.

(** ** Stop-loss before take-profit *)

Section Tie_facts.

Import Trade_manager.

Variable env : Env.

Lemma dict_get_of_In {V : Type} (d : Py.dict V) (k : string) (v : V) :
  NoDup (Py.keys d) -> In (k, v) d -> Py.dict_get k d = Some v.
Proof.
  induction d as [| [k' v'] d IH]; simpl; intros Hnd Hin; [ contradiction |].
  inversion Hnd as [| ? ? Hnotin Hnd' ]; subst.
  destruct Hin as [Heq | Hin].
  - inversion Heq; subst. now rewrite String.eqb_refl.
  - destruct (String.eqb_spec k k') as [-> |]; [| now apply IH ].
    exfalso. apply Hnotin. apply in_map_iff.
    exists (k', v). split; [ reflexivity | exact Hin ].
Qed.

Lemma close_position_sells (mint reason : string) (st : State) (r : ref)
    (usdc_received : float) :
  Py.dict_get mint (positions st) = Some r ->
  (position_size_usdc (deref st r) =? 0) = false ->
  _execute_sell env mint (token_amount (deref st r)) = Some usdc_received ->
  exists st',
    close_position env mint reason st = (st', Ok (Some usdc_received)).
Proof.
  intros Hget Hsize Hsell. unfold close_position. rewrite Hget.
  unfold unrealized_pnl_percent, Py.truediv. rewrite Hsize. cbn [bind].
  rewrite Hsell. eexists. reflexivity.
Qed.

Lemma close_position_unsold (mint reason : string) (st : State) (r : ref) :
  Py.dict_get mint (positions st) = Some r ->
  (position_size_usdc (deref st r) =? 0) = false ->
  _execute_sell env mint (token_amount (deref st r)) = None ->
  close_position env mint reason st = (st, Ok None).
Proof.
  intros Hget Hsize Hsell. unfold close_position. rewrite Hget.
  unfold unrealized_pnl_percent, Py.truediv. rewrite Hsize. cbn [bind].
  now rewrite Hsell.
Qed.

(** One pass over a position that is passed over: its price is
    refreshed, if there is one, and nothing else changes. *)
Lemma check_one_passed_over (prices : Py.dict float) (mint : string)
    (r : ref) (st : State) (actions : list Action.t) :
  Py.dict_get mint (positions st) = Some r ->
  (r < length (heap st))%nat ->
  passed_over env prices st (mint, r) ->
  exists st',
    check_one env prices mint r st actions = (st', Ok actions)
    /\ positions st' = positions st
    /\ length (heap st') = length (heap st)
    /\ trade_history st' = trade_history st
    /\ STATE_FILE st' = STATE_FILE st
    /\ TRADES_LOG_FILE st' = TRADES_LOG_FILE st
    /\ (forall r', r' <> r -> deref st' r' = deref st r').
Proof.
  intros Hget Hr Hpass. unfold check_one, passed_over in *.
  cbn [fst snd] in Hpass.
  destruct (Py.dict_get mint prices) as [price |].
  2:{ exists st. repeat split; reflexivity. }
  set (st1 := store r (set_current_price_usd (deref st r) price) st).
  assert (Hd1 : deref st1 r = set_current_price_usd (deref st r) price)
    by (apply deref_store_same; exact Hr).
  assert (Hkeep : positions st1 = positions st
                  /\ length (heap st1) = length (heap st)
                  /\ trade_history st1 = trade_history st
                  /\ STATE_FILE st1 = STATE_FILE st
                  /\ TRADES_LOG_FILE st1 = TRADES_LOG_FILE st
                  /\ (forall r', r' <> r -> deref st1 r' = deref st r')).
  { unfold st1, store. simpl. rewrite replace_nth_length.
    repeat (split; [ reflexivity |]).
    intros r' Hne. apply nth_replace_nth_other. congruence. }
  destruct Hpass as [Hquiet | [Hsize Hsell]].
  - unfold quiet_at in Hquiet. apply andb_true_iff in Hquiet.
    destruct Hquiet as [Hsl Htp].
    apply negb_true_iff in Hsl. apply negb_true_iff in Htp.
    rewrite Hd1, Hsl, Htp. exists st1. split; [ reflexivity | exact Hkeep ].
  - assert (Hunsold : forall label,
               trigger env label mint r st1 actions = (st1, Ok actions)).
    { intros label. unfold trigger.
      rewrite (close_position_unsold mint label st1 r); [ reflexivity | | |].
      - exact Hget.
      - rewrite Hd1. destruct (deref st r); exact Hsize.
      - rewrite Hd1. destruct (deref st r); exact Hsell. }
    exists st1. split; [| exact Hkeep ].
    destruct (should_stop_loss (deref st1 r)); [ apply Hunsold |].
    destruct (should_take_profit (deref st1 r)); [ apply Hunsold |].
    reflexivity.
Qed.

(** The loop over positions that are all passed over arrives at the
    rest of the dict with only prices refreshed. *)
Lemma check_loop_passed_over (prices : Py.dict float) (used : nat)
    (rest : Py.dict ref) (before : Py.dict ref) :
  forall (st : State) (actions : list Action.t),
    (forall kv, In kv before ->
                Py.dict_get (fst kv) (positions st) = Some (snd kv)) ->
    NoDup (map snd before) ->
    Forall (fun kv => (snd kv < length (heap st))%nat) before ->
    Forall (passed_over env prices st) before ->
    length (positions st) = used ->
    exists st',
      check_loop env prices used (before ++ rest) st actions
      = check_loop env prices used rest st' actions
      /\ positions st' = positions st
      /\ length (heap st') = length (heap st)
      /\ trade_history st' = trade_history st
      /\ STATE_FILE st' = STATE_FILE st
      /\ TRADES_LOG_FILE st' = TRADES_LOG_FILE st
      /\ (forall r, ~ In r (map snd before) -> deref st' r = deref st r).
Proof.
  induction before as [| [mint r] before IH];
    intros st actions Hget Hnd Halloc Hpass Hused.
  - exists st. repeat split; reflexivity.
  - inversion Hnd as [| ? ? Hnotin Hnd' ]; subst.
    inversion Halloc as [| ? ? Hr Halloc' ]; subst. simpl in Hr.
    inversion Hpass as [| ? ? Hp Hpass' ]; subst.
    destruct (check_one_passed_over prices mint r st actions
                (Hget (mint, r) (or_introl eq_refl)) Hr Hp)
      as (st1 & Hone & Hp1 & Hl1 & Hh1 & Hf1 & Ht1 & Hd1).
    assert (Hother : forall kv, In kv before -> snd kv <> r).
    { intros kv Hin Heq. apply Hnotin. apply in_map_iff.
      exists kv. split; [ exact Heq | exact Hin ]. }
    destruct (IH st1 actions) as (st' & Hloop & Hp' & Hl' & Hh' & Hf' & Ht'
                                  & Hd').
    + intros kv Hin. rewrite Hp1. apply Hget. now right.
    + exact Hnd'.
    + rewrite Hl1. exact Halloc'.
    + rewrite Forall_forall in Hpass' |- *. intros kv Hin.
      specialize (Hpass' kv Hin). unfold passed_over in *.
      rewrite (Hd1 (snd kv) (Hother kv Hin)). exact Hpass'.
    + now rewrite Hp1.
    + exists st'. split.
      * cbn [app check_loop]. rewrite Nat.eqb_refl. cbn [negb].
        rewrite Hone. exact Hloop.
      * rewrite Hp', Hl', Hh', Hf', Ht', Hp1, Hl1, Hh1, Hf1, Ht1.
        repeat (split; [ reflexivity |]).
        intros r0 Hr0. simpl in Hr0.
        rewrite Hd' by tauto. apply Hd1. intros ->. tauto.
Qed.

(** A position that meets the stop-loss condition at its price, reached
    by the loop and sold, is closed with reason "stop_loss". *)
Lemma check_positions_stop_loss (st : State) (before after : Py.dict ref)
    (mint : string) (r : ref) (price usdc_received : float) :
  consistent st ->
  positions st = before ++ (mint, r) :: after ->
  Forall (passed_over env
            (get_token_prices env (Py.keys (positions st))) st) before ->
  Py.dict_get mint (get_token_prices env (Py.keys (positions st)))
  = Some price ->
  should_stop_loss (set_current_price_usd (deref st r) price) = true ->
  (position_size_usdc (deref st r) =? 0) = false ->
  _execute_sell env mint (token_amount (deref st r)) = Some usdc_received ->
  exists st' record,
    check_positions env st = (st', Raise RuntimeError)
    /\ positions st' = Py.dict_del mint (positions st)
    /\ Py.dict_get mint (positions st') = None
    /\ trade_history st' = trade_history st ++ [record]
    /\ TRADES_LOG_FILE st' = TRADES_LOG_FILE st ++ [record]
    /\ TradeRecord.action record = "CLOSE"%string
    /\ TradeRecord.reason record = "stop_loss"%string
    /\ TradeRecord.pnl_usd record
       = usdc_received - position_size_usdc (deref st r).
Proof.
  intros (Hkeys & Hrefs & Halloc) Hpos Hpass Hprice Hsl Hsize Hsell.
  set (prices := get_token_prices env (Py.keys (positions st))) in *.
  assert (Hin : forall kv, In kv (positions st) ->
                           Py.dict_get (fst kv) (positions st) = Some (snd kv)).
  { intros [k v] Hkv. now apply dict_get_of_In. }
  assert (Hrefs' : NoDup (map snd before) /\ ~ In r (map snd before)).
  { rewrite Hpos, map_app in Hrefs. simpl in Hrefs.
    split; [ now apply NoDup_app_remove_r in Hrefs |].
    apply NoDup_remove_2 in Hrefs. intros Hr. apply Hrefs.
    apply in_or_app. now left. }
  destruct Hrefs' as [Hnd Hnotin].
  unfold allocated in Halloc. rewrite Hpos in Halloc.
  apply Forall_app in Halloc. destruct Halloc as [Hab Har].
  inversion Har as [| ? ? Hr _ ]; subst. simpl in Hr.
  destruct (check_loop_passed_over prices (length (positions st))
              ((mint, r) :: after) before st [])
    as (st0 & Hloop & Hp0 & Hl0 & Hh0 & Hf0 & Ht0 & Hd0); auto.
  { intros kv Hkv. apply Hin. rewrite Hpos. apply in_or_app. now left. }
  assert (Hget0 : Py.dict_get mint (positions st0) = Some r).
  { rewrite Hp0. apply (Hin (mint, r)). rewrite Hpos.
    apply in_or_app. right. now left. }
  set (st1 := store r (set_current_price_usd (deref st0 r) price) st0).
  assert (Hd1 : deref st1 r = set_current_price_usd (deref st r) price).
  { unfold st1. rewrite deref_store_same by (rewrite Hl0; exact Hr).
    now rewrite (Hd0 r Hnotin). }
  destruct (close_position_sells mint "stop_loss" st1 r usdc_received)
    as (st2 & Hclose).
  { exact Hget0. }
  { rewrite Hd1. destruct (deref st r); exact Hsize. }
  { rewrite Hd1. destruct (deref st r); exact Hsell. }
  destruct (close_position_filled_state _ _ _ _ _ _ Hclose)
    as (r' & record & Hget' & Hheap2 & Hpos2 & Hh2 & Ht2 & _ & Ha & Hreason
        & Hpnl).
  assert (Hr' : r' = r) by (change (positions st1) with (positions st0) in Hget'; congruence).
  subst r'.
  assert (Hlen2 : S (length (positions st2)) = length (positions st)).
  { rewrite Hpos2. change (positions st1) with (positions st0).
    rewrite <- Hp0. exact (dict_del_length _ _ _ Hget0). }
  exists st2, record. split.
  - assert (Hcp : check_positions env st
                  = check_loop env prices (length (positions st))
                      (positions st) st []).
    { unfold check_positions, prices.
      destruct (positions st) as [| kv d] eqn:E; [| reflexivity ].
      destruct before; discriminate. }
    rewrite Hcp. rewrite Hpos at 2. rewrite Hloop.
    cbn [check_loop]. rewrite Hp0, Nat.eqb_refl. cbn [negb].
    unfold check_one. rewrite Hprice. fold st1. rewrite Hd1, Hsl.
    unfold trigger. rewrite Hclose.
    destruct after as [| kv' after'];
      cbn [check_loop];
      (destruct (Nat.eqb_spec (length (positions st2)) (length (positions st)));
       [ lia | reflexivity ]).
  - change (positions st1) with (positions st0) in Hpos2.
    change (trade_history st1) with (trade_history st0) in Hh2.
    change (TRADES_LOG_FILE st1) with (TRADES_LOG_FILE st0) in Ht2.
    rewrite Hpos2, Hh2, Ht2, Hp0, Hh0, Ht0.
    split; [ reflexivity |].
    split.
    { destruct (Py.dict_get mint (Py.dict_del mint (positions st)))
        as [v |] eqn:Hstill; [| reflexivity ].
      exfalso. apply dict_get_In in Hstill.
      pose proof (dict_del_keys_NoDup mint _ Hkeys) as Hnd2.
      assert (Hlen : S (length (Py.dict_del mint (positions st)))
                     = length (positions st))
        by (apply (dict_del_length mint _ r); rewrite <- Hp0; exact Hget0).
      apply (in_map fst) in Hstill. simpl in Hstill.
      revert Hstill Hlen. clear - Hkeys.
      induction (positions st) as [| [k' v'] d IH]; simpl; intros Hs Hl;
        [ contradiction |].
      inversion Hkeys as [| ? ? Hnotin Hnd ]; subst.
      destruct (String.eqb_spec mint k') as [-> |].
      - contradiction.
      - simpl in Hs, Hl. destruct Hs as [Heq | Hs]; [ congruence |].
        apply IH; auto. }
    split; [ reflexivity | split; [ reflexivity |] ].
    split; [ exact Ha | split; [ exact Hreason |] ].
    assert (Hd2 : deref st2 r
                  = set_realized_pnl_usd (deref st1 r)
                      (usdc_received - position_size_usdc (deref st1 r))).
    { unfold deref at 1. rewrite Hheap2. apply nth_replace_nth_same.
      unfold st1, store. simpl. rewrite replace_nth_length, Hl0. exact Hr. }
    rewrite Hpnl, Hd2, Hd1. destruct (deref st r); reflexivity.
Qed.

End Tie_facts.

Lemma one_open_consistent : Trade_manager.consistent Manager_samples.one_open.
Proof.
  unfold Trade_manager.consistent, Trade_manager.allocated. simpl.
  repeat split; repeat constructor; simpl; tauto.
Qed.

(** C2, the claim as it stands, fails in [check_positions]: a position
    quoted at the level of both its stop and its take-profit satisfies both
    conditions, its sale is not filled, and the call returns the empty list
    with the position still open and nothing logged. *)
Lemma stop_loss_wins_the_tie_counterexample :
  let after :=
    fst (Trade_manager.check_positions Manager_samples.unsold
           Manager_samples.one_open) in
  Py.dict_get "MintC"
    (Trade_manager.get_token_prices Manager_samples.unsold ["MintC"%string])
  = Some 1%float
  /\ Trade_manager.should_stop_loss
       (Trade_manager.set_current_price_usd Manager_samples.gamma 1) = true
  /\ Trade_manager.should_take_profit
       (Trade_manager.set_current_price_usd Manager_samples.gamma 1) = true
  /\ snd (Trade_manager.check_positions Manager_samples.unsold
            Manager_samples.one_open) = Ok []
  /\ Trade_manager.positions after
     = Trade_manager.positions Manager_samples.one_open
  /\ Py.dict_contains "MintC" (Trade_manager.positions after) = true
  /\ Trade_manager.trade_history after = [].
Proof.
  repeat split; vm_compute; reflexivity.
Qed.

(** C2, amended.  In [run], a candle processed while a position is held
    whose low is at or below the stop and whose high is at or above the
    take-profit closes the position with one trade of type "SL" at the stop
    price (as long as the signal evaluation of that candle does not raise).
    In [check_positions], a position whose refreshed price satisfies both
    [should_stop_loss] and [should_take_profit] is closed with reason
    "stop_loss" when its sale is filled and the loop gets to it, every
    position before it in the dict being passed over: it leaves the
    position set, and one CLOSE record with reason "stop_loss" and the
    realized pnl is appended to the history and to the trades file. *)
Theorem stop_loss_wins_the_tie :
  forall (self : Backtest_engine.BacktestEngine)
         (strategy : Backtest_engine.Strategy)
         (candles : list Backtest_engine.Candle) (k : nat)
         (candle : Backtest_engine.Candle)
         (st : Backtest_engine.Locals) (pos : Backtest_engine.Position)
         (env : Trade_manager.Env) (mst : Trade_manager.State)
         (before after : Py.dict Trade_manager.ref) (mint : string)
         (r : Trade_manager.ref) (price usdc_received : float),
    nth_error candles k = Some candle ->
    Backtest_engine.run_upto self strategy candles k = Ok st ->
    Backtest_engine.position st = Some pos ->
    (Backtest_engine.low candle <=? Backtest_engine.sl pos) = true ->
    Py.ge (Backtest_engine.high candle) (Backtest_engine.tp pos) = true ->
    Trade_manager.consistent mst ->
    Trade_manager.positions mst = before ++ (mint, r) :: after ->
    Forall (Trade_manager.passed_over env
              (Trade_manager.get_token_prices env
                 (Py.keys (Trade_manager.positions mst))) mst) before ->
    Py.dict_get mint
      (Trade_manager.get_token_prices env
         (Py.keys (Trade_manager.positions mst))) = Some price ->
    Trade_manager.should_stop_loss
      (Trade_manager.set_current_price_usd (Trade_manager.deref mst r) price)
    = true ->
    Trade_manager.should_take_profit
      (Trade_manager.set_current_price_usd (Trade_manager.deref mst r) price)
    = true ->
    (Trade_manager.position_size_usdc (Trade_manager.deref mst r) =? 0)
    = false ->
    Trade_manager._execute_sell env mint
      (Trade_manager.token_amount (Trade_manager.deref mst r))
    = Some usdc_received ->
    (Backtest_engine.run_upto self strategy candles (S k)
     = (_ <- Backtest_engine._check_signal candle strategy (firstn k candles) ;;
        Ok (Backtest_engine.exit_at pos (Backtest_engine.sl pos) "SL" candle st))
     /\ exists t,
          Backtest_engine.trades
            (Backtest_engine.exit_at pos (Backtest_engine.sl pos) "SL" candle st)
          = Backtest_engine.trades st ++ [t]
          /\ Backtest_engine.trade_type t = "SL"%string
          /\ Backtest_engine.trade_exit t = Backtest_engine.sl pos)
    /\ (let mst' := fst (Trade_manager.check_positions env mst) in
        Trade_manager.positions mst'
        = Py.dict_del mint (Trade_manager.positions mst)
        /\ Py.dict_get mint (Trade_manager.positions mst') = None
        /\ exists record,
             Trade_manager.trade_history mst'
             = Trade_manager.trade_history mst ++ [record]
             /\ Trade_manager.TRADES_LOG_FILE mst'
                = Trade_manager.TRADES_LOG_FILE mst ++ [record]
             /\ Trade_manager.TradeRecord.action record = "CLOSE"%string
             /\ Trade_manager.TradeRecord.reason record = "stop_loss"%string
             /\ Trade_manager.TradeRecord.pnl_usd record
                = usdc_received
                  - Trade_manager.position_size_usdc
                      (Trade_manager.deref mst r)).
Proof.
  intros self strategy candles k candle st pos env mst before after mint r
    price usdc_received Hnth Hrun Hpos Hlow Hhigh Hc Hdict Hpass Hprice Hsl
    Htp Hsize Hsell.
  split; [ split |].
  - rewrite (run_upto_S _ _ _ _ _ Hnth), Hrun. simpl.
    destruct (Backtest_engine._check_signal candle strategy (firstn k candles))
      as [signal | e]; simpl; [| reflexivity ].
    unfold Backtest_engine.loop_body. rewrite Hpos, Hlow.
    now destruct signal.
  - eexists. split; [ reflexivity | split; reflexivity ].
  - destruct (check_positions_stop_loss env mst before after mint r price
                usdc_received Hc Hdict Hpass Hprice Hsl Hsize Hsell)
      as (mst' & record & Hcheck & Hdel & Hgone & Hh & Hf & Ha & Hreason
          & Hpnl).
    rewrite Hcheck. cbn [fst].
    split; [ exact Hdel | split; [ exact Hgone |] ].
    exists record. repeat (split; [ assumption |]). exact Hpnl.
Qed.

Lemma stop_loss_wins_the_tie_witness :
  let after :=
    fst (Trade_manager.check_positions Manager_samples.level
           Manager_samples.one_open) in
  nth_error Samples.candles 22 = Some (Backtest_engine.mkCandle 100 140 80 1 22%Z)
  /\ Backtest_engine.run_upto Samples.engine Samples.params Samples.candles 22
     = Ok (Samples.locals_after 22)
  /\ Backtest_engine.position (Samples.locals_after 22)
     = Some (Samples.held_after 22)
  /\ (80 <=? Backtest_engine.sl (Samples.held_after 22)) = true
  /\ Py.ge 140 (Backtest_engine.tp (Samples.held_after 22)) = true
  /\ Trade_manager.should_stop_loss
       (Trade_manager.set_current_price_usd Manager_samples.gamma 1) = true
  /\ Trade_manager.should_take_profit
       (Trade_manager.set_current_price_usd Manager_samples.gamma 1) = true
  /\ Backtest_engine.run_upto Samples.engine Samples.params Samples.candles 23
     = (_ <- Backtest_engine._check_signal
               (Backtest_engine.mkCandle 100 140 80 1 22%Z) Samples.params
               (firstn 22 Samples.candles) ;;
        Ok (Backtest_engine.exit_at (Samples.held_after 22)
              (Backtest_engine.sl (Samples.held_after 22)) "SL"
              (Backtest_engine.mkCandle 100 140 80 1 22%Z)
              (Samples.locals_after 22)))
  /\ Py.dict_get "MintC" (Trade_manager.positions after) = None
  /\ exists record,
       Trade_manager.trade_history after = [record]
       /\ Trade_manager.TradeRecord.reason record = "stop_loss"%string.
Proof.
  intros after.
  assert (H1 : nth_error Samples.candles 22
               = Some (Backtest_engine.mkCandle 100 140 80 1 22%Z))
    by reflexivity.
  assert (H2 : Backtest_engine.run_upto Samples.engine Samples.params
                 Samples.candles 22 = Ok (Samples.locals_after 22))
    by (vm_compute; reflexivity).
  assert (H3 : Backtest_engine.position (Samples.locals_after 22)
               = Some (Samples.held_after 22))
    by (vm_compute; reflexivity).
  assert (H4 : (80 <=? Backtest_engine.sl (Samples.held_after 22)) = true)
    by (vm_compute; reflexivity).
  assert (H5 : Py.ge 140 (Backtest_engine.tp (Samples.held_after 22)) = true)
    by (vm_compute; reflexivity).
  assert (H7 : Trade_manager.should_stop_loss
                 (Trade_manager.set_current_price_usd Manager_samples.gamma 1)
               = true)
    by (vm_compute; reflexivity).
  assert (H8 : Trade_manager.should_take_profit
                 (Trade_manager.set_current_price_usd Manager_samples.gamma 1)
               = true)
    by (vm_compute; reflexivity).
  pose proof (stop_loss_wins_the_tie Samples.engine Samples.params
                Samples.candles 22 _ _ _ Manager_samples.level
                Manager_samples.one_open [] [] "MintC" 0%nat 1 49
                H1 H2 H3 H4 H5 one_open_consistent eq_refl
                (Forall_nil _) eq_refl H7 H8 eq_refl eq_refl)
    as [[Hrun _] (_ & Hgone & record & Hh & _ & _ & Hreason & _)].
  repeat (split; [ assumption |]).
  exists record. split; [ exact Hh | exact Hreason ].
Defined.

(* ================================================================= *)
(** ** More on the backtest engine *)

Section Run_cases.

Import Backtest_engine.

Variable self : BacktestEngine.
Variable strategy : Strategy.
Variable candles : list Candle.

(** What one pass through the body of the loop can do. *)
Lemma loop_body_cases (candle : Candle) (signal : Signal) (st st' : Locals) :
  loop_body self candle signal st = Ok st' ->
  st' = st
  \/ (position st = None /\ signal = BUY
      /\ exists pos,
          enter_long self candle = Ok pos
          /\ st' = mkLocals (Some pos) (trades st) (equity st))
  \/ (exists pos,
         position st = Some pos /\ (low candle <=? sl pos) = true
         /\ st' = exit_at pos (sl pos) "SL" candle st)
  \/ (exists pos,
         position st = Some pos /\ (low candle <=? sl pos) = false
         /\ Py.ge (high candle) (tp pos) = true
         /\ st' = exit_at pos (tp pos) "TP" candle st).
Proof.
  unfold loop_body. intros H.
  destruct (position st) as [pos |] eqn:Hpos.
  - assert (Hexit :
      (if low candle <=? sl pos then Ok (exit_at pos (sl pos) "SL" candle st)
       else if Py.ge (high candle) (tp pos)
            then Ok (exit_at pos (tp pos) "TP" candle st)
            else Ok st) = Ok st') by (destruct signal; exact H).
    clear H.
    destruct (low candle <=? sl pos) eqn:Hsl.
    + inversion Hexit; subst. right; right; left. exists pos. auto.
    + destruct (Py.ge (high candle) (tp pos)) eqn:Htp; inversion Hexit; subst.
      * right; right; right. exists pos. auto.
      * now left.
  - destruct signal.
    + inv_bind H. inversion H; subst. right; left. eauto.
    + inversion H; subst. now left.
Qed.

(** A property of the locals that holds before the loop and is kept by
    every pass holds after any number of candles. *)
Lemma run_upto_invariant (P : nat -> Locals -> Prop) :
  P 0%nat (initial_locals self) ->
  (forall k candle signal st st',
      nth_error candles k = Some candle ->
      run_upto self strategy candles k = Ok st ->
      P k st ->
      _check_signal candle strategy (firstn k candles) = Ok signal ->
      loop_body self candle signal st = Ok st' ->
      run_upto self strategy candles (S k) = Ok st' ->
      P (S k) st') ->
  forall k st,
    (k <= length candles)%nat ->
    run_upto self strategy candles k = Ok st -> P k st.
Proof.
  intros Hinit Hstep. induction k as [| k IH]; intros st Hk Hrun.
  - unfold run_upto in Hrun. simpl in Hrun. now inversion Hrun; subst.
  - destruct (nth_error candles k) as [candle |] eqn:Hnth;
      [| apply nth_error_None in Hnth; lia ].
    pose proof Hrun as Hrun'.
    rewrite (run_upto_S _ _ _ _ _ Hnth) in Hrun.
    inv_bind Hrun. inv_bind Hrun.
    apply (Hstep k candle a0 a st Hnth); auto.
    apply IH; [ lia | exact Ha ].
Qed.

Lemma first_candle_holds (candle : Candle) :
  _check_signal candle strategy (firstn 0 candles) = Ok HOLD.
Proof. reflexivity. Qed.

(** The equity is the capital plus the pnl of the recorded trades, added
    in the order of the list. *)
Lemma run_upto_equity (k : nat) (st : Locals) :
  (k <= length candles)%nat ->
  run_upto self strategy candles k = Ok st ->
  equity st = fold_left PrimFloat.add (map pnl (trades st)) (capital self).
Proof.
  apply (run_upto_invariant
           (fun _ st =>
              equity st
              = fold_left PrimFloat.add (map pnl (trades st)) (capital self))).
  - reflexivity.
  - intros i candle signal s s' _ _ IH _ Hbody _.
    destruct (loop_body_cases _ _ _ _ Hbody)
      as [-> | [(_ & _ & pos & _ & ->) | [(pos & _ & _ & ->)
                                          | (pos & _ & _ & _ & ->)]]];
      simpl; try exact IH;
      rewrite map_app, fold_left_app, <- IH; reflexivity.
Qed.

(** Every trade takes an entry candle and a later exit candle, and the
    first candle is neither. *)
Lemma run_upto_trade_count (k : nat) (st : Locals) :
  (k <= length candles)%nat ->
  run_upto self strategy candles k = Ok st ->
  (2 * length (trades st) + open_positions st <= Nat.pred k)%nat.
Proof.
  apply (run_upto_invariant
           (fun k st =>
              (k = 0%nat -> position st = None)
              /\ (2 * length (trades st) + open_positions st
                  <= Nat.pred k)%nat)).
  - split; [ reflexivity | unfold open_positions; simpl; lia ].
  - intros i candle signal s s' _ _ [Hzero IH] Hsig Hbody _.
    split; [ discriminate |].
    destruct (loop_body_cases _ _ _ _ Hbody)
      as [-> | [(Hnone & -> & pos & _ & ->) | [(pos & Hpos & _ & ->)
                                               | (pos & Hpos & _ & _ & ->)]]];
      unfold open_positions in *; simpl.
    + destruct i; simpl in *; lia.
    + rewrite Hnone in IH.
      destruct i; [ rewrite first_candle_holds in Hsig; discriminate |].
      simpl in *. lia.
    + rewrite Hpos in IH.
      destruct i; [ specialize (Hzero eq_refl); congruence |].
      rewrite length_app. simpl in *. lia.
    + rewrite Hpos in IH.
      destruct i; [ specialize (Hzero eq_refl); congruence |].
      rewrite length_app. simpl in *. lia.
Qed.

Lemma trade_between_later (k k' : nat) (t : Trade) :
  (k <= k')%nat -> trade_between self candles k t -> trade_between self candles k' t.
Proof.
  intros Hk (i & j & cin & cout & Hij & Hj & H).
  exists i, j, cin, cout. split; [ exact Hij | split; [ lia | exact H ] ].
Qed.

Lemma exit_is_recorded (cin cout : Candle) (pos : Position) (st : Locals) :
  enter_long self cin = Ok pos ->
  ((low cout <=? sl pos) = true ->
   recorded_from self cin cout
     (mkTrade (entry pos) (sl pos) ((sl pos - entry pos) * qty pos - fees pos)
        "SL" (time cout)))
  /\ ((low cout <=? sl pos) = false ->
      Py.ge (high cout) (tp pos) = true ->
      recorded_from self cin cout
        (mkTrade (entry pos) (tp pos)
           ((tp pos - entry pos) * qty pos - fees pos) "TP" (time cout))).
Proof.
  unfold enter_long, Py.truediv. intros H.
  destruct (close cin * (1 + FEES.slippage) =? 0); simpl in H;
    [ discriminate |].
  inversion H; subst; clear H. unfold recorded_from. cbn [entry sl tp qty fees
    trade_entry trade_exit pnl trade_type timestamp].
  split.
  - intros Hsl. repeat split. left. repeat split. exact Hsl.
  - intros Hsl Htp. repeat split. right. repeat split; assumption.
Qed.

Lemma run_upto_provenance (k : nat) (st : Locals) :
  (k <= length candles)%nat ->
  run_upto self strategy candles k = Ok st ->
  (forall pos, position st = Some pos -> exists i, (i < k)%nat /\ entered_at self candles i pos)
  /\ Forall (trade_between self candles k) (trades st).
Proof.
  apply (run_upto_invariant
           (fun k st =>
              (forall pos, position st = Some pos ->
                           exists i, (i < k)%nat /\ entered_at self candles i pos)
              /\ Forall (trade_between self candles k) (trades st))).
  - split; [ intros pos H; discriminate | constructor ].
  - intros i candle signal s s' Hnth _ [Hheld Hrec] Hsig Hbody _.
    assert (Hrec' : Forall (trade_between self candles (S i)) (trades s)).
    { eapply Forall_impl; [| exact Hrec ].
      intros t. apply trade_between_later. lia. }
    destruct (loop_body_cases _ _ _ _ Hbody)
      as [-> | [(Hnone & -> & pos & Henter & ->) | [(pos & Hpos & Hsl & ->)
                                              | (pos & Hpos & Hsl & Htp & ->)]]].
    + split; [| exact Hrec' ].
      intros pos Hpos. destruct (Hheld pos Hpos) as (i0 & Hi0 & H0).
      exists i0. split; [ lia | exact H0 ].
    + split; [| exact Hrec' ].
      intros pos' Hpos'. simpl in Hpos'. inversion Hpos'; subst pos'.
      exists i. split; [ lia |]. exists candle.
      destruct i; [ rewrite first_candle_holds in Hsig; discriminate |].
      split; [ lia | split; [ exact Hnth | exact Henter ] ].
    + split; [ intros pos' Hpos'; discriminate |].
      simpl. apply Forall_app. split; [ exact Hrec' |].
      constructor; [| constructor ].
      destruct (Hheld pos Hpos) as (i0 & Hi0 & cin & Hone & Hcin & Henter).
      exists i0, i, cin, candle.
      split; [ lia | split; [ lia | split; [ exact Hcin | split; [ exact Hnth |] ] ] ].
      exact (proj1 (exit_is_recorded cin candle pos s Henter) Hsl).
    + split; [ intros pos' Hpos'; discriminate |].
      simpl. apply Forall_app. split; [ exact Hrec' |].
      constructor; [| constructor ].
      destruct (Hheld pos Hpos) as (i0 & Hi0 & cin & Hone & Hcin & Henter).
      exists i0, i, cin, candle.
      split; [ lia | split; [ lia | split; [ exact Hcin | split; [ exact Hnth |] ] ] ].
      exact (proj2 (exit_is_recorded cin candle pos s Henter) Hsl Htp).
Qed.

(** A held position was opened by the pass that took the run from Flat
    to Long, with what [enter_long] makes of that pass's candle, and has
    been held ever since. *)
Lemma run_upto_opened (k : nat) (st : Locals) :
  (k <= length candles)%nat ->
  run_upto self strategy candles k = Ok st ->
  forall pos,
    position st = Some pos ->
    exists i cin before,
      (i < k)%nat
      /\ nth_error candles i = Some cin
      /\ run_upto self strategy candles i = Ok before
      /\ position before = None
      /\ enter_long self cin = Ok pos
      /\ forall j, (i < j <= k)%nat ->
           exists held,
             run_upto self strategy candles j = Ok held
             /\ position held = Some pos.
Proof.
  apply (run_upto_invariant
           (fun k st =>
              forall pos,
                position st = Some pos ->
                exists i cin before,
                  (i < k)%nat
                  /\ nth_error candles i = Some cin
                  /\ run_upto self strategy candles i = Ok before
                  /\ position before = None
                  /\ enter_long self cin = Ok pos
                  /\ forall j, (i < j <= k)%nat ->
                       exists held,
                         run_upto self strategy candles j = Ok held
                         /\ position held = Some pos)).
  - intros pos H. discriminate.
  - intros i candle signal s s' Hnth Hrun IH Hsig Hbody Hrun' pos Hpos.
    destruct (loop_body_cases _ _ _ _ Hbody)
      as [-> | [(Hnone & _ & pos0 & Henter & Hs') | [(pos0 & _ & _ & Hs')
                                              | (pos0 & _ & _ & _ & Hs')]]].
    + destruct (IH pos Hpos)
        as (i0 & cin & b & Hi0 & Hcin & Hb & Hflat & Henter & Hheld).
      exists i0, cin, b. split; [ lia |].
      repeat (split; [ assumption |]).
      intros j Hj. destruct (Nat.eq_dec j (S i)) as [-> | Hne].
      * exists s. split; [ exact Hrun' | exact Hpos ].
      * apply Hheld. lia.
    + assert (Hpos0 : pos0 = pos)
        by (rewrite Hs' in Hpos; simpl in Hpos; congruence).
      subst pos0.
      exists i, candle, s.
      split; [ lia |].
      repeat (split; [ assumption |]).
      intros j Hj. assert (j = S i) by lia. subst j.
      exists s'. split; [ exact Hrun' | exact Hpos ].
    + rewrite Hs' in Hpos. discriminate.
    + rewrite Hs' in Hpos. discriminate.
Qed.

End Run_cases.

(** C6.  Whatever the strategy dict, a position held by [run] was opened
    by the pass that took the run from Flat to Long and has been held on
    every pass since; its entry price is the close of the candle of that
    very pass times [1 + 0.005], its quantity [capital * 0.1 / entry], its
    stop [entry * 0.85] and its take-profit [entry * 1.30]; and [run]
    returns the same for any values under the strategy's [stop_atr_mult]
    and [tp_percent] keys. *)
Theorem run_fixed_exit_band :
  forall (self : Backtest_engine.BacktestEngine)
         (strategy : Backtest_engine.Strategy)
         (candles : list Backtest_engine.Candle) (k : nat)
         (st : Backtest_engine.Locals) (pos : Backtest_engine.Position),
    Backtest_engine.run_upto self strategy candles k = Ok st ->
    Backtest_engine.position st = Some pos ->
    (exists i candle before,
        (i < k)%nat
        /\ nth_error candles i = Some candle
        /\ Backtest_engine.run_upto self strategy candles i = Ok before
        /\ Backtest_engine.position before = None
        /\ (forall j, (i < j <= k)%nat ->
              exists held,
                Backtest_engine.run_upto self strategy candles j = Ok held
                /\ Backtest_engine.position held = Some pos)
        /\ Backtest_engine.entry pos = Backtest_engine.close candle * (1 + 0.005)
        /\ Backtest_engine.qty pos =
           Backtest_engine.capital self * 0.1 / Backtest_engine.entry pos
        /\ Backtest_engine.sl pos = Backtest_engine.entry pos * 0.85
        /\ Backtest_engine.tp pos = Backtest_engine.entry pos * 1.30)
    /\ (forall stop_atr_mult tp_percent,
          Backtest_engine.run self candles
            (Backtest_engine.with_exit_fields strategy stop_atr_mult tp_percent)
          = Backtest_engine.run self candles strategy).
Proof.
  intros self strategy candles k st pos Hrun Hpos. split.
  - assert (Hover : forall j, (length candles <= j)%nat ->
                Backtest_engine.run_upto self strategy candles j
                = Backtest_engine.run_upto self strategy candles
                    (length candles)).
    { intros j Hj. unfold Backtest_engine.run_upto.
      now rewrite firstn_all2 by exact Hj; rewrite firstn_all. }
    assert (Hmin : Backtest_engine.run_upto self strategy candles
                     (Nat.min k (length candles)) = Ok st).
    { destruct (Nat.le_ge_cases k (length candles)) as [H | H].
      - now rewrite Nat.min_l.
      - rewrite Nat.min_r by exact H. now rewrite <- (Hover k H). }
    destruct (run_upto_opened self strategy candles _ st
                (Nat.le_min_r _ _) Hmin pos Hpos)
      as (i & cin & b & Hi & Hnth & Hb & Hnone & Henter & Hheld).
    exists i, cin, b.
    split; [ lia |].
    split; [ exact Hnth | split; [ exact Hb | split; [ exact Hnone |] ] ].
    split; [| exact (enter_long_entered_on self cin pos Henter) ].
    intros j Hj.
    destruct (Nat.le_gt_cases j (Nat.min k (length candles))) as [Hle | Hgt].
    + apply Hheld. lia.
    + exists st. split; [| exact Hpos ].
      assert (Hlen : (length candles <= j)%nat) by lia.
      assert (Hk : (length candles <= k)%nat) by lia.
      now rewrite (Hover j Hlen), <- (Hover k Hk).
  - intros a b. unfold Backtest_engine.run.
    now rewrite run_loop_exit_fields.
Qed.

Lemma run_fixed_exit_band_witness :
  Backtest_engine.run_upto Samples.engine Samples.params Samples.candles 22
  = Ok (Samples.locals_after 22)
  /\ Backtest_engine.position (Samples.locals_after 22)
     = Some (Samples.held_after 22)
  /\ exists i candle,
       (i < 22)%nat
       /\ nth_error Samples.candles i = Some candle
       /\ Backtest_engine.entry (Samples.held_after 22)
          = Backtest_engine.close candle * (1 + 0.005).
Proof.
  assert (H1 : Backtest_engine.run_upto Samples.engine Samples.params
                 Samples.candles 22 = Ok (Samples.locals_after 22))
    by (vm_compute; reflexivity).
  assert (H2 : Backtest_engine.position (Samples.locals_after 22)
               = Some (Samples.held_after 22))
    by (vm_compute; reflexivity).
  split; [ exact H1 | split; [ exact H2 |] ].
  destruct (proj1 (run_fixed_exit_band Samples.engine Samples.params
                     Samples.candles 22 _ _ H1 H2))
    as (i & c & _ & Hi & Hnth & _ & _ & _ & Hentry & _).
  exists i, c. split; [ exact Hi | split; [ exact Hnth | exact Hentry ] ].
Defined.

Section Report_facts.

Import Backtest_engine.

Lemma run_Ok (self : BacktestEngine) (candles : list Candle)
    (strategy : Strategy) (r : Report) :
  snd (run self candles strategy) = Ok r ->
  exists st,
    run_upto self strategy candles (length candles) = Ok st
    /\ report self st = Ok r.
Proof.
  rewrite run_upto_all. intros H. inv_bind H. eauto.
Qed.

Lemma report_fields (self : BacktestEngine) (st : Locals) (r : Report) :
  report self st = Ok r ->
  report_trades r = trades st
  /\ final_equity r = equity st
  /\ total_pnl r = equity st - capital self
  /\ total_trades r = Z.of_nat (length (trades st))
  /\ winning_trades r = winners (trades st)
  /\ match trades st with
     | [] => win_rate r = 0%float
     | _ :: _ =>
         Py.int_truediv (winning_trades r) (total_trades r)
         = Ok (win_rate r)
     end.
Proof.
  unfold report. intros H. inv_bind H. inversion H; subst; clear H. simpl.
  repeat (split; [ reflexivity |]).
  destruct (trades st); [ now inversion Ha | exact Ha ].
Qed.

Lemma winners_bounds (l : list Trade) :
  (0 <= winners l <= Z.of_nat (length l))%Z.
Proof.
  unfold winners. pose proof (filter_length_le (fun t => Py.gt (pnl t) 0) l).
  lia.
Qed.

End Report_facts.

(** X11.  The report of [run] accounts for every trade: the final equity
    is the capital with the pnl of the recorded trades added one after the
    other, the total pnl is that equity less the capital, the trades are
    counted, the winners are between none and all of them, and the win rate
    is 0 without trades and the quotient of the two counts otherwise. *)
Theorem run_report_accounts_for_every_trade :
  forall (self : Backtest_engine.BacktestEngine)
         (candles : list Backtest_engine.Candle)
         (strategy : Backtest_engine.Strategy)
         (report : Backtest_engine.Report),
    snd (Backtest_engine.run self candles strategy) = Ok report ->
    Backtest_engine.final_equity report
    = fold_left PrimFloat.add
        (map Backtest_engine.pnl (Backtest_engine.report_trades report))
        (Backtest_engine.capital self)
    /\ Backtest_engine.total_pnl report
       = Backtest_engine.final_equity report - Backtest_engine.capital self
    /\ Backtest_engine.total_trades report
       = Z.of_nat (length (Backtest_engine.report_trades report))
    /\ (0 <= Backtest_engine.winning_trades report
        <= Backtest_engine.total_trades report)%Z
    /\ match Backtest_engine.report_trades report with
       | [] => Backtest_engine.win_rate report = 0%float
               /\ Backtest_engine.final_equity report
                  = Backtest_engine.capital self
       | _ :: _ =>
           Py.int_truediv (Backtest_engine.winning_trades report)
             (Backtest_engine.total_trades report)
           = Ok (Backtest_engine.win_rate report)
       end.
Proof.
  intros self candles strategy report Hrun.
  destruct (run_Ok _ _ _ _ Hrun) as (st & Hloop & Hreport).
  pose proof (run_upto_equity self strategy candles _ st (le_n _) Hloop) as Heq.
  destruct (report_fields _ _ _ Hreport) as (Ht & He & Hp & Hn & Hw & Hr).
  rewrite Ht, He, Hp, Hn, Hw.
  split; [ exact Heq |].
  split; [ reflexivity |].
  split; [ reflexivity |].
  split; [ apply winners_bounds |].
  rewrite Hn, Hw in Hr.
  destruct (Backtest_engine.trades st) eqn:Htrades;
    [ split; [ exact Hr | rewrite Heq; reflexivity ] | exact Hr ].
Qed.

Lemma run_report_accounts_for_every_trade_witness :
  snd (Backtest_engine.run Samples.engine Samples.candles Samples.params)
  = Ok Samples.run_report
  /\ Backtest_engine.total_trades Samples.run_report = 2%Z
  /\ Backtest_engine.final_equity Samples.run_report
     = fold_left PrimFloat.add
         (map Backtest_engine.pnl
            (Backtest_engine.report_trades Samples.run_report))
         1000.
Proof.
  assert (H : snd (Backtest_engine.run Samples.engine Samples.candles
                     Samples.params) = Ok Samples.run_report)
    by (vm_compute; reflexivity).
  split; [ exact H |].
  split; [ vm_compute; reflexivity |].
  exact (proj1 (run_report_accounts_for_every_trade _ _ _ _ H)).
Defined.

(** X12.  A run over [n] candles records at most [(n - 1) / 2] trades:
    the first candle never enters (there is no history to read a signal
    from), and every trade takes one candle to enter and a later one to
    exit. *)
Theorem run_trade_count_bound :
  forall (self : Backtest_engine.BacktestEngine)
         (candles : list Backtest_engine.Candle)
         (strategy : Backtest_engine.Strategy)
         (report : Backtest_engine.Report),
    snd (Backtest_engine.run self candles strategy) = Ok report ->
    (2 * Backtest_engine.total_trades report
     <= Z.of_nat (Nat.pred (length candles)))%Z.
Proof.
  intros self candles strategy report Hrun.
  destruct (run_Ok _ _ _ _ Hrun) as (st & Hloop & Hreport).
  pose proof (run_upto_trade_count self strategy candles _ st (le_n _) Hloop)
    as Hcount.
  destruct (report_fields _ _ _ Hreport) as (_ & _ & _ & Hn & _).
  rewrite Hn. lia.
Qed.

Lemma run_trade_count_bound_witness :
  snd (Backtest_engine.run Samples.engine Samples.candles Samples.params)
  = Ok Samples.run_report
  /\ (2 * Backtest_engine.total_trades Samples.run_report
      <= Z.of_nat (Nat.pred (length Samples.candles)))%Z.
Proof.
  assert (H : snd (Backtest_engine.run Samples.engine Samples.candles
                     Samples.params) = Ok Samples.run_report)
    by (vm_compute; reflexivity).
  split; [ exact H |].
  exact (run_trade_count_bound _ _ _ _ H).
Defined.

(** X13.  Every trade in the report was entered on a candle after the
    first, at [close * 1.005] with a tenth of the capital, and closed on a
    later candle, whose time it carries: at the stop [entry * 0.85] when
    that candle's low reached it, otherwise at the take-profit
    [entry * 1.30] when its high reached that; the pnl is the price
    difference times the quantity, less the entry fees. *)
Theorem run_trades_come_from_the_candles :
  forall (self : Backtest_engine.BacktestEngine)
         (candles : list Backtest_engine.Candle)
         (strategy : Backtest_engine.Strategy)
         (report : Backtest_engine.Report),
    snd (Backtest_engine.run self candles strategy) = Ok report ->
    Forall (Backtest_engine.trade_between self candles (length candles))
      (Backtest_engine.report_trades report).
Proof.
  intros self candles strategy report Hrun.
  destruct (run_Ok _ _ _ _ Hrun) as (st & Hloop & Hreport).
  destruct (report_fields _ _ _ Hreport) as (Ht & _).
  rewrite Ht.
  exact (proj2 (run_upto_provenance self strategy candles _ st (le_n _) Hloop)).
Qed.

Lemma run_trades_come_from_the_candles_witness :
  snd (Backtest_engine.run Samples.engine Samples.candles Samples.params)
  = Ok Samples.run_report
  /\ Forall (Backtest_engine.trade_between Samples.engine Samples.candles
               (length Samples.candles))
       (Backtest_engine.report_trades Samples.run_report).
Proof.
  assert (H : snd (Backtest_engine.run Samples.engine Samples.candles
                     Samples.params) = Ok Samples.run_report)
    by (vm_compute; reflexivity).
  split; [ exact H |].
  exact (run_trades_come_from_the_candles _ _ _ _ H).
Defined.

Section Period_zero_facts.

Import Backtest_engine.

Lemma calculate_rsi_period_zero (candles : list Candle) :
  candles <> [] -> _calculate_rsi candles 0 = Raise ZeroDivisionError.
Proof.
  intros Hne. unfold _calculate_rsi.
  assert (Hlen : (Z.of_nat (length candles) <? 0 + 1)%Z = false).
  { apply Z.ltb_ge. destruct candles; [ contradiction | simpl; lia ]. }
  rewrite Hlen, averages_period_zero. reflexivity.
Qed.

End Period_zero_facts.

(** X14.  A period of 0 passes the length test of [_calculate_rsi] on any
    non-empty list and then divides by the period: the call raises
    [ZeroDivisionError], and so does [run] with a strategy whose
    [rsi_period] is 0 as soon as there are two candles. *)
Theorem period_zero_raises :
  forall (self : Backtest_engine.BacktestEngine)
         (candles : list Backtest_engine.Candle)
         (strategy : Backtest_engine.Strategy),
    Backtest_engine.rsi_period strategy = Some 0%Z ->
    (2 <= length candles)%nat ->
    Backtest_engine._calculate_rsi candles 0 = Raise ZeroDivisionError
    /\ snd (Backtest_engine.run self candles strategy)
       = Raise ZeroDivisionError.
Proof.
  intros self candles strategy Hperiod Hlen.
  destruct candles as [| c0 [| c1 rest]]; simpl in Hlen; try lia.
  split; [ apply calculate_rsi_period_zero; discriminate |].
  unfold Backtest_engine.run. cbn [snd Backtest_engine.run_loop].
  cbn [firstn Backtest_engine._check_signal bind].
  cbn [Backtest_engine.loop_body Backtest_engine.initial_locals
         Backtest_engine.position bind].
  rewrite Hperiod. cbn [Backtest_engine.get app].
  rewrite calculate_rsi_period_zero by discriminate.
  reflexivity.
Qed.

Lemma period_zero_raises_witness :
  snd (Backtest_engine.run Samples.engine Samples.candles
         (Backtest_engine.mkStrategy (Some 0%Z) None None None None None None))
  = Raise ZeroDivisionError.
Proof.
  refine (proj2 (period_zero_raises Samples.engine Samples.candles
                   (Backtest_engine.mkStrategy (Some 0%Z) None None None None
                      None None) eq_refl _)).
  vm_compute. lia.
Defined.

Section Prefix_facts.

Import Backtest_engine.

Variable self : BacktestEngine.
Variable strategy : Strategy.

Lemma run_loop_app (candles : list Candle) :
  forall (a b : list Candle) (i : nat) (st : Locals),
    run_loop self strategy candles i (a ++ b) st =
    (st1 <- run_loop self strategy candles i a st ;;
     run_loop self strategy candles (i + length a) b st1).
Proof.
  induction a as [| c a IH]; intros b i st; simpl.
  - now rewrite Nat.add_0_r.
  - destruct (_check_signal c strategy (firstn i candles)); simpl; auto.
    destruct (loop_body self c a0 st); simpl; auto.
    rewrite IH. replace (S i + length a)%nat with (i + S (length a))%nat by lia.
    reflexivity.
Qed.

Lemma run_loop_prefix (candles extra : list Candle) :
  forall (rest : list Candle) (i : nat) (st : Locals),
    (i + length rest <= S (length candles))%nat ->
    run_loop self strategy (candles ++ extra) i rest st
    = run_loop self strategy candles i rest st.
Proof.
  induction rest as [| c rest IH]; intros i st Hi; simpl; [ reflexivity |].
  simpl in Hi.
  rewrite firstn_app.
  replace (i - length candles)%nat with 0%nat by lia.
  simpl. rewrite app_nil_r.
  destruct (_check_signal c strategy (firstn i candles)); simpl; auto.
  destruct (loop_body self c a st); simpl; auto.
  apply IH. lia.
Qed.

Lemma run_loop_appends (candles : list Candle) :
  forall (rest : list Candle) (i : nat) (st st' : Locals),
    run_loop self strategy candles i rest st = Ok st' ->
    exists more, trades st' = trades st ++ more.
Proof.
  induction rest as [| c rest IH]; intros i st st' H; simpl in H.
  - inversion H; subst. exists []. now rewrite app_nil_r.
  - inv_bind H. inv_bind H.
    destruct (IH _ _ _ H) as (more & Hmore).
    destruct (loop_body_cases _ _ _ _ _ Ha0)
      as [-> | [(_ & _ & pos & _ & ->) | [(pos & _ & _ & ->)
                                          | (pos & _ & _ & _ & ->)]]];
      simpl in Hmore.
    + eauto.
    + eauto.
    + rewrite <- app_assoc in Hmore. eauto.
    + rewrite <- app_assoc in Hmore. eauto.
Qed.

Lemma run_upto_prefix (candles extra : list Candle) (k : nat) :
  (k <= length candles)%nat ->
  run_upto self strategy (candles ++ extra) k
  = run_upto self strategy candles k.
Proof.
  intros Hk. unfold run_upto.
  rewrite firstn_app.
  replace (k - length candles)%nat with 0%nat by lia.
  simpl. rewrite app_nil_r.
  apply run_loop_prefix. simpl. rewrite length_firstn. lia.
Qed.

Lemma run_upto_appends (candles : list Candle) (k n : nat)
    (st st' : Locals) :
  (k <= n)%nat ->
  run_upto self strategy candles k = Ok st ->
  run_upto self strategy candles n = Ok st' ->
  exists more, trades st' = trades st ++ more.
Proof.
  intros Hkn Hk Hn. unfold run_upto in Hk, Hn.
  assert (Hsplit : firstn n candles
                   = firstn k candles ++ skipn k (firstn n candles)).
  { rewrite <- (firstn_skipn k (firstn n candles)) at 1.
    rewrite firstn_firstn. now rewrite Nat.min_l by lia. }
  rewrite Hsplit, run_loop_app, Hk in Hn. simpl in Hn.
  now apply run_loop_appends in Hn.
Qed.

End Prefix_facts.

(** X15.  [run] never looks ahead: what it has done after the first [k]
    candles is the same whatever candles follow them, and processing the
    candles that follow only appends to the trades recorded by then. *)
Theorem later_candles_only_append_trades :
  forall (self : Backtest_engine.BacktestEngine)
         (strategy : Backtest_engine.Strategy)
         (candles extra : list Backtest_engine.Candle) (k : nat),
    (k <= length candles)%nat ->
    Backtest_engine.run_upto self strategy (candles ++ extra) k
    = Backtest_engine.run_upto self strategy candles k
    /\ forall st st',
        Backtest_engine.run_upto self strategy candles k = Ok st ->
        Backtest_engine.run_upto self strategy (candles ++ extra)
          (length (candles ++ extra)) = Ok st' ->
        exists more,
          Backtest_engine.trades st' = Backtest_engine.trades st ++ more.
Proof.
  intros self strategy candles extra k Hk.
  split; [ now apply run_upto_prefix |].
  intros st st' Hst Hst'.
  rewrite <- (run_upto_prefix self strategy candles extra k Hk) in Hst.
  apply (run_upto_appends self strategy (candles ++ extra) k
           (length (candles ++ extra)) st st'); auto.
  rewrite length_app. lia.
Qed.

Lemma later_candles_only_append_trades_witness :
  (23 <= length (firstn 23 Samples.candles))%nat
  /\ Backtest_engine.run_upto Samples.engine Samples.params
       (firstn 23 Samples.candles ++ skipn 23 Samples.candles) 23
     = Backtest_engine.run_upto Samples.engine Samples.params
         (firstn 23 Samples.candles) 23.
Proof.
  assert (H : (23 <= length (firstn 23 Samples.candles))%nat)
    by (vm_compute; lia).
  split; [ exact H |].
  exact (proj1 (later_candles_only_append_trades Samples.engine Samples.params
                  (firstn 23 Samples.candles) (skipn 23 Samples.candles) 23 H)).
Defined.

(* ================================================================= *)
(** ** More on the strategy evolver *)

Section Float_total_order.

Lemma SFcompare_flip (a b : spec_float) (c : comparison) :
  SFcompare a b = Some c -> SFcompare b a = Some (CompOpp c).
Proof.
  destruct a as [sa | sa | | sa ma ea], b as [sb | sb | | sb mb eb];
    try destruct sa; try destruct sb; simpl;
    intros H; try discriminate; injection H as <-; try reflexivity.
  - f_equal.
    change (Pos.compare_cont Eq ma mb) with (ma ?= mb)%positive.
    change (Pos.compare_cont Eq mb ma) with (mb ?= ma)%positive.
    destruct (Z.compare_spec ea eb); destruct (Z.compare_spec eb ea);
      try lia; try reflexivity;
      destruct (Pos.compare_spec ma mb); destruct (Pos.compare_spec mb ma);
      try lia; reflexivity.
  - f_equal.
    change (Pos.compare_cont Eq ma mb) with (ma ?= mb)%positive.
    change (Pos.compare_cont Eq mb ma) with (mb ?= ma)%positive.
    destruct (Z.compare_spec ea eb); destruct (Z.compare_spec eb ea);
      try lia; try reflexivity;
      destruct (Pos.compare_spec ma mb); destruct (Pos.compare_spec mb ma);
      try lia; reflexivity.
Qed.

Lemma SFcompare_defined (a b : spec_float) :
  a <> S754_nan -> b <> S754_nan -> SFcompare a b <> None.
Proof.
  destruct a as [sa | sa | | sa ma ea], b as [sb | sb | | sb mb eb];
    simpl; intros Ha Hb; congruence.
Qed.

Lemma SFcompare_Eq_Lt (a b c : spec_float) :
  SFcompare a b = Some Eq -> SFcompare b c = Some Lt ->
  SFcompare a c = Some Lt.
Proof.
  destruct a as [sa | sa | | sa ma ea], b as [sb | sb | | sb mb eb];
    try destruct sa; try destruct sb; simpl; intros Hab;
    try discriminate; try (intros Hbc; exact Hbc).
  - injection Hab as Hab.
    change (Pos.compare_cont Eq ma mb) with (ma ?= mb)%positive in Hab.
    destruct (Z.compare_spec ea eb); try discriminate.
    destruct (Pos.compare_spec ma mb); try discriminate.
    subst. intros Hbc; exact Hbc.
  - injection Hab as Hab.
    change (Pos.compare_cont Eq ma mb) with (ma ?= mb)%positive in Hab.
    destruct (Z.compare_spec ea eb); try discriminate.
    destruct (Pos.compare_spec ma mb); try discriminate.
    subst. intros Hbc; exact Hbc.
Qed.

Lemma not_nan_spec (x : float) : is_nan x = false -> Prim2SF x <> S754_nan.
Proof.
  unfold is_nan. rewrite eqb_spec. intros H E. rewrite E in H.
  discriminate.
Qed.

Lemma not_ltb_leb (x y : float) :
  is_nan x = false -> is_nan y = false ->
  (x <? y) = false -> (y <=? x) = true.
Proof.
  intros Hx Hy. rewrite ltb_spec, leb_spec. unfold SFltb, SFleb.
  pose proof (SFcompare_defined _ _ (not_nan_spec _ Hx) (not_nan_spec _ Hy))
    as Hdef.
  destruct (SFcompare (Prim2SF x) (Prim2SF y)) as [c |] eqn:E;
    [| congruence ].
  rewrite (SFcompare_flip _ _ _ E).
  destruct c; simpl; intros H; (discriminate || reflexivity).
Qed.

Lemma leb_ltb_trans (x y z : float) :
  (x <=? y) = true -> (y <? z) = true -> (x <? z) = true.
Proof.
  rewrite leb_spec, !ltb_spec. unfold SFleb, SFltb. intros Hxy Hyz.
  destruct (SFcompare (Prim2SF y) (Prim2SF z)) as [[| |] |] eqn:Eyz;
    try discriminate.
  destruct (SFcompare (Prim2SF x) (Prim2SF y)) as [[| |] |] eqn:Exy;
    try discriminate.
  - now rewrite (SFcompare_Eq_Lt _ _ _ Exy Eyz).
  - now rewrite (SFcompare_Lt_trans _ _ _ Exy Eyz).
Qed.

End Float_total_order.

Section Maximum_facts.

Import Strategy_evolver.

Let below (sel r : Result.t) : Prop :=
  (Result.win_rate r <? Result.win_rate sel) = true.

Let not_above (sel r : Result.t) : Prop :=
  (Result.win_rate r <=? Result.win_rate sel) = true.

(** The running maximum ends at its start when nothing later is greater,
    and otherwise at the first later element that nothing before it
    equals and nothing after it exceeds. *)
Lemma max_from_first (rest : list Result.t) :
  forall best : Result.t,
    no_nan (best :: rest) = true ->
    (max_from best rest = best /\ Forall (not_above best) rest)
    \/ (exists before after,
           rest = before ++ max_from best rest :: after
           /\ below (max_from best rest) best
           /\ Forall (below (max_from best rest)) before
           /\ Forall (not_above (max_from best rest)) after).
Proof.
  induction rest as [| r rest IH]; intros best Hnan.
  - left. split; [ reflexivity | constructor ].
  - simpl in Hnan. apply andb_true_iff in Hnan. destruct Hnan as [Hb Hnan].
    apply andb_true_iff in Hnan. destruct Hnan as [Hr Hrest].
    apply negb_true_iff in Hb. apply negb_true_iff in Hr.
    simpl. unfold Py.gt.
    destruct (Result.win_rate best <? Result.win_rate r) eqn:Hgt.
    + assert (Hnan' : no_nan (r :: rest) = true)
        by (simpl; now rewrite Hr, Hrest).
      destruct (IH r Hnan') as [[Hsame Hall] | (before & after & Hsplit & Hbelow
                                                & Hbefore & Hafter)].
      * right. exists [], rest. rewrite Hsame.
        split; [ reflexivity | split; [ exact Hgt | split; [ constructor | exact Hall ] ] ].
      * right. exists (r :: before), after.
        split; [ simpl; now rewrite <- Hsplit |].
        split; [ exact (ltb_trans _ _ _ Hgt Hbelow) |].
        split; [ constructor; [ exact Hbelow | exact Hbefore ] | exact Hafter ].
    + assert (Hnan' : no_nan (best :: rest) = true)
        by (simpl; now rewrite Hb, Hrest).
      pose proof (not_ltb_leb _ _ Hb Hr Hgt) as Hle.
      destruct (IH best Hnan') as [[Hsame Hall] | (before & after & Hsplit & Hbelow
                                                   & Hbefore & Hafter)].
      * left. split; [ exact Hsame | constructor; [ exact Hle | exact Hall ] ].
      * right. exists (r :: before), after.
        split; [ simpl; now rewrite <- Hsplit |].
        split; [ exact Hbelow |].
        split; [ constructor; [ exact (leb_ltb_trans _ _ _ Hle Hbelow)
                              | exact Hbefore ]
               | exact Hafter ].
Qed.

End Maximum_facts.

(** X16.  [select_best] raises [ValueError] on an empty list and leaves the
    evolver alone.  On a list without NaN win rates the variant it returns
    carries the params and the win rate of the first result with the
    greatest win rate: every result before it has a smaller win rate and no
    result after it a greater one. *)
Theorem select_best_takes_the_first_maximum :
  forall (self : Strategy_evolver.StrategyEvolver) (utcnow : string)
         (results : list Strategy_evolver.Result.t),
    Strategy_evolver.no_nan results = true ->
    match results with
    | [] =>
        Strategy_evolver.select_best self utcnow results
        = (self, Raise ValueError)
    | _ :: _ =>
        exists before sel after variant,
          results = before ++ sel :: after
          /\ snd (Strategy_evolver.select_best self utcnow results) = Ok variant
          /\ Strategy_evolver.params variant
             = Strategy_evolver.Result.params sel
          /\ Strategy_evolver.win_rate variant
             = Strategy_evolver.Result.win_rate sel
          /\ Forall (fun r =>
                       (Strategy_evolver.Result.win_rate r
                        <? Strategy_evolver.Result.win_rate sel) = true)
               before
          /\ Forall (fun r =>
                       (Strategy_evolver.Result.win_rate r
                        <=? Strategy_evolver.Result.win_rate sel) = true)
               after
    end.
Proof.
  intros self utcnow [| r0 rest] Hnan; [ reflexivity |].
  destruct (select_best_returns self utcnow (r0 :: rest) _ eq_refl)
    as (v & Hv & Hparams & Hwr).
  destruct (max_from_first rest r0 Hnan)
    as [[Hsame Hall] | (before & after & Hsplit & Hbelow & Hbefore & Hafter)].
  - rewrite Hsame in Hparams, Hwr. exists [], r0, rest, v.
    split; [ reflexivity | split; [ exact Hv |] ].
    split; [ exact Hparams | split; [ exact Hwr |] ].
    split; [ constructor | exact Hall ].
  - exists (r0 :: before), (Strategy_evolver.max_from r0 rest), after, v.
    split; [ simpl; now rewrite <- Hsplit | split; [ exact Hv |] ].
    split; [ exact Hparams | split; [ exact Hwr |] ].
    split; [ constructor; [ exact Hbelow | exact Hbefore ] | exact Hafter ].
Qed.

Lemma select_best_takes_the_first_maximum_witness :
  Strategy_evolver.no_nan Evolver_samples.results = true
  /\ exists before sel after variant,
      Evolver_samples.results = before ++ sel :: after
      /\ snd (Strategy_evolver.select_best Evolver_samples.evolver
                "2024-01-01T00:00:00" Evolver_samples.results) = Ok variant
      /\ Strategy_evolver.params variant = Strategy_evolver.Result.params sel
      /\ Strategy_evolver.win_rate variant
         = Strategy_evolver.Result.win_rate sel
      /\ Forall (fun r =>
                   (Strategy_evolver.Result.win_rate r
                    <? Strategy_evolver.Result.win_rate sel) = true)
           before
      /\ Forall (fun r =>
                   (Strategy_evolver.Result.win_rate r
                    <=? Strategy_evolver.Result.win_rate sel) = true)
           after.
Proof.
  assert (H : Strategy_evolver.no_nan Evolver_samples.results = true)
    by (vm_compute; reflexivity).
  split; [ exact H |].
  exact (select_best_takes_the_first_maximum Evolver_samples.evolver
           "2024-01-01T00:00:00" Evolver_samples.results H).
Defined.

Section Log_facts.

Import Strategy_evolver.

Lemma last_cons {A : Type} (a d : A) (l : list A) :
  last (a :: l) d = last l a.
Proof.
  revert a d. induction l as [| b l IH]; intros a d; [ reflexivity |].
  change (last (a :: b :: l) d) with (last (b :: l) d).
  now rewrite (IH b d), (IH b a).
Qed.

Lemma last_app_default {A : Type} (a b : list A) (d : A) :
  last (a ++ b) d = last b (last a d).
Proof.
  revert d. induction a as [| x a IH]; intros d; [ reflexivity |].
  change ((x :: a) ++ b) with (x :: (a ++ b)).
  now rewrite !last_cons, IH.
Qed.

Lemma no_lower_ltb (a b c : float) :
  no_lower a b -> (b <? c) = true -> (a <? c) = true.
Proof.
  intros [-> | Hab] Hbc; [ exact Hbc | exact (ltb_trans _ _ _ Hab Hbc) ].
Qed.

Lemma rising_from_lower (w w' : float) (entries : list Entry.t) :
  no_lower w w' -> rising_from w' entries -> rising_from w entries.
Proof.
  destruct entries as [| e entries]; intros Hw H; [ exact I |].
  cbn [rising_from] in *. destruct H as [Hlt H].
  split; [ exact (no_lower_ltb _ _ _ Hw Hlt) | exact H ].
Qed.

Lemma rising_from_app (w : float) (a b : list Entry.t) :
  rising_from w a -> rising_from (last (map Entry.win_rate a) w) b ->
  rising_from w (a ++ b).
Proof.
  revert w. induction a as [| e a IH]; intros w Ha Hb.
  - exact Hb.
  - cbn [app rising_from] in Ha |- *.
    destruct Ha as [Hlt Ha]. split; [ exact Hlt |].
    apply IH; [ exact Ha |].
    cbn [map] in Hb. now rewrite last_cons in Hb.
Qed.

(** One call: the log gains no entry or one. *)
Lemma perform_evolved (self : StrategyEvolver) (c : call) :
  exists appended,
    evolved self (perform self c) appended
    /\ (writable [c] = true -> in_step self (perform self c) appended).
Proof.
  assert (Hsame : forall s : StrategyEvolver,
             tree s = tree self -> best_win_rate s = best_win_rate self ->
             base_strategy s = base_strategy self ->
             evolved self s [] /\ in_step self s []).
  { intros s Ht Hw Hb. unfold evolved, in_step. simpl.
    rewrite Ht, Hw, Hb, app_nil_r.
    repeat split. apply no_lower_refl. }
  destruct c as [random utcnow n | data_dir utcnow results]; simpl.
  - exists []. destruct (Hsame (fst (generate_variants self random utcnow n)))
      as [He Hi]; try reflexivity. split; [ exact He | intros _; exact Hi ].
  - unfold select_best_in, _log_evolution.
    destruct (max_by_win_rate results) as [best | e]; simpl.
    2:{ exists []. destruct (Hsame self) as [He Hi]; try reflexivity.
        split; [ exact He | intros _; exact Hi ]. }
    destruct (Py.gt (Result.win_rate best) (best_win_rate self)) eqn:Hgt.
    2:{ exists []. destruct (Hsame self) as [He Hi]; try reflexivity.
        split; [ exact He | intros _; exact Hi ]. }
    destruct data_dir; simpl.
    + eexists [ _ ]. unfold evolved, in_step. simpl.
      split.
      * split; [ reflexivity |].
        split; [ split; [ exact Hgt | exact I ] | apply no_lower_refl ].
      * intros _. split; reflexivity.
    + exists []. unfold evolved. simpl. rewrite app_nil_r.
      split; [| discriminate ].
      split; [ reflexivity | split; [ exact I | right; exact Hgt ] ].
Qed.

Lemma evolved_trans (s0 s1 s2 : StrategyEvolver) (a b : list Entry.t) :
  evolved s0 s1 a -> evolved s1 s2 b -> evolved s0 s2 (a ++ b).
Proof.
  intros (Ht1 & Hr1 & Hw1) (Ht2 & Hr2 & Hw2). unfold evolved.
  split; [ now rewrite Ht2, Ht1, app_assoc |].
  split.
  - apply rising_from_app; [ exact Hr1 |].
    exact (rising_from_lower _ _ _ Hw1 Hr2).
  - rewrite map_app, last_app_default.
    destruct b as [| e b].
    + simpl in Hw2 |- *. exact (no_lower_trans _ _ _ Hw1 Hw2).
    + cbn [map] in Hw2 |- *. rewrite last_cons in Hw2 |- *. exact Hw2.
Qed.

Lemma in_step_trans (s0 s1 s2 : StrategyEvolver) (a b : list Entry.t) :
  in_step s0 s1 a -> in_step s1 s2 b -> in_step s0 s2 (a ++ b).
Proof.
  intros (Hw1 & Hp1) (Hw2 & Hp2). unfold in_step.
  rewrite !map_app, !last_app_default, <- Hw1, <- Hp1. auto.
Qed.

Lemma perform_all_evolved (calls : list call) :
  forall self,
  exists appended,
    evolved self (perform_all self calls) appended
    /\ (writable calls = true ->
        in_step self (perform_all self calls) appended).
Proof.
  induction calls as [| c calls IH]; intros self.
  - exists []. unfold evolved, in_step. simpl. rewrite app_nil_r.
    repeat split. apply no_lower_refl.
  - destruct (perform_evolved self c) as (a & Ha & Hia).
    destruct (IH (perform self c)) as (b & Hb & Hib).
    exists (a ++ b). split.
    + exact (evolved_trans _ _ _ _ _ Ha Hb).
    + intros Hw. cbn [writable forallb] in Hw.
      apply andb_true_iff in Hw. destruct Hw as [Hc Hcalls].
      apply (in_step_trans _ (perform self c)).
      * apply Hia. cbn [writable forallb]. now rewrite Hc.
      * apply Hib. exact Hcalls.
Qed.

Lemma perform_counters (self : StrategyEvolver) (c : call) :
  variants (perform self c) = variants self
  /\ tree_path (perform self c) = tree_path self
  /\ generation (perform self c)
     = (generation self + generate_calls [c])%Z.
Proof.
  destruct c as [random utcnow n | data_dir utcnow results]; simpl.
  - auto.
  - unfold select_best_in, _log_evolution.
    destruct (max_by_win_rate results) as [best | e]; simpl;
      [ destruct (Py.gt (Result.win_rate best) (best_win_rate self));
        [ destruct data_dir |] |];
      simpl; repeat split; unfold generate_calls; simpl; lia.
Qed.

Lemma perform_all_counters (calls : list call) :
  forall self,
    variants (perform_all self calls) = variants self
    /\ tree_path (perform_all self calls) = tree_path self
    /\ generation (perform_all self calls)
       = (generation self + generate_calls calls)%Z.
Proof.
  induction calls as [| c calls IH]; intros self.
  - unfold generate_calls. simpl. repeat split. lia.
  - destruct (perform_counters self c) as (Hv & Hp & Hg).
    destruct (IH (perform self c)) as (Hv' & Hp' & Hg').
    change (perform_all self (c :: calls))
      with (perform_all (perform self c) calls).
    rewrite Hv', Hp', Hg', Hv, Hp, Hg.
    repeat split. unfold generate_calls. simpl.
    destruct c; simpl; lia.
Qed.

End Log_facts.

(** X17.  Whatever calls are made of an evolver, and whether or not the
    directory of the log is there when a selection wants to write, the log
    is only appended to, the win rates of the appended entries rise
    strictly, the first of them above the best win rate the evolver started
    with, and the evolver's best win rate is never below the last one
    written.  When every selection finds the directory, the evolver ends
    with the win rate and the params of the last entry written (those it
    started with if nothing was written). *)
Theorem evolution_log_rises :
  forall (self : Strategy_evolver.StrategyEvolver)
         (calls : list Strategy_evolver.call),
  exists appended,
    Strategy_evolver.tree (Strategy_evolver.perform_all self calls)
    = Strategy_evolver.tree self ++ appended
    /\ Strategy_evolver.rising_from (Strategy_evolver.best_win_rate self)
         appended
    /\ Strategy_evolver.no_lower
         (last (map Strategy_evolver.Entry.win_rate appended)
            (Strategy_evolver.best_win_rate self))
         (Strategy_evolver.best_win_rate
            (Strategy_evolver.perform_all self calls))
    /\ (if Strategy_evolver.writable calls
        then Strategy_evolver.best_win_rate
               (Strategy_evolver.perform_all self calls)
             = last (map Strategy_evolver.Entry.win_rate appended)
                 (Strategy_evolver.best_win_rate self)
             /\ Strategy_evolver.base_strategy
                  (Strategy_evolver.perform_all self calls)
                = last (map Strategy_evolver.Entry.params appended)
                    (Strategy_evolver.base_strategy self)
        else True).
Proof.
  intros self calls.
  destruct (perform_all_evolved calls self) as (appended & (Ht & Hr & Hw) & Hi).
  exists appended.
  split; [ exact Ht | split; [ exact Hr | split; [ exact Hw |] ] ].
  destruct (Strategy_evolver.writable calls); [ exact (Hi eq_refl) | exact I ].
Qed.

(** X18.  No method appends to [self.variants]: after any calls of a fresh
    evolver [get_current_best] reports 0 variants tested, and as generation
    the number of [generate_variants] calls made, with whatever arguments
    and whether or not a selection raised in between. *)
Theorem current_best_counts_generations_only :
  forall (tree : list Strategy_evolver.Entry.t)
         (calls : list Strategy_evolver.call),
    let summary :=
      Strategy_evolver.get_current_best
        (Strategy_evolver.perform_all (Strategy_evolver.__init__ tree) calls) in
    Strategy_evolver.CurrentBest.variants_tested summary = 0%Z
    /\ Strategy_evolver.CurrentBest.generation summary
       = Strategy_evolver.generate_calls calls.
Proof.
  intros tree calls.
  destruct (perform_all_counters calls (Strategy_evolver.__init__ tree))
    as (Hv & _ & Hg).
  unfold Strategy_evolver.get_current_best. simpl.
  rewrite Hv, Hg. split; reflexivity.
Qed.

